(** * scrape_eventbrite: a shallow embedding and its specification

    The development follows [src/scrape_eventbrite.py]: the Eventbrite
    scraper that validates a token, pages through the search results of
    each state, normalizes the raw records, keeps the events of the
    coming days, removes duplicates and writes [events.json] and
    [events.md].

    Python values are JSON values; a Python exception is a value of
    [exn] and a computation that may raise returns a [result].  The
    network is a script of responses consumed one per request, together
    with the trace of the requests sent and of the pauses taken.

    What belongs to the interpreter and not to the program is a
    parameter: the parser [datetime.fromisoformat], the text of a list
    or of a dict, and the text of the exceptions that the interpreter
    raises.  The messages printed on the console are left out, and
    both files are taken to be writable and their text to be one
    that UTF-8 encodes. *)

From stdpp Require Import base option list strings gmap.
From Stdlib Require Import ZArith QArith_base Ascii DecimalString Lia.

Set Warnings "-register-all".
Close Scope Q_scope.
Local Open Scope string_scope.
Local Open Scope list_scope.

(** ** Values *)

(** What [json.loads] produces.  A [dict] is the list of its items in
    insertion order, one item per key.  Numbers are the integers: the
    program never computes with a number of the API, it only tests it
    for truth and hashes it. *)
Inductive json : Type :=
| JNull
| JBool (b : bool)
| JNum (n : Z)
| JStr (s : string)
| JArr (items : list json)
| JObj (fields : list (string * json)).

(** The reasons for which the interpreter raises [TypeError] in this
    program. *)
Inductive type_error : Type :=
| NotAString (v : json)          (* datetime.fromisoformat(v), v not a str *)
| NaiveWithAware                 (* naive <= aware *)
| Unhashable (v : json)          (* hash of a list or of a dict *)
| NotIterable (v : json)         (* list.extend(v) *)
| JoinItem (i : nat) (v : json). (* ', '.join: item i is not a str *)

Inductive exn : Type :=
| RuntimeError (msg : string)
| AttributeError (obj : json) (attr : string)
| TypeError (why : type_error)
| OverflowError
| ValueError.                     (* time.sleep of a negative number *)

Inductive result (A : Type) : Type :=
| Ok (a : A)
| Raise (e : exn).
Arguments Ok {A} a.
Arguments Raise {A} e.

#[global] Instance result_ret : MRet result := fun A a => Ok a.
#[global] Instance result_bind : MBind result := fun A B f m =>
  match m with
  | Ok a => f a
  | Raise e => Raise e
  end.

Definition is_ok {A} (r : result A) : bool :=
  match r with Ok _ => true | Raise _ => false end.

(** ** The Python operations the program uses *)

(** [bool(v)] *)
Definition truthy (v : json) : bool :=
  match v with
  | JNull => false
  | JBool b => b
  | JNum n => negb (n =? 0)%Z
  | JStr s => negb (String.eqb s "")
  | JArr items => match items with [] => false | _ => true end
  | JObj fields => match fields with [] => false | _ => true end
  end.

(** [a or b] *)
Definition py_or (a b : json) : json := if truthy a then a else b.

Fixpoint dict_lookup (k : string) (fields : list (string * json)) : option json :=
  match fields with
  | [] => None
  | (k', v) :: rest => if String.eqb k k' then Some v else dict_lookup k rest
  end.

(** [v.get(k, d)]: only a dict has the method. *)
Definition py_get_default (v : json) (k : string) (d : json) : result json :=
  match v with
  | JObj fields => Ok (default d (dict_lookup k fields))
  | _ => Raise (AttributeError v "get")
  end.

(** [v.get(k)] *)
Definition py_get (v : json) (k : string) : result json :=
  py_get_default v k JNull.

Definition str_of_Z (z : Z) : string := NilZero.string_of_int (Z.to_int z).

(** [text[:256]] *)
Definition snippet (text : string) : string := String.substring 0 256 text.

(** ** normalize_events *)

(** The dict that [normalize_events] builds, with its eleven keys. *)
Record NormalizedEvent : Type := {
  ev_id : json;
  ev_name : json;
  ev_url : json;
  ev_start : json;
  ev_end : json;
  ev_is_free : json;
  ev_status : json;
  ev_city : json;
  ev_state : json;
  ev_venue_name : json;
  ev_address : json
}.

(** The body of the loop of [normalize_events]. *)
Definition normalize_event (e : json) : result NormalizedEvent :=
  v ← py_get e "venue";
  let venue := py_or v (JObj []) in
  a ← py_get venue "address";
  let address := py_or a (JObj []) in
  id ← py_get e "id";
  n ← py_get e "name";
  name ← py_get (py_or n (JObj [])) "text";
  url ← py_get e "url";
  s ← py_get e "start";
  start ← py_get (py_or s (JObj [])) "local";
  en ← py_get e "end";
  end_ ← py_get (py_or en (JObj [])) "local";
  is_free ← py_get e "is_free";
  status ← py_get e "status";
  city ← py_get address "city";
  state ← py_get address "region";
  venue_name ← py_get venue "name";
  addr ← py_get address "localized_address_display";
  Ok {| ev_id := id; ev_name := name; ev_url := url; ev_start := start;
        ev_end := end_; ev_is_free := is_free; ev_status := status;
        ev_city := city; ev_state := state; ev_venue_name := venue_name;
        ev_address := addr |}.

Fixpoint normalize_loop (events : list json) (normalized : list NormalizedEvent)
  : result (list NormalizedEvent) :=
  match events with
  | [] => Ok normalized
  | e :: rest =>
      ne ← normalize_event e;
      normalize_loop rest (normalized ++ [ne])
  end.

Definition normalize_events (events : list json) : result (list NormalizedEvent) :=
  normalize_loop events [].

(** *** The flat shape in the words of the specification *)

(** The value found by following [path] through nested dicts, and
    [JNull], the no-value marker, as soon as a step is absent. *)
Fixpoint json_path (path : list string) (v : json) : json :=
  match path with
  | [] => v
  | k :: rest =>
      match v with
      | JObj fields =>
          match dict_lookup k fields with
          | Some x => json_path rest x
          | None => JNull
          end
      | _ => JNull
      end
  end.

(** Whether every step of [path] finds a key. *)
Fixpoint path_present (path : list string) (v : json) : bool :=
  match path with
  | [] => true
  | k :: rest =>
      match v with
      | JObj fields =>
          match dict_lookup k fields with
          | Some x => path_present rest x
          | None => false
          end
      | _ => false
      end
  end.

Definition flat_view (e : json) : NormalizedEvent :=
  {| ev_id := json_path ["id"] e;
     ev_name := json_path ["name"; "text"] e;
     ev_url := json_path ["url"] e;
     ev_start := json_path ["start"; "local"] e;
     ev_end := json_path ["end"; "local"] e;
     ev_is_free := json_path ["is_free"] e;
     ev_status := json_path ["status"] e;
     ev_city := json_path ["venue"; "address"; "city"] e;
     ev_state := json_path ["venue"; "address"; "region"] e;
     ev_venue_name := json_path ["venue"; "name"] e;
     ev_address := json_path ["venue"; "address"; "localized_address_display"] e |}.

(** The eleven fields with the path each one is read from. *)
Definition field_paths : list (list string * (NormalizedEvent → json)) :=
  [ (["id"], ev_id);
    (["name"; "text"], ev_name);
    (["url"], ev_url);
    (["start"; "local"], ev_start);
    (["end"; "local"], ev_end);
    (["is_free"], ev_is_free);
    (["status"], ev_status);
    (["venue"; "address"; "city"], ev_city);
    (["venue"; "address"; "region"], ev_state);
    (["venue"; "name"], ev_venue_name);
    (["venue"; "address"; "localized_address_display"], ev_address) ].

(** A value under which the program looks for a nested key: absent,
    falsy, or a dict. *)
Definition nests (v : json) : bool :=
  match v with
  | JObj _ => true
  | _ => negb (truthy v)
  end.

(** A raw record whose [name], [start], [end], [venue] and venue
    [address] vary by presence only. *)
Definition raw_shape (e : json) : bool :=
  match e with
  | JObj _ =>
      nests (json_path ["name"] e) && nests (json_path ["start"] e)
      && nests (json_path ["end"] e) && nests (json_path ["venue"] e)
      && nests (json_path ["venue"; "address"] e)
  | _ => false
  end.

(** ** Dates and times *)

(** A [datetime]: the microseconds since 0001-01-01T00:00:00 of its
    wall-clock reading, and for an aware one its UTC offset. *)
Inductive datetime : Type :=
| Naive (us : Z)
| Aware (us : Z) (utcoffset : Z).

Definition US_PER_DAY : Z := 86400000000.

(** [datetime.max] is 9999-12-31T23:59:59.999999, the last microsecond
    of day 3652059. *)
Definition DATETIME_MAX : Z := 3652059 * US_PER_DAY - 1.

(** [now + timedelta(days=days)]: a [timedelta] holds at most 999999999
    days and a [datetime] lies between [datetime.min] and
    [datetime.max]. *)
Definition add_days (now days : Z) : result Z :=
  if (Z.abs days <=? 999999999)%Z then
    let t := (now + days * US_PER_DAY)%Z in
    if (0 <=? t)%Z && (t <=? DATETIME_MAX)%Z then Ok t else Raise OverflowError
  else Raise OverflowError.

(** ** Deduplication keys *)

(** The class of a hashable value under [==]: [True == 1] and
    [False == 0], and their hashes agree. *)
Inductive hkey : Type :=
| KNone
| KNum (n : Z)
| KStr (s : string).

#[global] Instance hkey_eq_dec : EqDecision hkey.
Proof. solve_decision. Defined.

#[global] Instance hkey_countable : Countable hkey.
Proof.
  refine (inj_countable'
    (λ k, match k with
          | KNone => inl ()
          | KNum n => inr (inl n)
          | KStr s => inr (inr s)
          end)
    (λ x, match x with
          | inl _ => KNone
          | inr (inl n) => KNum n
          | inr (inr s) => KStr s
          end) _).
  by intros [].
Defined.

Definition key_class (v : json) : option hkey :=
  match v with
  | JNull => Some KNone
  | JBool b => Some (KNum (if b then 1 else 0))
  | JNum n => Some (KNum n)
  | JStr s => Some (KStr s)
  | JArr _ | JObj _ => None
  end.

(** [hash(v)], with the class of [v] standing for the hash and the
    comparison that follows it. *)
Definition hash_key (v : json) : result hkey :=
  match key_class v with
  | Some k => Ok k
  | None => Raise (TypeError (Unhashable v))
  end.

(** [key = (e.get("name"), e.get("start"))], hashed for [key in seen]. *)
Definition event_key (e : NormalizedEvent) : result (hkey * hkey) :=
  n ← hash_key (ev_name e);
  s ← hash_key (ev_start e);
  Ok (n, s).

(** The deduplication loop of [fetch_events]. *)
Fixpoint dedup_loop (upcoming : list NormalizedEvent) (seen : gset (hkey * hkey))
    (unique : list NormalizedEvent) : result (list NormalizedEvent) :=
  match upcoming with
  | [] => Ok unique
  | e :: rest =>
      key ← event_key e;
      if decide (key ∈ seen) then dedup_loop rest seen unique
      else dedup_loop rest ({[key]} ∪ seen) (unique ++ [e])
  end.

Definition deduplicate (upcoming : list NormalizedEvent) : result (list NormalizedEvent) :=
  dedup_loop upcoming ∅ [].

(** *** Deduplication in the words of the specification *)

Definition hashable_event (e : NormalizedEvent) : bool :=
  bool_decide (is_Some (key_class (ev_name e)))
  && bool_decide (is_Some (key_class (ev_start e))).

(** The composite key [(name, start)]. *)
Definition composite_key (e : NormalizedEvent) : option hkey * option hkey :=
  (key_class (ev_name e), key_class (ev_start e)).

(** The events with no event of the same key among [earlier] or before
    them in the list, in the order of the list. *)
Fixpoint first_occurrences (earlier : list NormalizedEvent) (l : list NormalizedEvent)
  : list NormalizedEvent :=
  match l with
  | [] => []
  | e :: rest =>
      if bool_decide (Exists (λ e', composite_key e' = composite_key e) earlier)
      then first_occurrences (earlier ++ [e]) rest
      else e :: first_occurrences (earlier ++ [e]) rest
  end.

(** ** Configuration *)

(** The settings read from the environment: the module-level ones,
    read when the module is loaded, and the user agent, which
    [fetch_events] reads.  The delay is the number that [float]
    returns, a finite one, as the rational it stands for. *)
Record Config : Type := {
  DEFAULT_QUERY : string;
  DEFAULT_WITHIN : string;
  LOOKAHEAD_DAYS : Z;
  PAGE_DELAY_SEC : Q;
  VNN_USER_AGENT : string
}.

Definition default_config : Config :=
  {| DEFAULT_QUERY := "veteran OR veterans OR military OR service member";
     DEFAULT_WITHIN := "500mi";
     LOOKAHEAD_DAYS := 60;
     PAGE_DELAY_SEC := (1 # 2)%Q;
     VNN_USER_AGENT := "mt-wy-veteran-events-scraper/1.0" |}.

Definition API_BASE : string := "https://www.eventbriteapi.com/v3".
Definition DEFAULT_STATES : list string := ["Montana"; "Wyoming"].

(** ** The network *)

(** What [session.get] does: it raises a [requests.RequestException],
    whose text is [exc], or it returns a response.  [body] is what
    [resp.json()] returns, and [None] when it raises [ValueError]. *)
Inductive http_outcome : Type :=
| Transport (exc : string)
| Response (status_code : Z) (text : string) (body : option json).

Record Headers : Type := {
  Authorization : string;
  Accept : string;
  User_Agent : string
}.

Record SearchParams : Type := {
  q : string;
  location_address : string;
  location_within : string;
  expand : string;
  sort_by : string;
  page : Z
}.

Inductive io_event : Type :=
| Get (url : string) (headers : Headers) (params : option SearchParams)
| Sleep (seconds : Q).

(** The responses still to come, and what the program has done so far. *)
Record net : Type := {
  pending : list http_outcome;
  trace : list io_event
}.

(** A computation that talks to the network: [None] when the script of
    responses ends before the computation does. *)
Definition io (A : Type) : Type := net → option (result A * net).

(** ** validate_token *)

Definition validate_outcome (o : http_outcome) : result unit :=
  match o with
  | Transport exc => Raise (RuntimeError ("token_validation_request_error:" +:+ exc))
  | Response status text _ =>
      if (status =? 200)%Z then Ok ()
      else if (status =? 401)%Z || (status =? 403)%Z then
        Raise (RuntimeError ("token_invalid_or_forbidden:http_" +:+ str_of_Z status
                             +:+ ":" +:+ snippet text))
      else if (status =? 429)%Z then
        Raise (RuntimeError ("rate_limited_on_token_validation:http_429:" +:+ snippet text))
      else
        Raise (RuntimeError ("token_validation_http_error:http_" +:+ str_of_Z status
                             +:+ ":" +:+ snippet text))
  end.

Definition validate_token (headers : Headers) : io unit := fun n =>
  match pending n with
  | [] => None
  | o :: rest =>
      Some (validate_outcome o,
            {| pending := rest;
               trace := trace n ++ [Get (API_BASE +:+ "/users/me/") headers None] |})
  end.

(** ** search_region *)

(** The branches of the loop body that end in [break] with a warning,
    and the decoded body otherwise. *)
Definition page_outcome (location_address : string) (o : http_outcome) : string + json :=
  match o with
  | Transport exc => inl ("request_error:" +:+ location_address +:+ ":" +:+ exc)
  | Response status text body =>
      if (status =? 404)%Z then
        inl ("404:" +:+ location_address +:+ ":" +:+ snippet text)
      else if (status =? 401)%Z || (status =? 403)%Z then
        inl ("auth_error_http_" +:+ str_of_Z status +:+ ":" +:+ location_address
             +:+ ":" +:+ snippet text)
      else if (status =? 429)%Z then
        inl ("rate_limited_http_429:" +:+ location_address +:+ ":" +:+ snippet text)
      else if negb (status =? 200)%Z then
        inl ("http_" +:+ str_of_Z status +:+ ":" +:+ location_address +:+ ":" +:+ snippet text)
      else
        match body with
        | None => inl ("invalid_json_response:" +:+ location_address +:+ ":" +:+ snippet text)
        | Some data => inr data
        end
  end.

Fixpoint chars (s : string) : list json :=
  match s with
  | EmptyString => []
  | String c rest => JStr (String c EmptyString) :: chars rest
  end.

(** The items [results.extend(v)] appends. *)
Definition py_iter (v : json) : result (list json) :=
  match v with
  | JArr items => Ok items
  | JStr s => Ok (chars s)
  | JObj fields => Ok (map (λ kv, JStr kv.1) fields)
  | _ => Raise (TypeError (NotIterable v))
  end.

(** [data.get("events") or []], as [extend] reads it. *)
Definition page_events (data : json) : result (list json) :=
  evs ← py_get data "events";
  py_iter (py_or evs (JArr [])).

(** [data.get("pagination", {}).get("has_more_items")], tested for truth. *)
Definition has_more_items (data : json) : result bool :=
  pag ← py_get_default data "pagination" (JObj []);
  hm ← py_get pag "has_more_items";
  Ok (truthy hm).

Definition next_page (params : SearchParams) : SearchParams :=
  {| q := q params; location_address := location_address params;
     location_within := location_within params; expand := expand params;
     sort_by := sort_by params; page := (page params + 1)%Z |}.

(** [time.sleep(secs)].  The interpreter turns the seconds into
    nanoseconds, [secs * 1e9] rounded to a float, and raises
    [OverflowError] unless they lie in [[-2^63, 2^63)]; the floats
    next to these bounds are [2^63 - 1024] and [-(2^63 + 2048)], and a
    product half-way goes to the bound.  It then raises [ValueError]
    for a negative number of them, and sleeps otherwise. *)
Definition nanoseconds_fit (secs : Q) : bool :=
  let ns := (Qnum secs * 10 ^ 9)%Z in
  let d := Z.pos (Qden secs) in
  ((- (2 ^ 63 + 1024) * d <=? ns)%Z && (ns <? (2 ^ 63 - 512) * d)%Z).

Definition py_sleep (secs : Q) : result unit :=
  if nanoseconds_fit secs then
    if (0 <=? Qnum secs)%Z then Ok () else Raise ValueError
  else Raise OverflowError.

(** The [while True] loop: one response of the script per turn.  The
    pause comes last in a turn, outside every [try]. *)
Fixpoint search_loop (delay : Q) (headers : Headers) (params : SearchParams)
    (results : list json) (warnings : list string)
    (pending : list http_outcome) (trace : list io_event)
  : option (result (list json * list string) * net) :=
  match pending with
  | [] => None
  | o :: rest =>
      let trace := trace ++ [Get (API_BASE +:+ "/events/search") headers (Some params)] in
      let n := {| pending := rest; trace := trace |} in
      match page_outcome (location_address params) o with
      | inl w => Some (Ok (results, warnings ++ [w]), n)
      | inr data =>
          match page_events data with
          | Raise e => Some (Raise e, n)
          | Ok evs =>
              let results := results ++ evs in
              match has_more_items data with
              | Raise e => Some (Raise e, n)
              | Ok false => Some (Ok (results, warnings), n)
              | Ok true =>
                  match py_sleep delay with
                  | Raise e => Some (Raise e, n)
                  | Ok _ =>
                      search_loop delay headers (next_page params) results warnings
                        rest (trace ++ [Sleep delay])
                  end
              end
          end
      end
  end.

Definition search_region (cfg : Config) (headers : Headers)
    (query location_address within : string)
  : io (list json * list string) := fun n =>
  let params := {| q := query; location_address := location_address;
                   location_within := within; expand := "venue";
                   sort_by := "date"; page := 1 |} in
  search_loop (PAGE_DELAY_SEC cfg) headers params [] [] (pending n) (trace n).

(** *** The search in the words of the specification *)

(** The kinds of failure of a page request, as the warnings tag them. *)
Definition failure_kind (o : http_outcome) : option string :=
  match o with
  | Transport _ => Some "request_error"
  | Response status _ body =>
      if (status =? 404)%Z then Some "404"
      else if (status =? 401)%Z || (status =? 403)%Z
           then Some ("auth_error_http_" +:+ str_of_Z status)
      else if (status =? 429)%Z then Some "rate_limited_http_429"
      else if negb (status =? 200)%Z then Some ("http_" +:+ str_of_Z status)
      else match body with
           | None => Some "invalid_json_response"
           | Some _ => None
           end
  end.

(** What a warning ends with: the first 256 characters of the body of
    a response, and the text of the error of a request that failed. *)
Definition failure_detail (o : http_outcome) : string :=
  match o with
  | Transport exc => exc
  | Response _ text _ => snippet text
  end.

(** A decoded body as the API documents it: a dict whose [events] are
    absent, falsy or a list, and whose [pagination] is absent or a
    dict. *)
Definition page_shape (data : json) : bool :=
  match data with
  | JObj fields =>
      match default JNull (dict_lookup "events" fields) with
      | JArr _ => true
      | v => negb (truthy v)
      end
      && match dict_lookup "pagination" fields with
         | None | Some (JObj _) => true
         | Some _ => false
         end
  | _ => false
  end.

Definition events_of (data : json) : list json :=
  match json_path ["events"] data with
  | JArr items => items
  | _ => []
  end.

Definition more_items (data : json) : bool :=
  truthy (json_path ["pagination"; "has_more_items"] data).

(** A 200 response with a JSON body of that shape. *)
Definition page_of (o : http_outcome) : option json :=
  match o with
  | Response status _ (Some data) =>
      if (status =? 200)%Z && page_shape data then Some data else None
  | _ => None
  end.

(** A page that announces more items, and a response that ends the
    search: a page that announces none, or a failure. *)
Definition continues (o : http_outcome) : bool :=
  match page_of o with
  | Some data => more_items data
  | None => false
  end.



Definition page_warnings (location_address : string) (o : http_outcome) : list string :=
  match failure_kind o with
  | Some kind => [kind +:+ ":" +:+ location_address +:+ ":" +:+ failure_detail o]
  | None => []
  end.

Definition search_params (query location_address within : string) (p : Z) : SearchParams :=
  {| q := query; location_address := location_address; location_within := within;
     expand := "venue"; sort_by := "date"; page := p |}.

(** The requests for [n] pages from page [p] on, with a pause between
    two of them. *)
Fixpoint requests_from (delay : Q) (headers : Headers)
    (query location_address within : string) (p : Z) (n : nat) : list io_event :=
  match n with
  | O => []
  | S k =>
      Get (API_BASE +:+ "/events/search") headers
        (Some (search_params query location_address within p))
      :: match k with
         | O => []
         | S _ => Sleep delay
                  :: requests_from delay headers query location_address within (p + 1)%Z k
         end
  end.

(** ** The interpreter's part *)

(** A parser of the fixed-width form [YYYY-MM-DDTHH:MM:SS], alone or
    followed by a UTC offset [+HH:MM] or [-HH:MM]: on a string of this
    form it returns what [datetime.fromisoformat] returns.  It
    instantiates, in the sample runs, the parser that the definitions
    below take as a parameter; Python's parser reads more forms. *)
Definition digit_of (c : ascii) : option Z :=
  let n := nat_of_ascii c in
  if (48 <=? n)%nat && (n <=? 57)%nat then Some (Z.of_nat n - 48)%Z else None.

Fixpoint digits_value (acc : Z) (cs : list ascii) : option Z :=
  match cs with
  | [] => Some acc
  | c :: rest => d ← digit_of c; digits_value (10 * acc + d)%Z rest
  end.

Definition is_leap (y : Z) : bool :=
  ((y mod 4 =? 0) && (negb (y mod 100 =? 0) || (y mod 400 =? 0)))%Z.

Definition days_in_month (y m : Z) : Z :=
  if (m =? 2)%Z then (if is_leap y then 29 else 28)%Z
  else if bool_decide (m ∈ [4; 6; 9; 11]%Z) then 30%Z
  else 31%Z.

Definition days_before_year (y : Z) : Z :=
  let p := (y - 1)%Z in (p * 365 + p / 4 - p / 100 + p / 400)%Z.

Definition days_before_month (y m : Z) : Z :=
  foldr Z.add 0%Z (map (days_in_month y) (take (Z.to_nat (m - 1)) (map Z.of_nat (seq 1 12)))).

Definition civil_us (y mo d h mi s : Z) : Z :=
  (((days_before_year y + days_before_month y mo + d - 1) * 86400
    + h * 3600 + mi * 60 + s) * 1000000)%Z.

Definition fixed_iso (s : string) : option datetime :=
  let cs := String.list_ascii_of_string s in
  let field i n := digits_value 0 (take n (drop i cs)) in
  let at_ i c := bool_decide (cs !! i = Some c) in
  if bool_decide (length cs = 19%nat ∨ length cs = 25%nat)
     && at_ 4%nat "-"%char && at_ 7%nat "-"%char && at_ 10%nat "T"%char
     && at_ 13%nat ":"%char && at_ 16%nat ":"%char
  then
    y ← field 0%nat 4%nat; mo ← field 5%nat 2%nat; d ← field 8%nat 2%nat;
    h ← field 11%nat 2%nat; mi ← field 14%nat 2%nat; sec ← field 17%nat 2%nat;
    if ((1 <=? y) && (1 <=? mo) && (mo <=? 12) && (1 <=? d)
        && (d <=? days_in_month y mo) && (h <? 24) && (mi <? 60) && (sec <? 60))%Z
    then
      let t := civil_us y mo d h mi sec in
      if bool_decide (length cs = 19%nat) then Some (Naive t)
      else
        oh ← field 20%nat 2%nat; om ← field 23%nat 2%nat;
        if (at_ 19%nat "+"%char || at_ 19%nat "-"%char) && at_ 22%nat ":"%char
           && (oh <? 24)%Z && (om <? 60)%Z
        then Some (Aware t ((if at_ 19%nat "-"%char then -1 else 1)
                            * (oh * 3600 + om * 60) * 1000000)%Z)
        else None
    else None
  else None.

(** [s.replace(old, new)] for a one-character [old]. *)
Fixpoint str_replace (old : ascii) (new : string) (s : string) : string :=
  match s with
  | EmptyString => EmptyString
  | String c rest =>
      if Ascii.eqb c old then new +:+ str_replace old new rest
      else String c (str_replace old new rest)
  end.

Definition nl : string := String (ascii_of_nat 10) EmptyString.

(** [sep.join(parts)]: every part has to be a [str]. *)
Fixpoint join_from (i : nat) (sep : string) (parts : list json) : result string :=
  match parts with
  | [] => Ok ""
  | JStr s :: rest =>
      match rest with
      | [] => Ok s
      | _ => tail ← join_from (S i) sep rest; Ok (s +:+ sep +:+ tail)
      end
  | v :: _ => Raise (TypeError (JoinItem i v))
  end.

Definition py_join (sep : string) (parts : list json) : result string :=
  join_from 0 sep parts.

(** ** The files and the payload *)

(** The dict [fetch_events] returns. *)
Record SuccessPayload : Type := {
  p_source : string;
  p_query : string;
  p_regions : list string;
  p_within : string;
  p_count : Z;
  p_events : list NormalizedEvent;
  p_warnings : list string
}.

(** What [save_json] is given: [{"generated": true, ...}] or
    [{"generated": false, "error": ...}]. *)
Inductive ResultPayload : Type :=
| Generated (p : SuccessPayload)
| Failed (error : string).

(** [events.json] and [events.md]: [None] for a file that is not there,
    and the content otherwise.  The content of [events.json] is the
    payload that [json.dump] was given. *)
Record Files : Type := {
  events_json : option ResultPayload;
  events_md : option string
}.

Definition save_json (payload : ResultPayload) (fs : Files) : Files :=
  {| events_json := Some payload; events_md := events_md fs |}.

Definition write_md (text : string) (fs : Files) : Files :=
  {| events_json := events_json fs; events_md := Some text |}.

(** [if not token] *)
Definition get_token (env : option string) : option string :=
  match env with
  | Some token => if String.eqb token "" then None else Some token
  | None => None
  end.

Section Interpreter.

(** [datetime.fromisoformat] on a string: [None] when it raises
    [ValueError]. *)
Variable fromisoformat : string → option datetime.
(** [str(v)] for a list or a dict. *)
Variable py_repr : json → string.
(** [str(exc)] for an exception raised by the interpreter. *)
Variable exc_text : exn → string.

(** [f"{v}"] *)
Definition py_str (v : json) : string :=
  match v with
  | JNull => "None"
  | JBool true => "True"
  | JBool false => "False"
  | JNum n => str_of_Z n
  | JStr s => s
  | JArr _ | JObj _ => py_repr v
  end.

(** [str(exc)] *)
Definition str_exc (e : exn) : string :=
  match e with
  | RuntimeError msg => msg
  | _ => exc_text e
  end.

(** *** filter_upcoming *)

(** The body of the loop: whether [e] is appended. *)
Definition in_window (now cutoff : Z) (e : NormalizedEvent) : result bool :=
  let start := ev_start e in
  if negb (truthy start) then Ok false
  else
    match start with
    | JStr s =>
        match fromisoformat s with
        | None => Ok false
        | Some (Naive t) => Ok ((now <=? t)%Z && (t <=? cutoff)%Z)
        | Some (Aware _ _) => Raise (TypeError NaiveWithAware)
        end
    | _ => Raise (TypeError (NotAString start))
    end.

Fixpoint filter_loop (now cutoff : Z) (events filtered : list NormalizedEvent)
  : result (list NormalizedEvent) :=
  match events with
  | [] => Ok filtered
  | e :: rest =>
      keep ← in_window now cutoff e;
      filter_loop now cutoff rest (if keep : bool then filtered ++ [e] else filtered)
  end.

(** [now] is the reading of [datetime.utcnow()]. *)
Definition filter_upcoming (now : Z) (events : list NormalizedEvent) (days : Z)
  : result (list NormalizedEvent) :=
  cutoff ← add_days now days;
  filter_loop now cutoff events [].

(** The window in the words of the specification: the start is a
    string that parses to a naive time [t] with [now <= t <= cutoff]. *)
Definition starts_within (now cutoff : Z) (e : NormalizedEvent) : bool :=
  match ev_start e with
  | JStr s =>
      match fromisoformat s with
      | Some (Naive t) => (now <=? t)%Z && (t <=? cutoff)%Z
      | _ => false
      end
  | _ => false
  end.

(** A start that the loop can examine: absent or falsy, or a string
    that does not parse to an aware time. *)
Definition start_comparable (e : NormalizedEvent) : bool :=
  match ev_start e with
  | JStr s =>
      match fromisoformat s with
      | Some (Aware _ _) => false
      | _ => true
      end
  | v => negb (truthy v)
  end.

(** *** save_markdown *)

(** The lines appended for one event. *)
Definition event_lines (e : NormalizedEvent) : result (list string) :=
  let name := py_or (ev_name e) (JStr "Unnamed Event") in
  let start := py_or (ev_start e) (JStr "") in
  start_fmt ←
    (if truthy start then
       match start with
       | JStr s => Ok (str_replace "Z"%char "" (str_replace "T"%char " " s))
       | _ => Raise (AttributeError start "replace")
       end
     else Ok "");
  let loc_parts :=
    filter (λ v, truthy v = true)
      [ev_venue_name e; ev_address e; ev_city e; ev_state e] in
  location ←
    (match loc_parts with
     | [] => Ok []
     | _ => joined ← py_join ", " loc_parts;
            Ok ["- **Location:** " +:+ joined +:+ nl]
     end);
  let url := ev_url e in
  Ok (["## " +:+ py_str name +:+ nl]
      ++ (if String.eqb start_fmt "" then [] else ["- **Date:** " +:+ start_fmt +:+ nl])
      ++ location
      ++ (if truthy url
          then ["- **Sign up:** [" +:+ py_str url +:+ "](" +:+ py_str url +:+ ")" +:+ nl]
          else [])
      ++ [""]).

Fixpoint events_lines (events : list NormalizedEvent) (lines : list string)
  : result (list string) :=
  match events with
  | [] => Ok lines
  | e :: rest => ls ← event_lines e; events_lines rest (lines ++ ls)
  end.

Definition heading : string :=
  "# Upcoming Veteran Events in Montana and Wyoming" +:+ nl.

Definition no_events_sentence (cfg : Config) : string :=
  "No events found within the next " +:+ str_of_Z (LOOKAHEAD_DAYS cfg) +:+ " days." +:+ nl.

Definition markdown_lines (cfg : Config) (events : list NormalizedEvent)
  : result (list string) :=
  match events with
  | [] => Ok [heading; no_events_sentence cfg]
  | _ => events_lines events [heading]
  end.

(** The file is opened once the lines are built. *)
Definition save_markdown (cfg : Config) (events : list NormalizedEvent) (fs : Files)
  : result Files :=
  lines ← markdown_lines cfg events;
  Ok (write_md (String.concat nl lines) fs).

(** *** fetch_events *)

(** The [headers] of [fetch_events]. *)
Definition request_headers (cfg : Config) (token : string) : Headers :=
  {| Authorization := "Bearer " +:+ token;
     Accept := "application/json";
     User_Agent := VNN_USER_AGENT cfg |}.

(** The loop over the states. *)
Fixpoint search_states (cfg : Config) (headers : Headers) (query : string)
    (states : list string) (within : string)
    (all_raw : list json) (all_warnings : list string)
  : io (list json * list string) := fun n =>
  match states with
  | [] => Some (Ok (all_raw, all_warnings), n)
  | state :: rest =>
      match search_region cfg headers query state within n with
      | None => None
      | Some (Raise e, n') => Some (Raise e, n')
      | Some (Ok (events, warns), n') =>
          search_states cfg headers query rest within
            (all_raw ++ events) (all_warnings ++ warns) n'
      end
  end.

(** What follows the searches: it reads the clock and nothing else. *)
Definition build_payload (cfg : Config) (now : Z) (query : string)
    (states : list string) (within : string)
    (all_raw : list json) (all_warnings : list string)
  : result SuccessPayload :=
  normalized ← normalize_events all_raw;
  upcoming ← filter_upcoming now normalized (LOOKAHEAD_DAYS cfg);
  unique ← deduplicate upcoming;
  Ok {| p_source := "eventbrite"; p_query := query; p_regions := states;
        p_within := within; p_count := Z.of_nat (length unique);
        p_events := unique; p_warnings := all_warnings |}.

Definition fetch_events (cfg : Config) (now : Z) (token query : string)
    (states : list string) (within : string) : io SuccessPayload := fun n =>
  let headers := request_headers cfg token in
  match validate_token headers n with
  | None => None
  | Some (Raise e, n') => Some (Raise e, n')
  | Some (Ok _, n') =>
      match search_states cfg headers query states within [] [] n' with
      | None => None
      | Some (Raise e, n'') => Some (Raise e, n'')
      | Some (Ok (all_raw, all_warnings), n'') =>
          Some (build_payload cfg now query states within all_raw all_warnings, n'')
      end
  end.

(** *** main *)

(** The environment variable, the clock and the responses of the API. *)
Record World : Type := {
  EVENTBRITE_TOKEN : option string;
  utcnow : Z;
  responses : list http_outcome
}.

(** The end of a run: the status the process exits with, the two
    files, and what went over the network. *)
Record Run : Type := {
  exit_status : Z;
  files : Files;
  network : net
}.

(** The [except Exception] handler of [main].  An exception that
    escapes it ends the process with status 1. *)
Definition on_exception (cfg : Config) (exc : exn) (fs : Files) : Z * Files :=
  let fs := save_json (Failed (str_exc exc)) fs in
  match save_markdown cfg [] fs with
  | Ok fs' => (1%Z, fs')
  | Raise _ => (1%Z, fs)
  end.

(** The program: [sys.exit(main())], started with the files [fs]
    of earlier runs. *)
Definition main (cfg : Config) (w : World) (fs : Files) : option Run :=
  let n := {| pending := responses w; trace := [] |} in
  match get_token (EVENTBRITE_TOKEN w) with
  | None =>
      let fs := save_json (Failed "EVENTBRITE_TOKEN is not set") fs in
      match save_markdown cfg [] fs with
      | Ok fs' => Some {| exit_status := 2; files := fs'; network := n |}
      | Raise _ => Some {| exit_status := 1; files := fs; network := n |}
      end
  | Some token =>
      match fetch_events cfg (utcnow w) token (DEFAULT_QUERY cfg) DEFAULT_STATES
              (DEFAULT_WITHIN cfg) n with
      | None => None
      | Some (r, n') =>
          let '(status, fs') :=
            match r with
            | Ok payload =>
                let fs := save_json (Generated payload) fs in
                match save_markdown cfg (p_events payload) fs with
                | Ok fs' => (0%Z, fs')
                | Raise exc => on_exception cfg exc fs
                end
            | Raise exc => on_exception cfg exc fs
            end in
          Some {| exit_status := status; files := fs'; network := n' |}
      end
  end.

(** *** The run in the words of the specification *)

(** The pipeline of the [try] block, given what [fetch_events] did:
    the payload and the text of the report, or the first exception. *)
Definition pipeline (cfg : Config) (fetched : result SuccessPayload)
  : result (SuccessPayload * string) :=
  payload ← fetched;
  lines ← markdown_lines cfg (p_events payload);
  Ok (payload, String.concat nl lines).

(** The status and the two files that the specification has the run
    end with. *)
Definition expected_end (cfg : Config) (attempt : result (SuccessPayload * string))
  : Z * Files :=
  match attempt with
  | Ok (payload, text) =>
      (0%Z, {| events_json := Some (Generated payload); events_md := Some text |})
  | Raise exc =>
      (1%Z, {| events_json := Some (Failed (str_exc exc));
               events_md := Some (heading +:+ nl +:+ no_events_sentence cfg) |})
  end.

End Interpreter.

(** What [save_markdown] writes for no event: the heading and the
    "no events" sentence. *)
Definition empty_report (cfg : Config) : string :=
  heading +:+ nl +:+ no_events_sentence cfg.

Definition misconfigured : ResultPayload := Failed "EVENTBRITE_TOKEN is not set".

(** * Sample data *)

Definition no_files : Files := {| events_json := None; events_md := None |}.

(** The files a run of another day left behind. *)
Definition stale_files : Files :=
  {| events_json := Some (Failed "token_validation_http_error:http_500:");
     events_md := Some "# Upcoming Veteran Events in Montana and Wyoming" |}.

(** Stand-ins, in the sample runs, for the text of a container and for
    the text of the exceptions of the interpreter. *)
Definition sample_repr (v : json) : string := "[...]".
Definition sample_exc_text (e : exn) : string :=
  match e with
  | RuntimeError msg => msg
  | AttributeError _ attr => "object has no attribute " +:+ attr
  | TypeError _ => "TypeError"
  | OverflowError => "date value out of range"
  | ValueError => "sleep length must be non-negative"
  end.

(** A record as the API sends it, built from the fields of interest. *)
Definition raw_event (id name start venue city region : string) : json :=
  JObj [("id", JStr id);
        ("name", JObj [("text", JStr name); ("html", JStr name)]);
        ("url", JStr ("https://www.eventbrite.com/e/" +:+ id));
        ("start", JObj [("timezone", JStr "America/Denver"); ("local", JStr start)]);
        ("is_free", JBool true);
        ("status", JStr "live");
        ("venue", JObj [("name", JStr venue);
                        ("address", JObj [("city", JStr city); ("region", JStr region)])])].

Definition stand_down : json :=
  raw_event "101" "Veterans Stand Down" "2026-11-10T09:00:00" "VFW Post 1087" "Billings" "MT".

Definition coffee_hour : json :=
  raw_event "102" "Veteran Coffee Hour" "2026-12-01T08:30:00" "American Legion" "Cheyenne" "WY".

(** A record without a venue, whose [name] is [null]. *)
Definition bare_record : json :=
  JObj [("id", JStr "103"); ("name", JNull);
        ("start", JObj [("local", JStr "2026-11-20T18:00:00")])].

(** A record whose [name] is the title itself and not a dict. *)
Definition text_name_record : json :=
  JObj [("id", JStr "104"); ("name", JStr "Veterans Day Parade")].

(** 2026-11-03T00:00:00, a reading of the clock. *)
Definition clock_sample : Z := civil_us 2026 11 3 0 0 0.

Definition event_at (name : string) (start : json) : NormalizedEvent :=
  {| ev_id := JNull; ev_name := JStr name; ev_url := JNull; ev_start := start;
     ev_end := JNull; ev_is_free := JNull; ev_status := JNull; ev_city := JNull;
     ev_state := JNull; ev_venue_name := JNull; ev_address := JNull |}.

(** Events at the two ends of a window of 60 days, one second after
    it, with a start that is no date, and with no start. *)
Definition window_sample : list NormalizedEvent :=
  [ event_at "at now" (JStr "2026-11-03T00:00:00");
    event_at "no date" (JStr "next Tuesday");
    event_at "at cutoff" (JStr "2027-01-02T00:00:00");
    event_at "past cutoff" (JStr "2027-01-02T00:00:01");
    event_at "no start" JNull;
    event_at "empty start" (JStr "");
    event_at "inside" (JStr "2026-11-10T09:00:00") ].

(** An event whose start carries a UTC offset. *)
Definition offset_event : NormalizedEvent :=
  event_at "Veterans Stand Down" (JStr "2026-11-10T09:00:00-07:00").

Definition with_url (e : NormalizedEvent) (url : string) : NormalizedEvent :=
  {| ev_id := ev_id e; ev_name := ev_name e; ev_url := JStr url;
     ev_start := ev_start e; ev_end := ev_end e; ev_is_free := ev_is_free e;
     ev_status := ev_status e; ev_city := ev_city e; ev_state := ev_state e;
     ev_venue_name := ev_venue_name e; ev_address := ev_address e |}.

(** Two events without a name and without a start. *)
Definition nameless_walk : NormalizedEvent :=
  {| ev_id := JStr "201"; ev_name := JNull; ev_url := JStr "https://e/201";
     ev_start := JNull; ev_end := JNull; ev_is_free := JBool true;
     ev_status := JStr "live"; ev_city := JStr "Bozeman"; ev_state := JStr "MT";
     ev_venue_name := JNull; ev_address := JNull |}.

Definition nameless_dinner : NormalizedEvent :=
  {| ev_id := JStr "202"; ev_name := JNull; ev_url := JStr "https://e/202";
     ev_start := JNull; ev_end := JNull; ev_is_free := JBool false;
     ev_status := JStr "live"; ev_city := JStr "Casper"; ev_state := JStr "WY";
     ev_venue_name := JNull; ev_address := JNull |}.

(** A record whose [name.text] is a list of words. *)
Definition list_name_record : json :=
  JObj [("id", JStr "105");
        ("name", JObj [("text", JArr [JStr "Veterans"; JStr "Stand Down"])]);
        ("start", JObj [("local", JStr "2026-11-10T09:00:00")])].

Definition list_name_event : NormalizedEvent := flat_view list_name_record.

(** A page of the search, and the answers of a server out of order. *)
Definition page_response (events : list json) (more : bool) : http_outcome :=
  Response 200 "{...}"
    (Some (JObj [("pagination", JObj [("page_number", JNum 1); ("has_more_items", JBool more)]);
                 ("events", JArr events)])).

Definition rate_limited : http_outcome :=
  Response 429 "Too many requests" None.

(** What [requests] reports when the name of the host does not
    resolve. *)
Definition unreachable : http_outcome :=
  Transport ("HTTPSConnectionPool(host='www.eventbriteapi.com', port=443): "
             +:+ "Max retries exceeded with url: /v3/events/search?q=veteran+OR+veterans"
             +:+ "+OR+military+OR+service+member&location.address=Montana"
             +:+ "&location.within=500mi&expand=venue&sort_by=date&page=1 "
             +:+ "(Caused by NameResolutionError: Failed to resolve "
             +:+ "'www.eventbriteapi.com' ([Errno -3] Temporary failure in name resolution))").

(** A 200 response whose [pagination] is [null]. *)
Definition null_pagination : http_outcome :=
  Response 200 "{...}"
    (Some (JObj [("pagination", JNull); ("events", JArr [stand_down])])).

(** A 200 response whose body is a JSON array. *)
Definition array_body : http_outcome :=
  Response 200 "[]" (Some (JArr [])).

Definition sample_headers : Headers :=
  {| Authorization := "Bearer TOKEN"; Accept := "application/json";
     User_Agent := "mt-wy-veteran-events-scraper/1.0" |}.

(** A run with a token the API accepts: two pages for Montana, the
    second with a duplicate and an event a year ahead, and a rate
    limit for Wyoming. *)
Definition sample_world : World :=
  {| EVENTBRITE_TOKEN := Some "TOKEN";
     utcnow := clock_sample;
     responses :=
       [ Response 200 "{...}" (Some (JObj [("id", JStr "42")]));
         page_response [stand_down; bare_record] true;
         page_response [stand_down;
                        raw_event "106" "Veterans Ball" "2027-11-11T19:00:00"
                          "Elks Lodge" "Helena" "MT"] false;
         rate_limited ] |}.

(** A run in which the search fails for both states: a rate limit
    for Montana and no connection for Wyoming. *)
Definition failing_world : World :=
  {| EVENTBRITE_TOKEN := Some "TOKEN";
     utcnow := clock_sample;
     responses := [Response 200 "{...}" None; rate_limited; unreachable] |}.

(** A run in which Montana is rate-limited and an event of Wyoming
    starts at a time with a UTC offset. *)
Definition offset_world : World :=
  {| EVENTBRITE_TOKEN := Some "TOKEN";
     utcnow := clock_sample;
     responses :=
       [ Response 200 "{...}" None;
         rate_limited;
         page_response [raw_event "107" "Veteran Coffee Hour" "2026-12-01T08:30:00-07:00"
                          "American Legion" "Cheyenne" "WY"] false ] |}.

(** A run whose token the API rejects. *)
Definition rejected_world : World :=
  {| EVENTBRITE_TOKEN := Some "EXPIRED";
     utcnow := clock_sample;
     responses := [Response 401 "INVALID_AUTH" None] |}.

(** * Further definitions *)

(** A response after which the loop of [search_region] asks for the
    next page: a 200 with a decoded body whose events can be appended
    and whose [has_more_items] is truthy. *)
Definition keeps_going (o : http_outcome) : bool :=
  match page_outcome "" o with
  | inl _ => false
  | inr data =>
      is_ok (page_events data)
      && match has_more_items data with
         | Ok more => more
         | Raise _ => false
         end
  end.

(** The events that the loop appends for a response. *)
Definition appended (o : http_outcome) : list json :=
  match page_outcome "" o with
  | inl _ => []
  | inr data =>
      match page_events data with
      | Ok evs => evs
      | Raise _ => []
      end
  end.

(** A script for one region: a page that announces more, a rate
    limit, and a page that is never asked for. *)
Definition limited_script : list http_outcome :=
  [page_response [stand_down; coffee_hour] true; rate_limited; page_response [] false].

(** A page whose [pagination] is not a dict. *)
Definition flat_pagination (v : json) : list (string * json) :=
  [("events", JArr [stand_down]); ("pagination", v)].

(** The kinds of line of the report, told by how a line begins. *)
Definition is_title (line : string) : bool := String.prefix "## " line.
Definition is_date_line (line : string) : bool := String.prefix "- **Date:** " line.
Definition is_location_line (line : string) : bool := String.prefix "- **Location:** " line.
Definition is_signup_line (line : string) : bool := String.prefix "- **Sign up:** " line.

(** A start and a location part that [save_markdown] can render: a
    string, or a falsy value. *)
Definition str_or_falsy (v : json) : bool :=
  match v with
  | JStr _ => true
  | _ => negb (truthy v)
  end.

Definition renderable (e : NormalizedEvent) : bool :=
  str_or_falsy (ev_start e)
  && forallb str_or_falsy [ev_venue_name e; ev_address e; ev_city e; ev_state e].

(** The non-empty strings among the location parts, in the order in
    which [save_markdown] looks at them. *)
Definition location_strings (e : NormalizedEvent) : list string :=
  omap (λ v, match v with
             | JStr s => if String.eqb s "" then None else Some s
             | _ => None
             end)
    [ev_venue_name e; ev_address e; ev_city e; ev_state e].

(** The date as the report shows it. *)
Definition date_text (s : string) : string :=
  str_replace "Z"%char "" (str_replace "T"%char " " s).

(** An event with a list for a name and a number for a url, ending in
    Zulu time, at a venue without a city. *)
Definition odd_event : NormalizedEvent :=
  {| ev_id := JNum 7; ev_name := JArr [JStr "Muster"]; ev_url := JNum 404;
     ev_start := JStr "2026-11-11T11:00:00Z"; ev_end := JNull; ev_is_free := JNull;
     ev_status := JNull; ev_city := JStr ""; ev_state := JStr "WY";
     ev_venue_name := JStr "Armory"; ev_address := JNull |}.

(** The lines of an event in the report: the title, the date when one
    is left to show, the location when a part of it is a non-empty
    string, the link when there is a url, and an empty line. *)
Definition title_of (py_repr : json → string) (e : NormalizedEvent) : string :=
  "## " +:+ py_str py_repr (py_or (ev_name e) (JStr "Unnamed Event")) +:+ nl.

Definition date_lines (e : NormalizedEvent) : list string :=
  match ev_start e with
  | JStr s => if String.eqb (date_text s) "" then []
              else ["- **Date:** " +:+ date_text s +:+ nl]
  | _ => []
  end.

Definition location_lines (e : NormalizedEvent) : list string :=
  match location_strings e with
  | [] => []
  | parts => ["- **Location:** " +:+ String.concat ", " parts +:+ nl]
  end.

Definition signup_lines (py_repr : json → string) (e : NormalizedEvent) : list string :=
  if truthy (ev_url e)
  then ["- **Sign up:** [" +:+ py_str py_repr (ev_url e) +:+ "]("
        +:+ py_str py_repr (ev_url e) +:+ ")" +:+ nl]
  else [].

Definition event_block (py_repr : json → string) (e : NormalizedEvent) : list string :=
  [title_of py_repr e] ++ date_lines e ++ location_lines e
  ++ signup_lines py_repr e ++ [""].

(** The requests among the events of the network. *)
Definition is_get (ev : io_event) : bool :=
  match ev with
  | Get _ _ _ => true
  | Sleep _ => false
  end.

(** What the searches of a run do: a request to the search endpoint,
    with the headers of the run, for the query, the radius and one of
    the states, or the pause between two pages. *)
Definition search_request (cfg : Config) (headers : Headers) (query within : string)
    (states : list string) (ev : io_event) : Prop :=
  match ev with
  | Get url h (Some ps) =>
      url = API_BASE +:+ "/events/search" ∧ h = headers
      ∧ q ps = query ∧ location_within ps = within ∧ location_address ps ∈ states
      ∧ (1 ≤ page ps)%Z
  | Get _ _ None => False
  | Sleep d => d = PAGE_DELAY_SEC cfg
  end.

(** A delay of one second less than none. *)
Definition hasty_config : Config :=
  {| DEFAULT_QUERY := DEFAULT_QUERY default_config;
     DEFAULT_WITHIN := DEFAULT_WITHIN default_config;
     LOOKAHEAD_DAYS := LOOKAHEAD_DAYS default_config;
     PAGE_DELAY_SEC := (-1 # 1)%Q;
     VNN_USER_AGENT := VNN_USER_AGENT default_config |}.

(** A lookahead of a thousand million days. *)
Definition far_config : Config :=
  {| DEFAULT_QUERY := DEFAULT_QUERY default_config;
     DEFAULT_WITHIN := DEFAULT_WITHIN default_config;
     LOOKAHEAD_DAYS := 1000000000;
     PAGE_DELAY_SEC := PAGE_DELAY_SEC default_config;
     VNN_USER_AGENT := VNN_USER_AGENT default_config |}.

(** The location parts that [', '.join] takes. *)
Definition location_renderable (e : NormalizedEvent) : bool :=
  forallb str_or_falsy [ev_venue_name e; ev_address e; ev_city e; ev_state e].


(** A page with an event whose venue has a number for a name. *)
Definition numbered_venue : json :=
  JObj [("name", JObj [("text", JStr "Muster")]);
        ("start", JObj [("local", JStr "2026-11-11T11:00:00")]);
        ("venue", JObj [("name", JNum 1087)])].

Definition numbered_world : World :=
  {| EVENTBRITE_TOKEN := Some "TOKEN";
     utcnow := clock_sample;
     responses := [Response 200 "{...}" None; page_response [numbered_venue] false;
                   page_response [] false] |}.

(** * Properties *)

(** ** The result monad *)

Lemma bind_ok {A B} (f : A → result B) (a : A) : (Ok a ≫= f) = f a.
Proof. reflexivity. Qed.

Lemma bind_raise {A B} (f : A → result B) (e : exn) : (Raise e ≫= f) = Raise e.
Proof. reflexivity. Qed.

Lemma bind_is_ok {A B} (f : A → result B) (m : result A) :
  is_ok (m ≫= f) = true ↔ ∃ a, m = Ok a ∧ is_ok (f a) = true.
Proof.
  destruct m as [a|e]; simpl.
  - split; [eauto | by intros (? & [= ->] & ?)].
  - split; [done | by intros (? & ? & ?)].
Qed.

(** ** normalize_events *)

Lemma json_path_null (path : list string) : json_path path JNull = JNull.
Proof. by destruct path. Qed.

Lemma json_path_cons (k : string) (path : list string) (fields : list (string * json)) :
  json_path (k :: path) (JObj fields)
  = json_path path (default JNull (dict_lookup k fields)).
Proof. simpl. destruct (dict_lookup k fields); [done | by rewrite json_path_null]. Qed.

Lemma json_path_absent (path : list string) (v : json) :
  path_present path v = false → json_path path v = JNull.
Proof.
  revert v. induction path as [|k path IH]; intros v; simpl; [done |].
  destruct v as [| | | | | fields]; try done.
  destruct (dict_lookup k fields); [apply IH | done].
Qed.

(** Under a value that nests, [(v or {}).get(k)] is the path lookup. *)
Lemma nested_get (v : json) (k : string) :
  nests v = true → py_get (py_or v (JObj [])) k = Ok (json_path [k] v).
Proof.
  intros Hv. unfold py_or.
  destruct v as [| b | n | s | items | fields].
  1-5: by apply negb_true_iff in Hv; rewrite Hv.
  destruct fields as [|kv fields]; [done |].
  cbn [truthy]. unfold py_get, py_get_default. rewrite json_path_cons. done.
Qed.

(** Without it, the method call raises. *)
Lemma nested_get_raises (v : json) (k : string) :
  nests v = false → py_get (py_or v (JObj [])) k = Raise (AttributeError v "get").
Proof.
  intros Hv. unfold py_or.
  destruct v as [| b | n | s | items | fields]; [| | | | | done].
  all: by apply negb_false_iff in Hv; rewrite Hv.
Qed.

Lemma py_get_obj (fields : list (string * json)) (k : string) :
  py_get (JObj fields) k = Ok (default JNull (dict_lookup k fields)).
Proof. reflexivity. Qed.

Lemma json_path_one (k : string) (fields : list (string * json)) :
  json_path [k] (JObj fields) = default JNull (dict_lookup k fields).
Proof. by rewrite json_path_cons. Qed.

Lemma json_path_nested (k1 k2 : string) (v : json) :
  json_path [k2] (json_path [k1] v) = json_path [k1; k2] v.
Proof.
  destruct v as [| | | | | fs]; try done.
  simpl. by destruct (dict_lookup k1 fs).
Qed.

Lemma normalize_event_flat (e : json) :
  raw_shape e = true → normalize_event e = Ok (flat_view e).
Proof.
  destruct e as [| | | | | fields]; try done.
  unfold raw_shape. rewrite !andb_true_iff.
  intros [[[[Hname Hstart] Hend] Hvenue] Haddr].
  rewrite json_path_one in Hname, Hstart, Hend, Hvenue.
  rewrite json_path_cons in Haddr.
  unfold normalize_event, flat_view.
  rewrite !py_get_obj, !json_path_cons.
  set (venue := default JNull (dict_lookup "venue" fields)) in *.
  rewrite bind_ok, (nested_get venue "address" Hvenue), !bind_ok.
  rewrite (nested_get _ "text" Hname), !bind_ok.
  rewrite (nested_get _ "local" Hstart), !bind_ok.
  rewrite (nested_get _ "local" Hend), !bind_ok.
  rewrite !(nested_get _ _ Haddr), !bind_ok.
  rewrite (nested_get venue "name" Hvenue), !bind_ok.
  rewrite !json_path_nested. reflexivity.
Qed.

Lemma normalize_event_raises (e : json) :
  raw_shape e = false → is_ok (normalize_event e) = false.
Proof.
  destruct e as [| | | | | fields]; try done.
  unfold raw_shape. rewrite !json_path_one, json_path_cons.
  set (venue := default JNull (dict_lookup "venue" fields)).
  intros Hshape.
  unfold normalize_event.
  rewrite !py_get_obj, bind_ok. fold venue.
  destruct (nests venue) eqn:Hvenue.
  2:{ by rewrite (nested_get_raises venue "address" Hvenue). }
  rewrite (nested_get venue "address" Hvenue), !bind_ok.
  destruct (nests (default JNull (dict_lookup "name" fields))) eqn:Hname.
  2:{ by rewrite (nested_get_raises _ "text" Hname). }
  rewrite (nested_get _ "text" Hname), !bind_ok.
  destruct (nests (default JNull (dict_lookup "start" fields))) eqn:Hstart.
  2:{ by rewrite (nested_get_raises _ "local" Hstart). }
  rewrite (nested_get _ "local" Hstart), !bind_ok.
  destruct (nests (default JNull (dict_lookup "end" fields))) eqn:Hend.
  2:{ by rewrite (nested_get_raises _ "local" Hend). }
  rewrite (nested_get _ "local" Hend), !bind_ok.
  cbn [andb] in Hshape.
  by rewrite (nested_get_raises _ "city" Hshape).
Qed.

Lemma normalize_loop_flat (events : list json) (normalized : list NormalizedEvent) :
  Forall (λ e, raw_shape e = true) events →
  normalize_loop events normalized = Ok (normalized ++ (flat_view <$> events)).
Proof.
  intros Hall. revert normalized.
  induction Hall as [|e events He _ IH]; intros normalized; simpl.
  - by rewrite app_nil_r.
  - rewrite (normalize_event_flat e He), bind_ok, IH, <- app_assoc. done.
Qed.

Lemma normalize_loop_ok_shape (events : list json) (normalized : list NormalizedEvent) :
  is_ok (normalize_loop events normalized) = true →
  Forall (λ e, raw_shape e = true) events.
Proof.
  revert normalized. induction events as [|e events IH]; intros normalized; simpl.
  - constructor.
  - intros (ne & Hne & Hrest)%bind_is_ok.
    constructor; [| by eapply IH].
    destruct (raw_shape e) eqn:He; [done |].
    apply normalize_event_raises in He. by rewrite Hne in He.
Qed.

(** *** C3 *)

(** C3, as the program has it.  For every list of raw records in which
    [name], [start], [end], [venue] and the venue [address] are each
    absent, falsy or a dict, [normalize_events] returns, without
    raising, a list of the same length and in the same order, whose
    i-th element is the flat view of the i-th record: each of the
    eleven fields is the value at its nested path, and the no-value
    marker when a step of the path is absent. *)
Theorem normalize_events_flat (events : list json) :
  Forall (λ e, raw_shape e = true) events →
  normalize_events events = Ok (flat_view <$> events)
  ∧ length (flat_view <$> events) = length events
  ∧ (∀ i e, events !! i = Some e → (flat_view <$> events) !! i = Some (flat_view e))
  ∧ (∀ e path field, (path, field) ∈ field_paths →
       field (flat_view e) = json_path path e
       ∧ (path_present path e = false → field (flat_view e) = JNull)).
Proof.
  intros Hall. split; [| split; [| split]].
  - unfold normalize_events. by rewrite normalize_loop_flat.
  - apply length_fmap.
  - intros i e Hi. by rewrite list_lookup_fmap, Hi.
  - intros e path field Hin.
    assert (Hfield : field (flat_view e) = json_path path e).
    { unfold field_paths in Hin. rewrite !elem_of_cons in Hin.
      repeat (destruct Hin as [Hin|Hin]; [injection Hin as -> ->; reflexivity |]).
      by apply elem_of_nil in Hin. }
    split; [done |]. intros Habsent. by rewrite Hfield, json_path_absent.
Qed.

Lemma normalize_events_flat_witness :
  Forall (λ e, raw_shape e = true) [stand_down; bare_record; JObj []]
  ∧ normalize_events [stand_down; bare_record; JObj []]
    = Ok (flat_view <$> [stand_down; bare_record; JObj []]).
Proof.
  assert (H : Forall (λ e, raw_shape e = true) [stand_down; bare_record; JObj []])
    by (repeat constructor).
  split; [exact H | exact (proj1 (normalize_events_flat _ H))].
Defined.

(** The claim of C3 fails for a record whose [name] is a string: the
    call [.get("text")] on it raises [AttributeError]. *)
Lemma normalize_events_text_name_raises :
  normalize_events [stand_down; text_name_record]
  = Raise (AttributeError (JStr "Veterans Day Parade") "get")
  ∧ ¬ (∃ out, normalize_events [stand_down; text_name_record] = Ok out
              ∧ length out = length [stand_down; text_name_record]).
Proof.
  split; [reflexivity |]. by intros (out & Hout & _).
Qed.

(** The shape is what the program needs: it returns exactly on the
    lists whose records all have it. *)
Lemma normalize_events_ok_iff (events : list json) :
  is_ok (normalize_events events) = true ↔ Forall (λ e, raw_shape e = true) events.
Proof.
  split.
  - apply normalize_loop_ok_shape.
  - intros Hall. unfold normalize_events. by rewrite normalize_loop_flat.
Qed.

(** ** filter_upcoming *)

Section Window.

Variable fromisoformat : string → option datetime.
Hypothesis fromisoformat_empty : fromisoformat "" = None.

Lemma in_window_comparable (now cutoff : Z) (e : NormalizedEvent) :
  start_comparable fromisoformat e = true →
  in_window fromisoformat now cutoff e = Ok (starts_within fromisoformat now cutoff e).
Proof.
  unfold start_comparable, in_window, starts_within.
  destruct (ev_start e) as [| b | n | s | items | fields] eqn:Hstart.
  1-3, 5-6: by intros ->.
  intros Hs. simpl.
  destruct (String.eqb_spec s "") as [->|Hne]; simpl.
  - by rewrite fromisoformat_empty.
  - by destruct (fromisoformat s) as [[t | t off]|].
Qed.

Lemma in_window_not_comparable (now cutoff : Z) (e : NormalizedEvent) :
  start_comparable fromisoformat e = false →
  is_ok (in_window fromisoformat now cutoff e) = false.
Proof.
  unfold start_comparable, in_window.
  destruct (ev_start e) as [| b | n | s | items | fields] eqn:Hstart.
  1-3, 5-6: by intros ->%negb_false_iff.
  intros Hs. simpl.
  destruct (String.eqb_spec s "") as [->|Hne]; simpl.
  - by rewrite fromisoformat_empty in Hs.
  - by destruct (fromisoformat s) as [[t | t off]|].
Qed.

Lemma filter_loop_comparable (now cutoff : Z) (events filtered : list NormalizedEvent) :
  Forall (λ e, start_comparable fromisoformat e = true) events →
  filter_loop fromisoformat now cutoff events filtered
  = Ok (filtered ++ filter (λ e, starts_within fromisoformat now cutoff e = true) events).
Proof.
  intros Hall. revert filtered.
  induction Hall as [|e events He _ IH]; intros filtered; simpl.
  - by rewrite app_nil_r.
  - rewrite (in_window_comparable _ _ _ He), bind_ok, IH.
    destruct (starts_within fromisoformat now cutoff e) eqn:Hkeep.
    + rewrite filter_cons_True by exact Hkeep. by rewrite <- app_assoc.
    + rewrite filter_cons_False by (by rewrite Hkeep). done.
Qed.

Lemma filter_loop_ok_comparable (now cutoff : Z) (events filtered : list NormalizedEvent) :
  is_ok (filter_loop fromisoformat now cutoff events filtered) = true →
  Forall (λ e, start_comparable fromisoformat e = true) events.
Proof.
  revert filtered. induction events as [|e events IH]; intros filtered; simpl.
  - constructor.
  - intros (keep & Hkeep & Hrest)%bind_is_ok.
    constructor; [| by eapply IH].
    destruct (start_comparable fromisoformat e) eqn:He; [done |].
    apply (in_window_not_comparable now cutoff) in He. by rewrite Hkeep in He.
Qed.

Lemma starts_within_spec (now cutoff : Z) (e : NormalizedEvent) :
  starts_within fromisoformat now cutoff e = true
  ↔ ∃ s t, ev_start e = JStr s ∧ fromisoformat s = Some (Naive t)
           ∧ (now ≤ t ≤ cutoff)%Z.
Proof.
  unfold starts_within. split.
  - destruct (ev_start e) as [| | | s | |]; try done.
    destruct (fromisoformat s) as [[t | t off]|] eqn:Hparse; try done.
    intros [H1%Z.leb_le H2%Z.leb_le]%andb_true_iff.
    exists s, t. split_and!; [done | done | lia | lia].
  - intros (s & t & -> & -> & Ht). apply andb_true_iff.
    split; apply Z.leb_le; lia.
Qed.

Lemma add_days_ok (now days cutoff : Z) :
  add_days now days = Ok cutoff →
  cutoff = (now + days * US_PER_DAY)%Z ∧ (0 ≤ cutoff ≤ DATETIME_MAX)%Z.
Proof.
  unfold add_days.
  destruct (Z.abs days <=? 999999999)%Z; [| done].
  destruct (_ && _) eqn:Hrange; [| done].
  intros [= <-]. apply andb_true_iff in Hrange as [H1%Z.leb_le H2%Z.leb_le]. lia.
Qed.

(** C1, as the program has it.  The parser is any one that rejects
    the empty string, as [datetime.fromisoformat] does.  Let [now] be
    the naive reading of the clock, and let the lookahead be such
    that [now + days] is a [datetime] ([cutoff]); let every event
    have a start that is absent or falsy, or a string that does not
    parse to a time with a UTC offset.  Then [filter_upcoming] returns
    exactly the events whose start is a string that parses as
    ISO-8601 to a time [t] with [now <= t <= cutoff], both ends
    included, in their input order; the others, among them those
    with an absent or unparsable start, are dropped and nothing is
    raised. *)
Theorem filter_upcoming_window (now days cutoff : Z) (events : list NormalizedEvent) :
  add_days now days = Ok cutoff →
  Forall (λ e, start_comparable fromisoformat e = true) events →
  cutoff = (now + days * US_PER_DAY)%Z
  ∧ filter_upcoming fromisoformat now events days
    = Ok (filter (λ e, starts_within fromisoformat now cutoff e = true) events)
  ∧ (∀ e, starts_within fromisoformat now cutoff e = true
          ↔ ∃ s t, ev_start e = JStr s ∧ fromisoformat s = Some (Naive t)
                   ∧ (now ≤ t ≤ cutoff)%Z)
  ∧ filter (λ e, starts_within fromisoformat now cutoff e = true) events `sublist_of` events.
Proof.
  intros Hcut Hall. split_and!.
  - by apply add_days_ok in Hcut as [? _].
  - unfold filter_upcoming. rewrite Hcut, bind_ok.
    by rewrite filter_loop_comparable.
  - apply starts_within_spec.
  - apply sublist_filter.
Qed.

(** The two conditions are what the program needs to return. *)
Lemma filter_upcoming_ok_iff (now days : Z) (events : list NormalizedEvent) :
  is_ok (filter_upcoming fromisoformat now events days) = true
  ↔ is_ok (add_days now days) = true
    ∧ Forall (λ e, start_comparable fromisoformat e = true) events.
Proof.
  unfold filter_upcoming. rewrite bind_is_ok. split.
  - intros (cutoff & Hcut & Hloop). rewrite Hcut. split; [done |].
    by eapply filter_loop_ok_comparable.
  - intros [Hcut Hall]. destruct (add_days now days) as [cutoff|] eqn:Hc; [| done].
    exists cutoff. split; [done |]. by rewrite filter_loop_comparable.
Qed.

End Window.

(** The window of 60 days from 2026-11-03T00:00:00: the events at both
    ends are kept, the one a second later, the one whose start is no
    date and those without a start are dropped. *)
Lemma filter_upcoming_window_witness :
  fixed_iso "" = None
  ∧ add_days clock_sample 60 = Ok (civil_us 2027 1 2 0 0 0)
  ∧ Forall (λ e, start_comparable fixed_iso e = true) window_sample
  ∧ filter_upcoming fixed_iso clock_sample window_sample 60
    = Ok [ event_at "at now" (JStr "2026-11-03T00:00:00");
           event_at "at cutoff" (JStr "2027-01-02T00:00:00");
           event_at "inside" (JStr "2026-11-10T09:00:00") ].
Proof.
  assert (H0 : fixed_iso "" = None) by reflexivity.
  assert (H1 : add_days clock_sample 60 = Ok (civil_us 2027 1 2 0 0 0))
    by (vm_compute; reflexivity).
  assert (H2 : Forall (λ e, start_comparable fixed_iso e = true) window_sample)
    by (repeat constructor).
  split_and!; [exact H0 | exact H1 | exact H2 |].
  exact (proj1 (proj2 (filter_upcoming_window fixed_iso H0 _ _ _ _ H1 H2))).
Defined.

(** The claim of C1 fails for a start with a UTC offset: it parses as
    ISO-8601, and comparing it with the naive [now] raises
    [TypeError]. *)
Lemma filter_upcoming_offset_raises :
  fixed_iso "2026-11-10T09:00:00-07:00"
  = Some (Aware (civil_us 2026 11 10 9 0 0) (-7 * 3600 * 1000000))
  ∧ filter_upcoming fixed_iso clock_sample [offset_event] 60
    = Raise (TypeError NaiveWithAware)
  ∧ ¬ (∃ out, filter_upcoming fixed_iso clock_sample [offset_event] 60 = Ok out).
Proof.
  split_and!; [vm_compute; reflexivity | vm_compute; reflexivity |].
  intros [out Hout]. vm_compute in Hout. discriminate Hout.
Qed.

(** It fails as well for a lookahead that leads past [datetime.max]. *)
Lemma filter_upcoming_far_lookahead_raises :
  filter_upcoming fixed_iso clock_sample window_sample 3000000 = Raise OverflowError.
Proof. vm_compute. reflexivity. Qed.

(** ** Deduplication *)

Lemma event_key_hashable (e : NormalizedEvent) :
  hashable_event e = true →
  ∃ k1 k2, composite_key e = (Some k1, Some k2) ∧ event_key e = Ok (k1, k2).
Proof.
  unfold hashable_event, composite_key, event_key, hash_key.
  intros [[k1 H1]%bool_decide_eq_true [k2 H2]%bool_decide_eq_true]%andb_true_iff.
  exists k1, k2. by rewrite H1, H2.
Qed.

Lemma event_key_unhashable (e : NormalizedEvent) :
  hashable_event e = false → is_ok (event_key e) = false.
Proof.
  unfold hashable_event, event_key, hash_key.
  destruct (key_class (ev_name e)) as [k1|]; [| done].
  destruct (key_class (ev_start e)) as [k2|]; [| done].
  intros H. exfalso. apply andb_false_iff in H as [H|H];
    apply bool_decide_eq_false in H; apply H; eauto.
Qed.

Lemma dedup_loop_first (l earlier : list NormalizedEvent)
    (seen : gset (hkey * hkey)) (unique : list NormalizedEvent) :
  Forall (λ e, hashable_event e = true) l →
  (∀ k1 k2, (k1, k2) ∈ seen
            ↔ Exists (λ e', composite_key e' = (Some k1, Some k2)) earlier) →
  dedup_loop l seen unique = Ok (unique ++ first_occurrences earlier l).
Proof.
  intros Hall. revert earlier seen unique.
  induction Hall as [|e l He _ IH]; intros earlier seen unique Hseen; simpl.
  - by rewrite app_nil_r.
  - destruct (event_key_hashable e He) as (k1 & k2 & Hck & ->).
    rewrite bind_ok, Hck.
    destruct (decide ((k1, k2) ∈ seen)) as [Hin|Hout].
    + rewrite bool_decide_eq_true_2 by (by apply Hseen).
      apply IH. intros k1' k2'. rewrite Exists_app, Exists_cons, Exists_nil, Hseen.
      split; [by left |]. intros [H|[H|[]]]; [done |].
      rewrite Hck in H. injection H as <- <-. by apply Hseen.
    + rewrite bool_decide_eq_false_2 by (by rewrite <- Hseen).
      rewrite (IH (earlier ++ [e]) ({[(k1, k2)]} ∪ seen) (unique ++ [e])).
      * by rewrite <- app_assoc.
      * intros k1' k2'.
        rewrite elem_of_union, elem_of_singleton, Exists_app, Exists_cons, Exists_nil, Hseen, Hck.
        split.
        -- intros [[= -> ->]|H]; [right; by left | by left].
        -- intros [H|[[= -> ->]|[]]]; [by right | by left].
Qed.

Lemma dedup_loop_ok_hashable (l : list NormalizedEvent)
    (seen : gset (hkey * hkey)) (unique : list NormalizedEvent) :
  is_ok (dedup_loop l seen unique) = true → Forall (λ e, hashable_event e = true) l.
Proof.
  revert seen unique. induction l as [|e l IH]; intros seen unique; simpl.
  - constructor.
  - intros (key & Hkey & Hrest)%bind_is_ok.
    constructor.
    + destruct (hashable_event e) eqn:He; [done |].
      apply event_key_unhashable in He. by rewrite Hkey in He.
    + destruct (decide (key ∈ seen)); by eapply IH.
Qed.

Lemma first_occurrences_sublist (earlier l : list NormalizedEvent) :
  first_occurrences earlier l `sublist_of` l.
Proof.
  revert earlier. induction l as [|e l IH]; intros earlier; simpl; [done |].
  case_bool_decide; [by apply sublist_cons | by apply sublist_skip].
Qed.

Lemma first_occurrences_fresh (earlier l : list NormalizedEvent) (e : NormalizedEvent) :
  e ∈ first_occurrences earlier l →
  ¬ Exists (λ e', composite_key e' = composite_key e) earlier.
Proof.
  revert earlier. induction l as [|x l IH]; intros earlier; simpl.
  - by intros ?%elem_of_nil.
  - assert (Hmono : e ∈ first_occurrences (earlier ++ [x]) l →
                    ¬ Exists (λ e', composite_key e' = composite_key e) earlier).
    { intros Hin Hex. apply (IH _ Hin). apply Exists_app. by left. }
    case_bool_decide as Hx; [done |].
    intros [->|Hin]%elem_of_cons; [done | by apply Hmono].
Qed.

Lemma first_occurrences_NoDup (earlier l : list NormalizedEvent) :
  NoDup (composite_key <$> first_occurrences earlier l).
Proof.
  revert earlier. induction l as [|x l IH]; intros earlier; simpl.
  - constructor.
  - case_bool_decide as Hx; [apply IH |].
    rewrite fmap_cons. constructor; [| apply IH].
    intros (e & Hkey & Hin)%list_elem_of_fmap.
    apply first_occurrences_fresh in Hin. apply Hin.
    apply Exists_app. right. by constructor.
Qed.

Lemma first_occurrences_keeps (earlier before after : list NormalizedEvent)
    (e : NormalizedEvent) :
  ¬ Exists (λ e', composite_key e' = composite_key e) (earlier ++ before) →
  e ∈ first_occurrences earlier (before ++ e :: after).
Proof.
  revert earlier. induction before as [|x before IH]; intros earlier Hfresh; simpl.
  - rewrite app_nil_r in Hfresh.
    rewrite bool_decide_eq_false_2 by done. by left.
  - assert (Hin : e ∈ first_occurrences (earlier ++ [x]) (before ++ e :: after)).
    { apply IH. by rewrite <- app_assoc. }
    case_bool_decide; [done | by right].
Qed.

Lemma NoDup_fmap_same {A B} (f : A → B) (l : list A) (x y : A) :
  NoDup (f <$> l) → x ∈ l → y ∈ l → f x = f y → x = y.
Proof.
  intros Hnd [i Hi]%list_elem_of_lookup [j Hj]%list_elem_of_lookup Hf.
  assert (i = j) as ->.
  { eapply NoDup_lookup; [exact Hnd | |].
    - by rewrite list_lookup_fmap, Hi.
    - by rewrite list_lookup_fmap, Hj, Hf. }
  congruence.
Qed.

(** *** C2 *)

(** C2, as the program has it.  For every input sequence whose names
    and starts are hashable (the no-value marker, a boolean, a number
    or a string), the loop keys each event by the pair (name, start),
    the no-value marker taking part in the equality like any other
    value.  It returns the first occurrences: a sublist of the input,
    in its order, with pairwise different keys, which contains every
    event that no earlier event shares its key with, and none of the
    later events that share it while differing elsewhere. *)
Theorem deduplicate_first_occurrences (events : list NormalizedEvent) :
  Forall (λ e, hashable_event e = true) events →
  deduplicate events = Ok (first_occurrences [] events)
  ∧ first_occurrences [] events `sublist_of` events
  ∧ NoDup (composite_key <$> first_occurrences [] events)
  ∧ (∀ before e after,
       events = before ++ e :: after →
       (∀ e', e' ∈ before → composite_key e' ≠ composite_key e) →
       e ∈ first_occurrences [] events
       ∧ ∀ e', e' ∈ after → composite_key e' = composite_key e → e' ≠ e →
               e' ∉ first_occurrences [] events).
Proof.
  intros Hall. split_and!.
  - unfold deduplicate. rewrite (dedup_loop_first events [] ∅ []); [done | done |].
    intros k1 k2. rewrite Exists_nil. set_solver.
  - apply first_occurrences_sublist.
  - apply first_occurrences_NoDup.
  - intros before e after -> Hfirst.
    assert (Hin : e ∈ first_occurrences [] (before ++ e :: after)).
    { apply first_occurrences_keeps. simpl. rewrite Exists_exists.
      intros (e' & He' & Hkey). by apply (Hfirst e'). }
    split; [done |]. intros e' _ Hkey Hne Hin'. apply Hne.
    eapply (NoDup_fmap_same composite_key); [apply first_occurrences_NoDup | done..].
Qed.

(** Two records without a name and without a start, which differ in
    their other fields: the first one survives. *)
Lemma deduplicate_first_occurrences_witness :
  Forall (λ e, hashable_event e = true) [nameless_walk; nameless_dinner]
  ∧ deduplicate [nameless_walk; nameless_dinner] = Ok [nameless_walk].
Proof.
  assert (H : Forall (λ e, hashable_event e = true) [nameless_walk; nameless_dinner])
    by (repeat constructor).
  split; [exact H |].
  exact (proj1 (deduplicate_first_occurrences _ H)).
Defined.

(** The claim of C2 fails for a name that is a list: the record
    normalizes and passes the window, and hashing its key raises
    [TypeError]. *)
Lemma deduplicate_list_name_raises :
  normalize_events [list_name_record] = Ok [list_name_event]
  ∧ filter_upcoming fixed_iso clock_sample [list_name_event] 60 = Ok [list_name_event]
  ∧ deduplicate [list_name_event]
    = Raise (TypeError (Unhashable (JArr [JStr "Veterans"; JStr "Stand Down"])))
  ∧ ¬ (∃ out, deduplicate [list_name_event] = Ok out).
Proof.
  split_and!; [reflexivity | vm_compute; reflexivity | reflexivity |].
  by intros [out Hout].
Qed.

(** Hashable keys are what the loop needs to return. *)
Lemma deduplicate_ok_iff (events : list NormalizedEvent) :
  is_ok (deduplicate events) = true ↔ Forall (λ e, hashable_event e = true) events.
Proof.
  split; [apply dedup_loop_ok_hashable |].
  intros Hall. unfold deduplicate.
  rewrite (dedup_loop_first events [] ∅ []); [done | done |].
  intros k1 k2. rewrite Exists_nil. set_solver.
Qed.

(** Two events with the same name and start and different other
    fields, with a third one between them. *)
Example deduplicate_keeps_first :
  deduplicate [ event_at "Stand Down" (JStr "2026-11-10T09:00:00");
                event_at "Coffee Hour" (JStr "2026-11-10T09:00:00");
                nameless_walk;
                with_url (event_at "Stand Down" (JStr "2026-11-10T09:00:00")) "https://e/2" ]
  = Ok [ event_at "Stand Down" (JStr "2026-11-10T09:00:00");
         event_at "Coffee Hour" (JStr "2026-11-10T09:00:00");
         nameless_walk ].
Proof. vm_compute. reflexivity. Qed.

(** ** validate_token *)

Lemma substring_length_le (n : nat) (s : string) :
  (String.length (String.substring 0 n s) ≤ n)%nat.
Proof.
  revert s. induction n as [|n IH]; intros [|c s]; simpl; try lia.
  specialize (IH s). lia.
Qed.

Lemma substring_prefix (n : nat) (s : string) :
  String.prefix (String.substring 0 n s) s = true.
Proof.
  revert s. induction n as [|n IH]; intros [|c s]; simpl; try done.
  destruct (Ascii.ascii_dec c c); [apply IH | done].
Qed.

Lemma snippet_bounded (text : string) :
  (String.length (snippet text) ≤ 256)%nat ∧ String.prefix (snippet text) text = true.
Proof. split; [apply substring_length_le | apply substring_prefix]. Qed.

(** *** C5 *)

(** C5.  [validate_token] sends one request to the identity endpoint.
    It returns normally exactly when the response has status 200.  On
    401 or 403 it raises [token_invalid_or_forbidden] with the status
    code and the first 256 characters at most of the body; on 429,
    [rate_limited_on_token_validation] with the same snippet; on any
    other status, [token_validation_http_error]; and when the request
    itself fails, [token_validation_request_error] with the text of
    the underlying error. *)
Theorem validate_token_classification (headers : Headers) (o : http_outcome)
    (rest : list http_outcome) (tr : list io_event) :
  validate_token headers {| pending := o :: rest; trace := tr |}
  = Some (validate_outcome o,
          {| pending := rest;
             trace := tr ++ [Get (API_BASE +:+ "/users/me/") headers None] |})
  ∧ (validate_outcome o = Ok () ↔ ∃ text body, o = Response 200 text body)
  ∧ (∀ status text body, o = Response status text body →
       (String.length (snippet text) ≤ 256)%nat
       ∧ String.prefix (snippet text) text = true
       ∧ (status = 401%Z ∨ status = 403%Z →
          validate_outcome o
          = Raise (RuntimeError ("token_invalid_or_forbidden:http_" +:+ str_of_Z status
                                 +:+ ":" +:+ snippet text)))
       ∧ (status = 429%Z →
          validate_outcome o
          = Raise (RuntimeError ("rate_limited_on_token_validation:http_429:"
                                 +:+ snippet text)))
       ∧ (status ∉ [200; 401; 403; 429]%Z →
          validate_outcome o
          = Raise (RuntimeError ("token_validation_http_error:http_" +:+ str_of_Z status
                                 +:+ ":" +:+ snippet text))))
  ∧ (∀ exc, o = Transport exc →
       validate_outcome o
       = Raise (RuntimeError ("token_validation_request_error:" +:+ exc))).
Proof.
  split_and!.
  - reflexivity.
  - split.
    + destruct o as [exc | status text body]; simpl; [done |].
      destruct (Z.eqb_spec status 200) as [->|Hne]; [by eauto |].
      by repeat case_match.
    + by intros (text & body & ->).
  - intros status text body ->.
    destruct (snippet_bounded text) as [Hlen Hpre].
    split_and!; [done | done | | |].
    + by intros [-> | ->].
    + by intros ->.
    + intros Hother. rewrite !not_elem_of_cons in Hother.
      destruct Hother as (H200 & H401 & H403 & H429 & _). simpl.
      rewrite (proj2 (Z.eqb_neq _ _) H200), (proj2 (Z.eqb_neq _ _) H401),
        (proj2 (Z.eqb_neq _ _) H403), (proj2 (Z.eqb_neq _ _) H429). done.
  - by intros exc ->.
Qed.

Example validate_token_forbidden :
  validate_outcome (Response 403 "NOT_AUTHORIZED" None)
  = Raise (RuntimeError "token_invalid_or_forbidden:http_403:NOT_AUTHORIZED").
Proof. reflexivity. Qed.

(** ** The check of the token *)

Section TokenCheck.

Variable fromisoformat : string → option datetime.
Variable py_repr : json → string.
Variable exc_text : exn → string.

Lemma save_markdown_empty (cfg : Config) (fs : Files) :
  save_markdown py_repr cfg [] fs = Ok (write_md (empty_report cfg) fs).
Proof. reflexivity. Qed.

Lemma main_without_token (cfg : Config) (w : World) (fs : Files) :
  get_token (EVENTBRITE_TOKEN w) = None →
  main fromisoformat py_repr exc_text cfg w fs
  = Some {| exit_status := 2;
            files := {| events_json := Some misconfigured;
                        events_md := Some (empty_report cfg) |};
            network := {| pending := responses w; trace := [] |} |}.
Proof. intros Hgate. unfold main. by rewrite Hgate. Qed.

(** *** C4 *)

(** C4.  When the environment variable is absent, the program sends
    no request: it writes
    [{"generated": false, "error": "EVENTBRITE_TOKEN is not set"}] to
    the structured file and the heading followed by the "no events"
    sentence to the narrative file, whatever the files held before,
    and it exits with status 2, which is not the status 1 of a
    failure at run time. *)
Theorem missing_token_exits_2 (cfg : Config) (w : World) (fs : Files) :
  EVENTBRITE_TOKEN w = None →
  ∃ run,
    main fromisoformat py_repr exc_text cfg w fs = Some run
    ∧ exit_status run = 2%Z ∧ exit_status run ≠ 1%Z
    ∧ events_json (files run) = Some (Failed "EVENTBRITE_TOKEN is not set")
    ∧ events_md (files run) = Some (heading +:+ nl +:+ no_events_sentence cfg)
    ∧ trace (network run) = []
    ∧ pending (network run) = responses w.
Proof.
  intros Habsent. eexists. split.
  - apply main_without_token. by rewrite Habsent.
  - by simpl.
Qed.

(** *** C10 *)

(** C10.  An environment variable that is set to the empty string is
    treated as an absent one: the run is the run of the same world
    without the variable, it writes the misconfiguration payload and
    the empty report, exits with status 2 and sends no request. *)
Theorem empty_token_is_missing (cfg : Config) (w : World) (fs : Files) :
  EVENTBRITE_TOKEN w = Some "" →
  main fromisoformat py_repr exc_text cfg w fs
  = main fromisoformat py_repr exc_text cfg
      {| EVENTBRITE_TOKEN := None; utcnow := utcnow w; responses := responses w |} fs
  ∧ ∃ run,
      main fromisoformat py_repr exc_text cfg w fs = Some run
      ∧ exit_status run = 2%Z
      ∧ events_json (files run) = Some (Failed "EVENTBRITE_TOKEN is not set")
      ∧ events_md (files run) = Some (heading +:+ nl +:+ no_events_sentence cfg)
      ∧ trace (network run) = []
      ∧ pending (network run) = responses w.
Proof.
  intros Hempty.
  assert (Hgate : get_token (EVENTBRITE_TOKEN w) = None) by by rewrite Hempty.
  rewrite (main_without_token cfg w fs Hgate). split.
  - by rewrite main_without_token.
  - eexists. split; [reflexivity | by simpl].
Qed.

End TokenCheck.

Lemma missing_token_exits_2_witness :
  EVENTBRITE_TOKEN {| EVENTBRITE_TOKEN := None; utcnow := clock_sample;
                      responses := [Response 200 "" None] |} = None
  ∧ ∃ run,
      main fixed_iso sample_repr sample_exc_text default_config
        {| EVENTBRITE_TOKEN := None; utcnow := clock_sample;
           responses := [Response 200 "" None] |} stale_files = Some run
      ∧ exit_status run = 2%Z
      ∧ events_json (files run) = Some (Failed "EVENTBRITE_TOKEN is not set").
Proof.
  split; [reflexivity |].
  destruct (missing_token_exits_2 fixed_iso sample_repr sample_exc_text default_config
              {| EVENTBRITE_TOKEN := None; utcnow := clock_sample;
                 responses := [Response 200 "" None] |} stale_files eq_refl)
    as (run & Hrun & Hexit & _ & Hjson & _).
  exists run. by split_and!.
Defined.

Lemma empty_token_is_missing_witness :
  EVENTBRITE_TOKEN {| EVENTBRITE_TOKEN := Some ""; utcnow := clock_sample;
                      responses := [Response 200 "" None] |} = Some ""
  ∧ ∃ run,
      main fixed_iso sample_repr sample_exc_text default_config
        {| EVENTBRITE_TOKEN := Some ""; utcnow := clock_sample;
           responses := [Response 200 "" None] |} no_files = Some run
      ∧ exit_status run = 2%Z
      ∧ trace (network run) = [].
Proof.
  split; [reflexivity |].
  destruct (empty_token_is_missing fixed_iso sample_repr sample_exc_text default_config
              {| EVENTBRITE_TOKEN := Some ""; utcnow := clock_sample;
                 responses := [Response 200 "" None] |} no_files eq_refl)
    as (_ & run & Hrun & Hexit & _ & _ & Htrace & _).
  exists run. by split_and!.
Defined.

(** The report of a run without a token, with the lookahead of 60 days. *)
Example empty_report_default :
  empty_report default_config
  = "# Upcoming Veteran Events in Montana and Wyoming" +:+ nl +:+ nl
    +:+ "No events found within the next 60 days." +:+ nl.
Proof. reflexivity. Qed.

(** ** search_region *)

Lemma page_shape_events (data : json) :
  page_shape data = true →
  page_events data = Ok (events_of data) ∧ has_more_items data = Ok (more_items data).
Proof.
  destruct data as [| | | | | fields]; try done.
  unfold page_shape, page_events, has_more_items, events_of, more_items.
  rewrite json_path_one, json_path_cons, py_get_obj, bind_ok.
  intros [Hev Hpag]%andb_true_iff. split.
  - unfold py_or.
    destruct (default JNull (dict_lookup "events" fields)) as [| b | n | s | evs | fs].
    1-4, 6: by apply negb_true_iff in Hev; rewrite Hev.
    by destruct evs.
  - unfold py_get_default.
    by destruct (dict_lookup "pagination" fields) as [[| | | | | pag]|].
Qed.

Lemma page_of_outcome (location_address : string) (o : http_outcome) (data : json) :
  page_of o = Some data →
  page_outcome location_address o = inr data
  ∧ page_events data = Ok (events_of data)
  ∧ has_more_items data = Ok (more_items data).
Proof.
  destruct o as [exc | status text [body|]]; try done. simpl.
  destruct (Z.eqb_spec status 200) as [->|Hne]; [| done]. simpl.
  destruct (page_shape body) eqn:Hshape; [| done].
  intros [= ->]. split; [done |]. by apply page_shape_events.
Qed.

Lemma failure_outcome (location_address : string) (o : http_outcome) (kind : string) :
  failure_kind o = Some kind →
  page_of o = None
  ∧ page_outcome location_address o
    = inl (kind +:+ ":" +:+ location_address +:+ ":" +:+ failure_detail o).
Proof.
  destruct o as [exc | status text body]; simpl.
  - by intros [= <-].
  - assert (Hpage : status ≠ 200%Z →
      match body with
      | Some data => if (status =? 200)%Z && page_shape data then Some data else None
      | None => None
      end = None).
    { intros Hne%Z.eqb_neq. rewrite Hne. by destruct body. }
    destruct (Z.eqb_spec status 404) as [->|H404];
      [intros [= <-]; by split; [apply Hpage |] |].
    destruct (Z.eqb_spec status 401) as [->|H401];
      [intros [= <-]; by split; [apply Hpage |] |].
    destruct (Z.eqb_spec status 403) as [->|H403];
      [intros [= <-]; by split; [apply Hpage |] |].
    destruct (Z.eqb_spec status 429) as [->|H429];
      [intros [= <-]; by split; [apply Hpage |] |].
    destruct (Z.eqb_spec status 200) as [->|H200]; simpl.
    + destruct body as [data|]; [done |]. by intros [= <-].
    + intros [= <-]. by split; [apply Hpage |].
Qed.


(** One turn of the loop on a failure: one warning, and [break]. *)
Lemma search_loop_failure (delay : Q) (headers : Headers) (params : SearchParams)
    (results : list json) (warnings : list string)
    (o : http_outcome) (rest : list http_outcome) (tr : list io_event) (kind : string) :
  failure_kind o = Some kind →
  search_loop delay headers params results warnings (o :: rest) tr
  = Some (Ok (results,
              warnings ++ [kind +:+ ":" +:+ location_address params +:+ ":"
                           +:+ failure_detail o]),
          {| pending := rest;
             trace := tr ++ [Get (API_BASE +:+ "/events/search") headers (Some params)] |}).
Proof.
  intros Hkind. simpl.
  by destruct (failure_outcome (location_address params) o kind Hkind) as [_ ->].
Qed.

(** The delays that [time.sleep] accepts. *)
Lemma py_sleep_ok_iff (secs : Q) :
  py_sleep secs = Ok ()
  ↔ (0 ≤ Qnum secs)%Z ∧ (Qnum secs * 10 ^ 9 < (2 ^ 63 - 512) * Z.pos (Qden secs))%Z.
Proof.
  unfold py_sleep, nanoseconds_fit. split.
  - destruct (_ && _) eqn:Hfit; [| done].
    destruct (0 <=? Qnum secs)%Z eqn:Hsign; [| done]. intros _.
    apply andb_true_iff in Hfit as [_ Hhi%Z.ltb_lt]. apply Z.leb_le in Hsign. done.
  - intros [Hsign Hhi].
    assert (Hlo : (- (2 ^ 63 + 1024) * Z.pos (Qden secs) <=? Qnum secs * 10 ^ 9)%Z = true).
    { apply Z.leb_le. nia. }
    rewrite Hlo. rewrite (proj2 (Z.ltb_lt _ _) Hhi), (proj2 (Z.leb_le _ _) Hsign). done.
Qed.


Lemma requests_from_lookup (delay : Q) (headers : Headers) (query loc within : string)
    (n : nat) (p : Z) (i : nat) :
  i < n →
  requests_from delay headers query loc within p n !! (2 * i)
  = Some (Get (API_BASE +:+ "/events/search") headers
            (Some (search_params query loc within (p + Z.of_nat i))))
  ∧ (S i < n →
     requests_from delay headers query loc within p n !! (2 * i + 1)
     = Some (Sleep delay)).
Proof.
  revert p i. induction n as [|n IH]; intros p i Hi; [lia |].
  destruct i as [|i].
  - cbn [requests_from]. rewrite Z.add_0_r. split; [done |].
    intros Hn. by destruct n as [|n]; [lia |].
  - destruct n as [|n]; [lia |].
    replace (2 * S i) with (S (S (2 * i))) by lia.
    replace (S (S (2 * i)) + 1) with (S (S (2 * i + 1))) by lia.
    change (requests_from delay headers query loc within p (S (S n)))
      with (Get (API_BASE +:+ "/events/search") headers
              (Some (search_params query loc within p))
            :: Sleep delay
            :: requests_from delay headers query loc within (p + 1) (S n)).
    cbn [lookup list_lookup].
    destruct (IH (p + 1)%Z i ltac:(lia)) as [Hget Hsleep].
    replace (p + Z.of_nat (S i))%Z with (p + 1 + Z.of_nat i)%Z by lia.
    split; [done |]. intros Hn. apply Hsleep. lia.
Qed.

(** *** C7 *)




(** A [pagination] that is [null] announces no more items either; the
    default of [data.get("pagination", {})] is for an absent key, and
    the method call on [None] raises. *)
Example search_region_null_pagination :
  search_region default_config sample_headers "veteran" "Montana" "500mi"
    {| pending := [null_pagination]; trace := [] |}
  = Some (Raise (AttributeError JNull "get"),
          {| pending := [];
             trace := requests_from (1 # 2)%Q sample_headers "veteran" "Montana" "500mi" 1 1 |}).
Proof. reflexivity. Qed.

(** The pause is part of the hypothesis: [time.sleep] accepts half a
    second and no delay at all, and it refuses a negative delay and
    one of ten thousand million seconds.  With a negative delay the
    search raises after the first page that announces more. *)
Example py_sleep_samples :
  py_sleep (1 # 2)%Q = Ok ()
  ∧ py_sleep (0 # 1)%Q = Ok ()
  ∧ py_sleep (-1 # 1000)%Q = Raise ValueError
  ∧ py_sleep (10000000000 # 1)%Q = Raise OverflowError.
Proof. by split_and!. Qed.

Example search_region_negative_delay_raises :
  search_region hasty_config sample_headers "veteran" "Montana" "500mi"
    {| pending := [page_response [stand_down] true; page_response [coffee_hour] false];
       trace := [] |}
  = Some (Raise ValueError,
          {| pending := [page_response [coffee_hour] false];
             trace := [Get (API_BASE +:+ "/events/search") sample_headers
                         (Some (search_params "veteran" "Montana" "500mi" 1))] |}).
Proof. reflexivity. Qed.

(** The loop has no bound of its own: as long as the pages announce
    more items, and the pause is taken, it asks for the next one. *)
Lemma search_loop_never_stops (delay : Q) (headers : Headers) (query loc within : string)
    (pages : list http_outcome) :
  py_sleep delay = Ok () →
  Forall (λ o, continues o = true) pages →
  ∀ (p : Z) (results : list json) (warnings : list string) (tr : list io_event),
    search_loop delay headers (search_params query loc within p) results warnings pages tr
    = None.
Proof.
  intros Hsleep.
  induction 1 as [|o pages Ho _ IH]; intros p results warnings tr; [done |].
  unfold continues in Ho.
  destruct (page_of o) as [data|] eqn:Hpage; [| done].
  destruct (page_of_outcome loc o data Hpage) as (Hout & Hev & Hmore).
  cbn [search_loop location_address search_params].
  rewrite Hout, Hev, Hmore, Ho, Hsleep.
  change (next_page (search_params query loc within p))
    with (search_params query loc within (p + 1)).
  apply IH.
Qed.

(** ** main *)

Section Orchestrator.

Variable fromisoformat : string → option datetime.
Variable py_repr : json → string.
Variable exc_text : exn → string.

Local Abbreviation run_main := (main fromisoformat py_repr exc_text).
Local Abbreviation fetch cfg w token :=
  (fetch_events fromisoformat cfg (utcnow w) token (DEFAULT_QUERY cfg) DEFAULT_STATES
     (DEFAULT_WITHIN cfg) {| pending := responses w; trace := [] |}).

Lemma on_exception_files (cfg : Config) (exc : exn) (fs : Files) :
  on_exception py_repr exc_text cfg exc fs
  = expected_end exc_text cfg (Raise exc).
Proof. reflexivity. Qed.

(** What [main] does once [get_token] has returned the token. *)
Lemma main_with_token (cfg : Config) (w : World) (fs : Files) (token : string) :
  get_token (EVENTBRITE_TOKEN w) = Some token →
  run_main cfg w fs
  = match fetch cfg w token with
    | None => None
    | Some (fetched, n) =>
        let '(status, fs') :=
          expected_end exc_text cfg (pipeline py_repr cfg fetched) in
        Some {| exit_status := status; files := fs'; network := n |}
    end.
Proof.
  intros Hgate. unfold main. rewrite Hgate.
  destruct (fetch cfg w token) as [[[payload|exc] n]|]; [| done | done].
  unfold pipeline, save_markdown. rewrite bind_ok.
  by destruct (markdown_lines py_repr cfg (p_events payload)) as [lines|exc].
Qed.

(** *** C8 *)

(** C8.  In a run with a credential that [get_token] returns, let
    [fetched] be what [fetch_events] did.  When an exception is
    raised in the pipeline, by [fetch_events] (a failed validation
    of the token among others) or while the report is rendered, the
    run ends with status 1, the failure payload with the text of the
    exception in the structured file, and the empty report, with the
    "no events" sentence, in the narrative file.  When none is
    raised, it ends with status 0, the success payload and the
    report of its events.  Either way both files are written, and
    nothing of what they held before the run remains.  An identity
    response that [validate_token] rejects is such an exception. *)
Theorem main_exit_and_files (cfg : Config) (w : World) (fs : Files)
    (token : string) (fetched : result SuccessPayload) (n : net) :
  get_token (EVENTBRITE_TOKEN w) = Some token →
  fetch cfg w token = Some (fetched, n) →
  ∃ run,
    run_main cfg w fs = Some run
    ∧ network run = n
    ∧ (∀ exc, pipeline py_repr cfg fetched = Raise exc →
         exit_status run = 1%Z
         ∧ events_json (files run) = Some (Failed (str_exc exc_text exc))
         ∧ events_md (files run)
           = Some (heading +:+ nl +:+ no_events_sentence cfg))
    ∧ (∀ payload text, pipeline py_repr cfg fetched = Ok (payload, text) →
         fetched = Ok payload
         ∧ exit_status run = 0%Z
         ∧ events_json (files run) = Some (Generated payload)
         ∧ events_md (files run) = Some text)
    ∧ is_Some (events_json (files run))
    ∧ is_Some (events_md (files run))
    ∧ (∀ fs', ∃ run', run_main cfg w fs' = Some run' ∧ files run' = files run)
    ∧ (∀ o exc, head (responses w) = Some o → validate_outcome o = Raise exc →
         pipeline py_repr cfg fetched = Raise exc).
Proof.
  intros Hgate Hfetch.
  assert (Hvalid : ∀ o exc, head (responses w) = Some o → validate_outcome o = Raise exc →
                     pipeline py_repr cfg fetched = Raise exc).
  { intros o exc Ho Hexc. unfold fetch_events, validate_token in Hfetch.
    cbn [pending] in Hfetch. destruct (responses w) as [|o' rest]; [done |].
    injection Ho as ->. rewrite Hexc in Hfetch. by injection Hfetch as <- _. }
  pose proof (main_with_token cfg w fs token Hgate) as Hmain.
  rewrite Hfetch in Hmain.
  destruct (expected_end exc_text cfg (pipeline py_repr cfg fetched))
    as [status fs1] eqn:Hend.
  eexists. split; [exact Hmain |]. cbn [network exit_status files].
  split; [done |].
  unfold expected_end in Hend.
  destruct (pipeline py_repr cfg fetched) as [[payload text]|exc] eqn:Hpipe;
    injection Hend as <- <-.
  - split_and!; [done | | by eexists | by eexists | | done].
    + intros payload' text' [= <- <-]. split_and!; try done.
      unfold pipeline in Hpipe. destruct fetched as [p|e]; [| done].
      rewrite bind_ok in Hpipe.
      destruct (markdown_lines py_repr cfg (p_events p)); [| done].
      by injection Hpipe as -> _.
    + intros fs'. rewrite (main_with_token cfg w fs' token Hgate), Hfetch.
      unfold expected_end. rewrite Hpipe. eexists; split; reflexivity.
  - split_and!; [| done | by eexists | by eexists | | done].
    + by intros exc' [= <-].
    + intros fs'. rewrite (main_with_token cfg w fs' token Hgate), Hfetch.
      unfold expected_end. rewrite Hpipe. eexists; split; reflexivity.
Qed.

(** When the script of responses ends before the searches do, the
    model has no run; a script that ends every search gives one. *)
Lemma main_none_iff (cfg : Config) (w : World) (fs : Files) (token : string) :
  get_token (EVENTBRITE_TOKEN w) = Some token →
  run_main cfg w fs = None ↔ fetch cfg w token = None.
Proof.
  intros Hgate. rewrite (main_with_token cfg w fs token Hgate).
  destruct (fetch cfg w token) as [[fetched n]|]; [| done].
  by destruct (expected_end _ _ _).
Qed.

End Orchestrator.

(** A rejected token, with the files of an earlier run in place. *)
Lemma main_exit_and_files_witness :
  get_token (EVENTBRITE_TOKEN rejected_world) = Some "EXPIRED"
  ∧ ∃ run,
      main fixed_iso sample_repr sample_exc_text default_config rejected_world stale_files
      = Some run
      ∧ exit_status run = 1%Z
      ∧ events_json (files run)
        = Some (Failed "token_invalid_or_forbidden:http_401:INVALID_AUTH")
      ∧ events_md (files run) = Some (empty_report default_config).
Proof.
  split; [reflexivity |].
  destruct (main_exit_and_files fixed_iso sample_repr sample_exc_text default_config
              rejected_world stale_files "EXPIRED" _ _ eq_refl eq_refl)
    as (run & Hrun & _ & Hraise & _).
  exists run. split; [exact Hrun |]. exact (Hraise _ eq_refl).
Defined.

(** ** The events of a success payload *)

Section Invariant.

Variable fromisoformat : string → option datetime.
Variable py_repr : json → string.
Variable exc_text : exn → string.

Lemma in_window_true (now cutoff : Z) (e : NormalizedEvent) :
  in_window fromisoformat now cutoff e = Ok true →
  ∃ s t, ev_start e = JStr s ∧ fromisoformat s = Some (Naive t)
         ∧ (now ≤ t ≤ cutoff)%Z.
Proof.
  unfold in_window.
  destruct (truthy (ev_start e)); [| done]. simpl.
  destruct (ev_start e) as [| | | s | |]; try done.
  destruct (fromisoformat s) as [[t | t off]|] eqn:Hparse; try done.
  intros [= [H1%Z.leb_le H2%Z.leb_le]%andb_true_iff].
  exists s, t. split_and!; [done | done | lia | lia].
Qed.

Lemma filter_loop_elements (now cutoff : Z) (events filtered out : list NormalizedEvent) :
  filter_loop fromisoformat now cutoff events filtered = Ok out →
  ∀ e, e ∈ out → e ∈ filtered ∨ in_window fromisoformat now cutoff e = Ok true.
Proof.
  revert filtered. induction events as [|x events IH]; intros filtered; simpl.
  - intros [= <-] e He. by left.
  - destruct (in_window fromisoformat now cutoff x) as [[|]|exc] eqn:Hx; [| | done];
      rewrite bind_ok; intros Hloop e He;
      destruct (IH _ Hloop e He) as [Hin|Hin]; [| by right | by left | by right].
    apply elem_of_app in Hin as [Hin|Hin]; [by left |].
    apply list_elem_of_singleton in Hin as ->. by right.
Qed.

Lemma dedup_loop_elements (l : list NormalizedEvent) (seen : gset (hkey * hkey))
    (unique out : list NormalizedEvent) :
  dedup_loop l seen unique = Ok out → ∀ e, e ∈ out → e ∈ unique ∨ e ∈ l.
Proof.
  revert seen unique. induction l as [|x l IH]; intros seen unique; simpl.
  - intros [= <-] e He. by left.
  - destruct (event_key x) as [key|exc]; [| done]. rewrite bind_ok.
    destruct (decide (key ∈ seen)) as [Hseen|Hseen]; intros Hloop e He;
      destruct (IH _ _ Hloop e He) as [Hin|Hin];
      [by left | right; by right | | right; by right].
    apply elem_of_app in Hin as [Hin|Hin]; [by left |].
    apply list_elem_of_singleton in Hin as ->. right. by left.
Qed.

Lemma build_payload_invariant (cfg : Config) (now : Z) (query : string)
    (states : list string) (within : string)
    (all_raw : list json) (all_warnings : list string) (p : SuccessPayload) :
  build_payload fromisoformat cfg now query states within all_raw all_warnings = Ok p →
  p_count p = Z.of_nat (length (p_events p))
  ∧ NoDup (composite_key <$> p_events p)
  ∧ Forall (λ e, ∃ s t, ev_start e = JStr s ∧ fromisoformat s = Some (Naive t)
                        ∧ (now ≤ t ≤ now + LOOKAHEAD_DAYS cfg * US_PER_DAY)%Z)
      (p_events p).
Proof.
  unfold build_payload.
  destruct (normalize_events all_raw) as [normalized|]; [| done]. rewrite bind_ok.
  unfold filter_upcoming.
  destruct (add_days now (LOOKAHEAD_DAYS cfg)) as [cutoff|] eqn:Hcut; [| done].
  apply add_days_ok in Hcut as [-> _]. rewrite bind_ok.
  destruct (filter_loop _ _ _ normalized []) as [upcoming|] eqn:Hfilter; [| done].
  rewrite bind_ok.
  destruct (deduplicate upcoming) as [unique|] eqn:Hdedup; [| done].
  rewrite bind_ok. intros [= <-]. cbn [p_count p_events]. split_and!.
  - done.
  - assert (Hok : is_ok (deduplicate upcoming) = true) by by rewrite Hdedup.
    apply deduplicate_ok_iff in Hok.
    unfold deduplicate in Hdedup.
    rewrite (dedup_loop_first upcoming [] ∅ []) in Hdedup; [| done |].
    + injection Hdedup as <-. apply first_occurrences_NoDup.
    + intros k1 k2. rewrite Exists_nil. set_solver.
  - apply Forall_forall. intros e He.
    destruct (dedup_loop_elements _ _ _ _ Hdedup e He) as [Hin|Hin];
      [by apply elem_of_nil in Hin |].
    destruct (filter_loop_elements _ _ _ _ _ Hfilter e Hin) as [Hnil|Hwin];
      [by apply elem_of_nil in Hnil |].
    by apply in_window_true.
Qed.

Lemma fetch_events_payload (cfg : Config) (now : Z) (token query : string)
    (states : list string) (within : string) (n n' : net) (p : SuccessPayload) :
  fetch_events fromisoformat cfg now token query states within n = Some (Ok p, n') →
  ∃ all_raw all_warnings,
    build_payload fromisoformat cfg now query states within all_raw all_warnings = Ok p.
Proof.
  unfold fetch_events.
  destruct (validate_token _ n) as [[[[]|] n1]|]; [| done | done].
  destruct (search_states _ _ _ _ _ _ _ n1) as [[[[all_raw all_warnings]|] n2]|];
    [| done | done].
  intros [= Hp _]. eauto.
Qed.

(** *** C9 *)

(** C9.  In every success payload that a run leaves in the
    structured file, every event has a start: a string that parses
    as ISO-8601 to a naive time within the lookahead window from the
    reading of the clock; the count is the length of the list of
    events; and the keys (name, start) of the events are pairwise
    different.  So no event of the persisted output lacks a start,
    and none lacks both its name and its start. *)
Theorem persisted_events_in_window (cfg : Config) (w : World) (fs : Files)
    (run : Run) (p : SuccessPayload) :
  main fromisoformat py_repr exc_text cfg w fs = Some run →
  events_json (files run) = Some (Generated p) →
  p_count p = Z.of_nat (length (p_events p))
  ∧ Forall (λ e, ∃ s t, ev_start e = JStr s ∧ fromisoformat s = Some (Naive t)
                        ∧ (utcnow w ≤ t ≤ utcnow w + LOOKAHEAD_DAYS cfg * US_PER_DAY)%Z)
      (p_events p)
  ∧ NoDup (composite_key <$> p_events p)
  ∧ (∀ e, e ∈ p_events p → ev_start e ≠ JNull)
  ∧ ¬ (∃ e, e ∈ p_events p ∧ ev_name e = JNull ∧ ev_start e = JNull).
Proof.
  intros Hmain Hjson.
  assert (Hfetch : ∃ token n,
    fetch_events fromisoformat cfg (utcnow w) token (DEFAULT_QUERY cfg) DEFAULT_STATES
      (DEFAULT_WITHIN cfg) {| pending := responses w; trace := [] |} = Some (Ok p, n)).
  { unfold main in Hmain.
    destruct (get_token (EVENTBRITE_TOKEN w)) as [token|].
    - destruct (fetch_events _ _ _ _ _ _ _ _) as [[[payload|exc] n]|] eqn:Hf;
        [| | done].
      + unfold save_markdown in Hmain.
        destruct (markdown_lines py_repr cfg (p_events payload)) as [lines|exc];
          injection Hmain as <-; simpl in Hjson; [| done].
        injection Hjson as ->. eauto.
      + injection Hmain as <-. by simpl in Hjson.
    - simpl in Hmain. injection Hmain as <-. by simpl in Hjson. }
  destruct Hfetch as (token & n & Hfetch).
  apply fetch_events_payload in Hfetch as (all_raw & all_warnings & Hbuild).
  apply build_payload_invariant in Hbuild as (Hcount & Hnodup & Hwindow).
  assert (Hstart : ∀ e, e ∈ p_events p → ev_start e ≠ JNull).
  { intros e He. rewrite Forall_forall in Hwindow.
    destruct (Hwindow e He) as (s & t & -> & _). done. }
  split_and!; [done | done | done | done |].
  intros (e & He & _ & Hnull). by apply (Hstart e He).
Qed.

End Invariant.

(** The run of [sample_world]: the event that both pages of Montana
    list survives once, the one of the year after does not. *)
Lemma persisted_events_in_window_witness :
  ∃ run p,
    main fixed_iso sample_repr sample_exc_text default_config sample_world stale_files
    = Some run
    ∧ events_json (files run) = Some (Generated p)
    ∧ exit_status run = 0%Z
    ∧ p_events p = [flat_view stand_down; flat_view bare_record]
    ∧ p_count p = Z.of_nat (length (p_events p)).
Proof.
  eexists _, _.
  assert (Hmain : main fixed_iso sample_repr sample_exc_text default_config
                    sample_world stale_files
                  = Some (default {| exit_status := 1; files := no_files;
                                     network := {| pending := []; trace := [] |} |}
                            (main fixed_iso sample_repr sample_exc_text default_config
                               sample_world stale_files)))
    by (vm_compute; reflexivity).
  split; [exact Hmain |].
  split; [vm_compute; reflexivity |].
  split; [vm_compute; reflexivity |].
  split; [vm_compute; reflexivity |].
  exact (proj1 (persisted_events_in_window fixed_iso sample_repr sample_exc_text
                  default_config sample_world stale_files _ _ Hmain eq_refl)).
Defined.

(** ** Failures of the search *)

(** The accumulators of the loop over the states only grow. *)
Lemma search_states_acc (cfg : Config) (headers : Headers) (query : string)
    (states : list string) (within : string)
    (all_raw : list json) (all_warnings : list string) (n : net) :
  search_states cfg headers query states within all_raw all_warnings n
  = match search_states cfg headers query states within [] [] n with
    | Some (Ok (raw, warns), n') => Some (Ok (all_raw ++ raw, all_warnings ++ warns), n')
    | Some (Raise e, n') => Some (Raise e, n')
    | None => None
    end.
Proof.
  revert all_raw all_warnings n.
  induction states as [|state states IH]; intros all_raw all_warnings n.
  - cbn [search_states]. by rewrite !app_nil_r.
  - cbn [search_states].
    destruct (search_region cfg headers query state within n)
      as [[[[events warns]|e] n']|]; [| done | done].
    rewrite (IH (all_raw ++ events)), (IH ([] ++ events)).
    destruct (search_states cfg headers query states within [] [] n')
      as [[[[raw ws]|e] n'']|]; [| done | done].
    by rewrite !app_nil_l, <- !app_assoc.
Qed.

Lemma search_states_app (cfg : Config) (headers : Headers) (query : string)
    (before after : list string) (within : string)
    (all_raw : list json) (all_warnings : list string) (n : net) :
  search_states cfg headers query (before ++ after) within all_raw all_warnings n
  = match search_states cfg headers query before within all_raw all_warnings n with
    | Some (Ok (raw, warns), n') =>
        search_states cfg headers query after within raw warns n'
    | Some (Raise e, n') => Some (Raise e, n')
    | None => None
    end.
Proof.
  revert all_raw all_warnings n.
  induction before as [|state before IH]; intros all_raw all_warnings n; [done |].
  cbn [app search_states].
  by destruct (search_region cfg headers query state within n)
    as [[[[events warns]|e] n']|].
Qed.

Lemma search_region_failure (cfg : Config) (headers : Headers)
    (query state within : string) (o : http_outcome) (rest : list http_outcome)
    (tr : list io_event) (kind : string) :
  failure_kind o = Some kind →
  search_region cfg headers query state within {| pending := o :: rest; trace := tr |}
  = Some (Ok ([], page_warnings state o),
          {| pending := rest;
             trace := tr ++ [Get (API_BASE +:+ "/events/search") headers
                               (Some (search_params query state within 1))] |}).
Proof.
  intros Hkind. unfold search_region, page_warnings. cbn [pending trace].
  by rewrite (search_loop_failure _ _ _ _ _ _ _ _ kind Hkind), Hkind.
Qed.

Section FailurePolicy.

Variable fromisoformat : string → option datetime.
Variable py_repr : json → string.
Variable exc_text : exn → string.

(** *** C6 *)

(** C6, as the program has it.  When a page request fails, at
    transport level, with a status 404, 401, 403, 429 or another one
    that is not 200, or with a 200 whose body is no JSON,
    [search_region] appends one warning, made of the kind of the
    failure, the region and a detail, and stops: it requests no
    further page of the region and returns the events of the earlier
    pages.  The detail is the first 256 characters at most of the body
    of a response, and the whole text of the error of a request that
    failed.  The failure raises nothing.  On page 1 it leaves the
    region with no event and one warning, whose kind is
    [rate_limited_http_429] for a 429, and the loop over the regions
    goes on with the next one: the searches return the events of the
    other regions and the warnings of all.  The run of a validated
    token then ends as the pipeline does on these, with status 0 and
    the warning in its payload when nothing in it raises. *)
Theorem search_failure_is_a_warning (cfg : Config) (headers : Headers)
    (query state within : string)
    (o : http_outcome) (rest : list http_outcome) (tr : list io_event)
    (kind : string) :
  failure_kind o = Some kind →
  page_warnings state o = [kind +:+ ":" +:+ state +:+ ":" +:+ failure_detail o]
  ∧ (∀ status text body, o = Response status text body →
       failure_detail o = snippet text
       ∧ (String.length (snippet text) ≤ 256)%nat
       ∧ (status = 429%Z → kind = "rate_limited_http_429"))
  ∧ (∀ exc, o = Transport exc → kind = "request_error" ∧ failure_detail o = exc)
  ∧ (∀ p results warnings,
       search_loop (PAGE_DELAY_SEC cfg) headers (search_params query state within p)
         results warnings (o :: rest) tr
       = Some (Ok (results, warnings ++ page_warnings state o),
               {| pending := rest;
                  trace := tr ++ [Get (API_BASE +:+ "/events/search") headers
                                    (Some (search_params query state within p))] |}))
  ∧ search_region cfg headers query state within {| pending := o :: rest; trace := tr |}
    = Some (Ok ([], page_warnings state o),
            {| pending := rest;
               trace := tr ++ [Get (API_BASE +:+ "/events/search") headers
                                 (Some (search_params query state within 1))] |})
  ∧ (∀ before after n0 raw1 warns1 raw2 warns2 n2,
       search_states cfg headers query before within [] [] n0
       = Some (Ok (raw1, warns1), {| pending := o :: rest; trace := tr |}) →
       search_states cfg headers query after within [] []
         {| pending := rest;
            trace := tr ++ [Get (API_BASE +:+ "/events/search") headers
                              (Some (search_params query state within 1))] |}
       = Some (Ok (raw2, warns2), n2) →
       search_states cfg headers query (before ++ state :: after) within [] [] n0
       = Some (Ok (raw1 ++ raw2, warns1 ++ page_warnings state o ++ warns2), n2)
       ∧ ∀ (w : World) (fs : Files) token,
           get_token (EVENTBRITE_TOKEN w) = Some token →
           headers = request_headers cfg token →
           query = DEFAULT_QUERY cfg →
           within = DEFAULT_WITHIN cfg →
           before ++ state :: after = DEFAULT_STATES →
           validate_token headers {| pending := responses w; trace := [] |}
           = Some (Ok (), n0) →
           ∃ run,
             main fromisoformat py_repr exc_text cfg w fs = Some run
             ∧ network run = n2
             ∧ ∀ payload text,
                 pipeline py_repr cfg
                   (build_payload fromisoformat cfg (utcnow w) query DEFAULT_STATES within
                      (raw1 ++ raw2) (warns1 ++ page_warnings state o ++ warns2))
                 = Ok (payload, text) →
                 exit_status run = 0%Z
                 ∧ events_json (files run) = Some (Generated payload)
                 ∧ events_md (files run) = Some text
                 ∧ p_warnings payload = warns1 ++ page_warnings state o ++ warns2).
Proof.
  intros Hkind.
  assert (Hwarn : page_warnings state o
                  = [kind +:+ ":" +:+ state +:+ ":" +:+ failure_detail o])
    by (unfold page_warnings; by rewrite Hkind).
  split_and!.
  - done.
  - intros status text body ->. split_and!; [done | apply snippet_bounded |].
    intros ->. by injection Hkind as <-.
  - intros exc ->. by injection Hkind as <-.
  - intros p results warnings.
    by rewrite (search_loop_failure _ _ _ _ _ _ _ _ kind Hkind), Hwarn.
  - by apply (search_region_failure _ _ _ _ _ _ _ _ kind).
  - intros before after n0 raw1 warns1 raw2 warns2 n2 Hbefore Hafter.
    assert (Hall : search_states cfg headers query (before ++ state :: after) within [] [] n0
                   = Some (Ok (raw1 ++ raw2, warns1 ++ page_warnings state o ++ warns2), n2)).
    { rewrite search_states_app, Hbefore. cbn [search_states].
      rewrite (search_region_failure _ _ _ _ _ _ _ _ kind Hkind).
      rewrite search_states_acc, Hafter. by rewrite app_nil_r, <- app_assoc. }
    split; [exact Hall |].
    intros w fs token Hgate -> -> -> Hstates Hvalid.
    rewrite Hstates in Hall.
    rewrite (main_with_token fromisoformat py_repr exc_text cfg w fs token Hgate).
    unfold fetch_events. rewrite Hvalid, Hall.
    destruct (expected_end exc_text cfg _) as [status fs'] eqn:Hend.
    eexists. split; [reflexivity |]. split; [reflexivity |].
    intros payload text Hpipe. rewrite Hpipe in Hend. injection Hend as <- <-.
    split_and!; [done | done | done |].
    unfold pipeline, build_payload in Hpipe.
    destruct (normalize_events _) as [normalized|]; [| done]. rewrite bind_ok in Hpipe.
    destruct (filter_upcoming _ _ _ _) as [upcoming|]; [| done]. rewrite bind_ok in Hpipe.
    destruct (deduplicate _) as [unique|]; [| done]. rewrite !bind_ok in Hpipe.
    cbn [p_events] in Hpipe.
    destruct (markdown_lines py_repr cfg unique) as [lines|]; [| done].
    rewrite bind_ok in Hpipe. by injection Hpipe as <- _.
Qed.

End FailurePolicy.

(** Montana is rate-limited and Wyoming cannot be reached: the run ends
    with status 0, no event and the two warnings. *)
Lemma search_failure_is_a_warning_witness :
  failure_kind rate_limited = Some "rate_limited_http_429"
  ∧ search_region default_config sample_headers "veteran" "Montana" "500mi"
      {| pending := [rate_limited; unreachable]; trace := [] |}
    = Some (Ok ([], ["rate_limited_http_429:Montana:Too many requests"]),
            {| pending := [unreachable];
               trace := [Get (API_BASE +:+ "/events/search") sample_headers
                           (Some (search_params "veteran" "Montana" "500mi" 1))] |})
  ∧ ∃ run payload,
      main fixed_iso sample_repr sample_exc_text default_config failing_world stale_files
      = Some run
      ∧ exit_status run = 0%Z
      ∧ events_json (files run) = Some (Generated payload)
      ∧ p_events payload = []
      ∧ p_warnings payload
        = ["rate_limited_http_429:Montana:Too many requests"]
          ++ page_warnings "Wyoming" unreachable.
Proof.
  assert (H : failure_kind rate_limited = Some "rate_limited_http_429") by reflexivity.
  split; [exact H |]. split.
  - exact (proj1 (proj2 (proj2 (proj2 (proj2
             (search_failure_is_a_warning fixed_iso sample_repr sample_exc_text
                default_config sample_headers "veteran" "Montana" "500mi"
                rate_limited [unreachable] [] _ H)))))).
  - destruct (search_failure_is_a_warning fixed_iso sample_repr sample_exc_text
                default_config (request_headers default_config "TOKEN")
                (DEFAULT_QUERY default_config) "Montana" (DEFAULT_WITHIN default_config)
                rate_limited [unreachable]
                [Get (API_BASE +:+ "/users/me/") (request_headers default_config "TOKEN") None]
                _ H)
      as (_ & _ & _ & _ & _ & Hrun).
    destruct (Hrun [] ["Wyoming"] _ [] [] [] (page_warnings "Wyoming" unreachable) _
                eq_refl eq_refl) as [_ Hmain].
    destruct (Hmain failing_world stale_files "TOKEN" eq_refl eq_refl eq_refl eq_refl
                eq_refl eq_refl) as (run & Hrun' & _ & Hexit).
    exists run. eexists. split; [exact Hrun' |].
    destruct (Hexit _ _ eq_refl) as (H0 & Hjson & _ & Hw).
    split_and!; [exact H0 | exact Hjson | reflexivity | exact Hw].
Defined.

(** The claim of C6 fails for a request that fails at transport
    level: the warning ends with the whole text of the error, here of
    366 characters, and with no snippet of at most 256 characters.
    And a validated token with a region rate-limited on page 1 does
    not make the status 0 by itself: the run of [offset_world] ends
    with status 1, on the start of an event of the other region. *)
Lemma transport_warning_is_not_bounded :
  search_region default_config sample_headers "veteran" "Montana" "500mi"
    {| pending := [unreachable]; trace := [] |}
  = Some (Ok ([], page_warnings "Montana" unreachable),
          {| pending := [];
             trace := [Get (API_BASE +:+ "/events/search") sample_headers
                         (Some (search_params "veteran" "Montana" "500mi" 1))] |})
  ∧ ¬ (∃ snip, page_warnings "Montana" unreachable
               = ["request_error" +:+ ":" +:+ "Montana" +:+ ":" +:+ snip]
               ∧ (String.length snip ≤ 256)%nat)
  ∧ ∃ run,
      main fixed_iso sample_repr sample_exc_text default_config offset_world no_files
      = Some run
      ∧ exit_status run = 1%Z
      ∧ events_json (files run) = Some (Failed (sample_exc_text (TypeError NaiveWithAware))).
Proof.
  split; [reflexivity |]. split.
  - intros (snip & Hwarn & Hlen).
    vm_compute in Hwarn. simplify_eq.
    vm_compute in Hlen. lia.
  - eexists. split; [vm_compute; reflexivity |]. by split.
Qed.

(** ** Sample runs *)

(** Two events with the same name and start in the window, on two
    pages of one region: the payload counts one of them. *)
Example sample_run_counts_once :
  ∃ run payload,
    main fixed_iso sample_repr sample_exc_text default_config sample_world no_files
    = Some run
    ∧ exit_status run = 0%Z
    ∧ events_json (files run) = Some (Generated payload)
    ∧ p_count payload = 2%Z
    ∧ ev_name <$> p_events payload = [JStr "Veterans Stand Down"; JNull]
    ∧ p_warnings payload = ["rate_limited_http_429:Wyoming:Too many requests"].
Proof. eexists _, _. split; [vm_compute; reflexivity |]. by split_and!. Qed.

(** The report of that run. *)
Example sample_run_report :
  (run ← main fixed_iso sample_repr sample_exc_text default_config sample_world no_files;
   events_md (files run))
  = Some (String.concat nl
            [ "# Upcoming Veteran Events in Montana and Wyoming"; "";
              "## Veterans Stand Down"; "";
              "- **Date:** 2026-11-10 09:00:00"; "";
              "- **Location:** VFW Post 1087, Billings, MT"; "";
              "- **Sign up:** [https://www.eventbrite.com/e/101]"
              +:+ "(https://www.eventbrite.com/e/101)"; ""; "";
              "## Unnamed Event"; "";
              "- **Date:** 2026-11-20 18:00:00"; ""; "" ]).
Proof. vm_compute. reflexivity. Qed.

(** A location part that is a number stops the rendering: the run ends
    with status 1 although every search went well. *)
Example numeric_city_fails_the_run :
  ∃ run,
    main fixed_iso sample_repr sample_exc_text default_config
      {| EVENTBRITE_TOKEN := Some "TOKEN"; utcnow := clock_sample;
         responses :=
           [ Response 200 "{...}" None;
             page_response
               [JObj [("name", JObj [("text", JStr "Muster")]);
                      ("start", JObj [("local", JStr "2026-11-10T09:00:00")]);
                      ("venue", JObj [("address", JObj [("city", JNum 59601)])])]] false;
             page_response [] false ] |} no_files
    = Some run
    ∧ exit_status run = 1%Z
    ∧ events_json (files run)
      = Some (Failed (sample_exc_text (TypeError (JoinItem 0 (JNum 59601)))))
    ∧ events_md (files run) = Some (empty_report default_config).
Proof. eexists. split; [vm_compute; reflexivity |]. by split_and!. Qed.

(** * Further properties *)

(** ** search_region on any script *)

Lemma page_outcome_inr (loc loc' : string) (o : http_outcome) (data : json) :
  page_outcome loc o = inr data → page_outcome loc' o = inr data.
Proof.
  destruct o as [exc | status text body]; simpl; [done |].
  repeat case_match; done.
Qed.

Lemma page_outcome_inl (loc : string) (o : http_outcome) (w : string) :
  page_outcome loc o = inl w →
  page_warnings loc o = [w] ∧ keeps_going o = false ∧ appended o = [].
Proof.
  intros Hout.
  assert (Hkind : ∃ kind, failure_kind o = Some kind).
  { destruct o as [exc | status text body]; simpl in *; [by eauto |].
    repeat case_match; try done; by eauto. }
  destruct Hkind as [kind Hkind].
  destruct (failure_outcome loc o kind Hkind) as [_ Hw].
  rewrite Hw in Hout. injection Hout as <-.
  unfold page_warnings, keeps_going, appended. rewrite Hkind.
  destruct (failure_outcome "" o kind Hkind) as [_ ->]. done.
Qed.

Lemma page_outcome_inr_no_warning (loc : string) (o : http_outcome) (data : json) :
  page_outcome loc o = inr data → page_warnings loc o = [].
Proof.
  intros Hout. unfold page_warnings.
  destruct (failure_kind o) as [kind|] eqn:Hkind; [| done].
  destruct (failure_outcome loc o kind Hkind) as [_ Hw]. by rewrite Hw in Hout.
Qed.

(** What a turn of the loop does with one response. *)
Lemma search_loop_step (delay : Q) (headers : Headers) (query loc within : string)
    (p : Z) (results : list json) (warnings : list string)
    (o : http_outcome) (rest : list http_outcome) (tr : list io_event) :
  let tr1 := tr ++ [Get (API_BASE +:+ "/events/search") headers
                      (Some (search_params query loc within p))] in
  search_loop delay headers (search_params query loc within p) results warnings
    (o :: rest) tr
  = if keeps_going o then
      match py_sleep delay with
      | Raise e => Some (Raise e, {| pending := rest; trace := tr1 |})
      | Ok _ =>
          search_loop delay headers (search_params query loc within (p + 1))
            (results ++ appended o) warnings rest (tr1 ++ [Sleep delay])
      end
    else
      Some (match page_outcome loc o with
            | inl w => Ok (results, warnings ++ [w])
            | inr data =>
                match page_events data with
                | Raise e => Raise e
                | Ok evs =>
                    match has_more_items data with
                    | Raise e => Raise e
                    | Ok _ => Ok (results ++ evs, warnings)
                    end
                end
            end, {| pending := rest; trace := tr1 |}).
Proof.
  cbn [search_loop location_address search_params]. unfold keeps_going, appended.
  destruct (page_outcome loc o) as [w|data] eqn:Hout.
  - destruct (page_outcome_inl loc o w Hout) as (_ & Hgo & _).
    unfold keeps_going in Hgo. by rewrite Hgo.
  - rewrite (page_outcome_inr loc "" o data Hout).
    destruct (page_events data) as [evs|e]; [| done].
    by destruct (has_more_items data) as [[|]|e].
Qed.

Lemma search_loop_any (delay : Q) (headers : Headers) (query loc within : string)
    (script : list http_outcome) :
  ∀ (p : Z) (results : list json) (warnings : list string) (tr : list io_event)
    (r : result (list json * list string)) (n' : net),
    search_loop delay headers (search_params query loc within p) results warnings
      script tr = Some (r, n') →
    ∃ consumed last,
      script = consumed ++ last :: pending n'
      ∧ Forall (λ o, keeps_going o = true) consumed
      ∧ trace n' = tr ++ requests_from delay headers query loc within p
                          (S (length consumed))
      ∧ (consumed ≠ [] → py_sleep delay = Ok ())
      ∧ match r with
        | Ok (res, warns) =>
            keeps_going last = false
            ∧ res = results ++ concat (appended <$> consumed ++ [last])
            ∧ warns = warnings ++ page_warnings loc last
        | Raise e =>
            (keeps_going last = true ∧ py_sleep delay = Raise e)
            ∨ (keeps_going last = false
               ∧ ∃ data, page_outcome loc last = inr data
                         ∧ (page_events data = Raise e
                            ∨ (is_ok (page_events data) = true
                               ∧ has_more_items data = Raise e)))
        end.
Proof.
  induction script as [|o rest IH]; intros p results warnings tr r n'; [done |].
  rewrite search_loop_step. cbv zeta.
  destruct (keeps_going o) eqn:Hgo.
  - destruct (py_sleep delay) as [[]|e] eqn:Hsleep.
    + intros Hloop.
      destruct (IH _ _ _ _ _ _ Hloop) as (consumed & last & -> & Hall & Htr & _ & Hr).
      exists (o :: consumed), last.
      split_and!; [done | by constructor | | by intros _ |].
      * rewrite Htr, <- !app_assoc. done.
      * destruct r as [[res warns]|e]; [| exact Hr].
        destruct Hr as (Hlast & -> & ->). split_and!; [done | | done].
        by rewrite <- app_assoc.
    + intros [= <- <-]. exists [], o. cbn [pending trace app length requests_from].
      split_and!; [done | done | done | done |]. left. by split.
  - intros [= <- <-]. exists [], o. cbn [pending trace app length requests_from].
    split_and!; [done | done | done | done |].
    assert (Hone : concat (appended <$> [o]) = appended o) by apply app_nil_r.
    rewrite Hone. clear Hone.
    destruct (page_outcome loc o) as [w|data] eqn:Hout.
    + destruct (page_outcome_inl loc o w Hout) as (Hw & _ & Happ).
      by rewrite Happ, Hw, !app_nil_r.
    + assert (Happ : appended o = match page_events data with Ok evs => evs | Raise _ => [] end).
      { unfold appended. by rewrite (page_outcome_inr loc "" o data Hout). }
      rewrite Happ, (page_outcome_inr_no_warning loc o data Hout).
      destruct (page_events data) as [evs|e] eqn:Hev;
        [| right; split; [done |]; exists data; split; [done | by left]].
      destruct (has_more_items data) as [more|e] eqn:Hmore;
        [| right; split; [done |]; exists data; split; [done | right; by rewrite Hev]].
      by rewrite !app_nil_r.
Qed.

Lemma requests_from_length (delay : Q) (headers : Headers) (query loc within : string)
    (p : Z) (k : nat) :
  length (requests_from delay headers query loc within p (S k)) = S (2 * k).
Proof.
  revert p. induction k as [|k IH]; intros p; [done |].
  change (requests_from delay headers query loc within p (S (S k)))
    with (Get (API_BASE +:+ "/events/search") headers
            (Some (search_params query loc within p))
          :: Sleep delay
          :: requests_from delay headers query loc within (p + 1) (S k)).
  cbn [length]. rewrite IH. lia.
Qed.

Lemma page_warnings_length (loc : string) (o : http_outcome) :
  (length (page_warnings loc o) ≤ 1)%nat.
Proof. unfold page_warnings. destruct (failure_kind o); simpl; lia. Qed.

(** X1.  Whenever [search_region] returns, whatever the responses
    were: it has consumed a run of responses that kept the loop going
    and one that did not; its events are what these responses made
    it append, in order; its warnings are those of the last response
    alone, so there is at most one, and a response that leaves a
    warning adds no event. *)
Theorem search_region_returns (cfg : Config) (headers : Headers)
    (query loc within : string) (n n' : net)
    (results : list json) (warnings : list string) :
  search_region cfg headers query loc within n = Some (Ok (results, warnings), n') →
  ∃ consumed last,
    pending n = consumed ++ last :: pending n'
    ∧ Forall (λ o, keeps_going o = true) consumed
    ∧ keeps_going last = false
    ∧ results = concat (appended <$> consumed ++ [last])
    ∧ warnings = page_warnings loc last
    ∧ (length warnings ≤ 1)%nat
    ∧ (warnings ≠ [] → appended last = []).
Proof.
  unfold search_region. intros Hloop.
  apply (search_loop_any _ _ query loc within _ 1) in Hloop
    as (consumed & last & Hpend & Hall & _ & _ & Hlast & Hres & Hwarn).
  cbn [app] in Hres, Hwarn. subst results warnings.
  exists consumed, last. split_and!; try done.
  - apply page_warnings_length.
  - unfold page_warnings. destruct (failure_kind last) as [kind|] eqn:Hkind; [| done].
    intros _. destruct (failure_outcome "" last kind Hkind) as [_ Hout].
    unfold appended. by rewrite Hout.
Qed.

(** X2.  Whenever [search_region] ends, with a result or with an
    exception, it has sent one request for each response it consumed,
    at least one, for the pages 1, 2, ... in turn and with the same
    query, region and radius, and it has paused between two requests
    and at no other moment: [k] requests and [k - 1] pauses. *)
Theorem search_region_requests (cfg : Config) (headers : Headers)
    (query loc within : string) (n n' : net)
    (r : result (list json * list string)) :
  search_region cfg headers query loc within n = Some (r, n') →
  ∃ k, (1 ≤ k ≤ length (pending n))%nat
       ∧ pending n' = drop k (pending n)
       ∧ trace n' = trace n ++ requests_from (PAGE_DELAY_SEC cfg) headers query loc
                                 within 1 k
       ∧ length (trace n') = (length (trace n) + 2 * k - 1)%nat
       ∧ ∀ i, (i < k)%nat →
           trace n' !! (length (trace n) + 2 * i)%nat
           = Some (Get (API_BASE +:+ "/events/search") headers
                     (Some (search_params query loc within (1 + Z.of_nat i)))).
Proof.
  unfold search_region. intros Hloop.
  apply (search_loop_any _ _ query loc within _ 1) in Hloop
    as (consumed & last & Hpend & _ & Htr & _).
  exists (S (length consumed)). rewrite Hpend, Htr. split_and!.
  - lia.
  - rewrite length_app. simpl. lia.
  - rewrite cons_middle, app_assoc.
    assert (Hlen : S (length consumed) = length (consumed ++ [last]))
      by (rewrite length_app; simpl; lia).
    by rewrite (drop_app_length' _ _ _ Hlen).
  - done.
  - rewrite length_app, requests_from_length. lia.
  - intros i Hi. rewrite lookup_app_r by lia.
    replace (length (trace n) + 2 * i - length (trace n))%nat with (2 * i)%nat by lia.
    by apply requests_from_lookup.
Qed.

Lemma search_region_returns_witness :
  search_region default_config sample_headers "veteran" "Montana" "500mi"
    {| pending := limited_script; trace := [] |}
  = Some (Ok ([stand_down; coffee_hour],
              ["rate_limited_http_429:Montana:Too many requests"]),
          {| pending := [page_response [] false];
             trace := requests_from (1 # 2)%Q sample_headers "veteran" "Montana" "500mi" 1 2 |})
  ∧ ∃ consumed last,
      limited_script = consumed ++ [last; page_response [] false]
      ∧ Forall (λ o, keeps_going o = true) consumed
      ∧ keeps_going last = false
      ∧ [stand_down; coffee_hour] = concat (appended <$> consumed ++ [last]).
Proof.
  assert (H : search_region default_config sample_headers "veteran" "Montana" "500mi"
                {| pending := limited_script; trace := [] |}
              = Some (Ok ([stand_down; coffee_hour],
                          ["rate_limited_http_429:Montana:Too many requests"]),
                      {| pending := [page_response [] false];
                         trace := requests_from (1 # 2)%Q sample_headers "veteran"
                                    "Montana" "500mi" 1 2 |}))
    by reflexivity.
  split; [exact H |].
  destruct (search_region_returns _ _ _ _ _ _ _ _ _ H)
    as (consumed & last & H1 & H2 & H3 & H4 & _).
  exists consumed, last. by split_and!.
Defined.

Lemma search_region_requests_witness :
  search_region default_config sample_headers "veteran" "Montana" "500mi"
    {| pending := [page_response [stand_down] true; array_body]; trace := [] |}
  = Some (Raise (AttributeError (JArr []) "get"),
          {| pending := [];
             trace := requests_from (1 # 2)%Q sample_headers "veteran" "Montana" "500mi" 1 2 |})
  ∧ ∃ k, (1 ≤ k ≤ 2)%nat
         ∧ requests_from (1 # 2)%Q sample_headers "veteran" "Montana" "500mi" 1 2
           = [] ++ requests_from (PAGE_DELAY_SEC default_config) sample_headers
                     "veteran" "Montana" "500mi" 1 k.
Proof.
  assert (H : search_region default_config sample_headers "veteran" "Montana" "500mi"
                {| pending := [page_response [stand_down] true; array_body]; trace := [] |}
              = Some (Raise (AttributeError (JArr []) "get"),
                      {| pending := [];
                         trace := requests_from (1 # 2)%Q sample_headers "veteran"
                                    "Montana" "500mi" 1 2 |}))
    by reflexivity.
  split; [exact H |].
  destruct (search_region_requests _ _ _ _ _ _ _ _ H) as (k & Hk & _ & Htr & _).
  exists k. by split.
Defined.




(** X4.  The default of [data.get("pagination", {})] serves an absent
    key only.  When the key is there with a value that is not a dict,
    [null] and the other falsy values among them, the turn of the
    loop raises [AttributeError] for that value, after the request
    and whatever the earlier pages brought: the events fetched so far
    are not returned. *)
Theorem pagination_not_a_dict_raises (delay : Q) (headers : Headers)
    (query loc within : string) (p : Z) (results : list json) (warnings : list string)
    (text : string) (fields : list (string * json)) (v : json) (evs : list json)
    (rest : list http_outcome) (tr : list io_event) :
  dict_lookup "pagination" fields = Some v →
  (∀ pag, v ≠ JObj pag) →
  page_events (JObj fields) = Ok evs →
  search_loop delay headers (search_params query loc within p) results warnings
    (Response 200 text (Some (JObj fields)) :: rest) tr
  = Some (Raise (AttributeError v "get"),
          {| pending := rest;
             trace := tr ++ [Get (API_BASE +:+ "/events/search") headers
                               (Some (search_params query loc within p))] |}).
Proof.
  intros Hpag Hv Hev.
  assert (Hmore : has_more_items (JObj fields) = Raise (AttributeError v "get")).
  { unfold has_more_items, py_get_default. rewrite Hpag, bind_ok. simpl default.
    destruct v as [| | | | | pag]; try done. by destruct (Hv pag). }
  rewrite search_loop_step. cbv zeta.
  unfold keeps_going. cbn [page_outcome Z.eqb Pos.eqb negb orb].
  rewrite Hev, Hmore. by rewrite andb_false_r.
Qed.

Lemma pagination_not_a_dict_raises_witness :
  dict_lookup "pagination" (flat_pagination JNull) = Some JNull
  ∧ (∀ pag, JNull ≠ JObj pag)
  ∧ page_events (JObj (flat_pagination JNull)) = Ok [stand_down]
  ∧ search_loop (1 # 2)%Q sample_headers (search_params "veteran" "Montana" "500mi" 3)
      [coffee_hour] [] [Response 200 "{...}" (Some (JObj (flat_pagination JNull)))] []
    = Some (Raise (AttributeError JNull "get"),
            {| pending := [];
               trace := [Get (API_BASE +:+ "/events/search") sample_headers
                           (Some (search_params "veteran" "Montana" "500mi" 3))] |}).
Proof.
  assert (H1 : dict_lookup "pagination" (flat_pagination JNull) = Some JNull)
    by reflexivity.
  assert (H2 : ∀ pag, JNull ≠ JObj pag) by done.
  assert (H3 : page_events (JObj (flat_pagination JNull)) = Ok [stand_down])
    by reflexivity.
  split_and!; [exact H1 | exact H2 | exact H3 |].
  exact (pagination_not_a_dict_raises _ _ _ _ _ _ _ _ _ _ _ _ _ [] H1 H2 H3).
Defined.

(** ** filter_upcoming across lookaheads *)

Section Lookahead.

Variable fromisoformat : string → option datetime.

Lemma in_window_wider (now cutoff cutoff' : Z) (e : NormalizedEvent) (keep : bool) :
  (cutoff ≤ cutoff')%Z →
  in_window fromisoformat now cutoff e = Ok keep →
  ∃ keep', in_window fromisoformat now cutoff' e = Ok keep'
           ∧ (keep = true → keep' = true).
Proof.
  intros Hle. unfold in_window.
  destruct (negb (truthy (ev_start e))); [by eauto |].
  destruct (ev_start e) as [| | | s | |]; try done.
  destruct (fromisoformat s) as [[t | t off]|]; [| done | by eauto].
  intros [= <-]. eexists. split; [done |].
  intros [H1 H2%Z.leb_le]%andb_true_iff. apply andb_true_iff.
  split; [done | apply Z.leb_le; lia].
Qed.

Lemma filter_loop_wider (now cutoff cutoff' : Z) (events : list NormalizedEvent) :
  (cutoff ≤ cutoff')%Z →
  ∀ filtered filtered' out,
    filtered `sublist_of` filtered' →
    filter_loop fromisoformat now cutoff events filtered = Ok out →
    ∃ out', filter_loop fromisoformat now cutoff' events filtered' = Ok out'
            ∧ out `sublist_of` out'.
Proof.
  intros Hle. induction events as [|e events IH]; intros filtered filtered' out Hsub;
    simpl.
  - intros [= <-]. by eauto.
  - destruct (in_window fromisoformat now cutoff e) as [keep|] eqn:Hkeep; [| done].
    destruct (in_window_wider _ _ _ _ _ Hle Hkeep) as (keep' & -> & Himp).
    rewrite !bind_ok. apply IH.
    destruct keep; [rewrite (Himp eq_refl); by apply sublist_app |].
    destruct keep'; [| done]. by apply sublist_inserts_r.
Qed.

(** X5.  A longer lookahead never loses an event: when
    [filter_upcoming] returns for [days] and [now + days'] is a
    [datetime] for some [days' >= days], it returns for [days'] too,
    and what it kept for [days] is a sublist of what it keeps for
    [days']. *)
Theorem filter_upcoming_monotone (now days days' cutoff' : Z)
    (events out : list NormalizedEvent) :
  (days ≤ days')%Z →
  add_days now days' = Ok cutoff' →
  filter_upcoming fromisoformat now events days = Ok out →
  ∃ out', filter_upcoming fromisoformat now events days' = Ok out'
          ∧ out `sublist_of` out'.
Proof.
  intros Hle Hcut'. unfold filter_upcoming. rewrite Hcut', bind_ok.
  destruct (add_days now days) as [cutoff|] eqn:Hcut; [| done]. rewrite bind_ok.
  apply add_days_ok in Hcut as [-> _]. apply add_days_ok in Hcut' as [-> _].
  apply filter_loop_wider; [| done].
  unfold US_PER_DAY. lia.
Qed.

(** X6.  A lookahead of zero days or less.  When [filter_upcoming]
    returns for zero days, it has kept only events that start at the
    very reading of the clock; when it returns for a negative number
    of days, it has kept none: the window [now <= t <= cutoff] is
    then empty.  It does not return for every such lookahead: when
    [now + timedelta(days=days)] is no [datetime], as for a cutoff
    before the year 1, it raises [OverflowError], whatever the
    events. *)
Theorem filter_upcoming_no_lookahead (now days : Z) (events : list NormalizedEvent) :
  (days ≤ 0)%Z →
  (∀ out, filter_upcoming fromisoformat now events days = Ok out →
     Forall (λ e, ∃ s, ev_start e = JStr s ∧ fromisoformat s = Some (Naive now)) out
     ∧ (days < 0 → out = [])%Z)
  ∧ (is_ok (add_days now days) = false →
     filter_upcoming fromisoformat now events days = Raise OverflowError).
Proof.
  intros Hdays. split.
  2:{ unfold filter_upcoming, add_days.
      destruct (Z.abs days <=? 999999999)%Z; [| done].
      by destruct (_ && _). }
  intros out. unfold filter_upcoming.
  destruct (add_days now days) as [cutoff|] eqn:Hcut; [| done]. rewrite bind_ok.
  apply add_days_ok in Hcut as [-> _]. intros Hloop.
  assert (Hall : Forall (λ e, ∃ s t, ev_start e = JStr s
                               ∧ fromisoformat s = Some (Naive t)
                               ∧ (now ≤ t ≤ now + days * US_PER_DAY)%Z) out).
  { apply Forall_forall. intros e He.
    destruct (filter_loop_elements _ _ _ _ _ _ Hloop e He) as [Hnil|Hwin];
      [by apply elem_of_nil in Hnil | by apply in_window_true]. }
  split.
  - eapply Forall_impl; [exact Hall |].
    intros e (s & t & Hs & Ht & Hwin). exists s. split; [done |].
    rewrite Ht. do 2 f_equal. unfold US_PER_DAY in Hwin. lia.
  - intros Hneg. destruct out as [|e out]; [done |].
    apply Forall_cons in Hall as [(s & t & _ & _ & Hwin) _].
    unfold US_PER_DAY in Hwin. lia.
Qed.

Lemma filter_loop_kept (now cutoff : Z) (events filtered : list NormalizedEvent) :
  Forall (λ e, in_window fromisoformat now cutoff e = Ok true) events →
  filter_loop fromisoformat now cutoff events filtered = Ok (filtered ++ events).
Proof.
  intros Hall. revert filtered.
  induction Hall as [|e events He _ IH]; intros filtered; simpl.
  - by rewrite app_nil_r.
  - by rewrite He, bind_ok, IH, <- app_assoc.
Qed.

(** X7.  Filtering is idempotent: what [filter_upcoming] returns, it
    returns unchanged when it is applied to it again with the same
    clock and lookahead. *)
Theorem filter_upcoming_idempotent (now days : Z) (events out : list NormalizedEvent) :
  filter_upcoming fromisoformat now events days = Ok out →
  filter_upcoming fromisoformat now out days = Ok out.
Proof.
  unfold filter_upcoming.
  destruct (add_days now days) as [cutoff|]; [| done]. rewrite !bind_ok.
  intros Hloop. rewrite filter_loop_kept; [done |].
  apply Forall_forall. intros e He.
  by destruct (filter_loop_elements _ _ _ _ _ _ Hloop e He) as [Hnil%elem_of_nil|Hwin].
Qed.

End Lookahead.

Lemma filter_upcoming_monotone_witness :
  (30 ≤ 60)%Z
  ∧ add_days clock_sample 60 = Ok (civil_us 2027 1 2 0 0 0)
  ∧ filter_upcoming fixed_iso clock_sample window_sample 30
    = Ok [ event_at "at now" (JStr "2026-11-03T00:00:00");
           event_at "inside" (JStr "2026-11-10T09:00:00") ]
  ∧ ∃ out', filter_upcoming fixed_iso clock_sample window_sample 60 = Ok out'
            ∧ [ event_at "at now" (JStr "2026-11-03T00:00:00");
                event_at "inside" (JStr "2026-11-10T09:00:00") ] `sublist_of` out'.
Proof.
  assert (H1 : (30 ≤ 60)%Z) by lia.
  assert (H2 : add_days clock_sample 60 = Ok (civil_us 2027 1 2 0 0 0))
    by (vm_compute; reflexivity).
  assert (H3 : filter_upcoming fixed_iso clock_sample window_sample 30
               = Ok [ event_at "at now" (JStr "2026-11-03T00:00:00");
                      event_at "inside" (JStr "2026-11-10T09:00:00") ])
    by (vm_compute; reflexivity).
  split_and!; [exact H1 | exact H2 | exact H3 |].
  exact (filter_upcoming_monotone fixed_iso _ _ _ _ _ _ H1 H2 H3).
Defined.

(** Zero days, one day back, and the 739923 days back to the day
    before [datetime.min]. *)
Lemma filter_upcoming_no_lookahead_witness :
  ((0 ≤ 0)%Z
   ∧ filter_upcoming fixed_iso clock_sample window_sample 0
     = Ok [event_at "at now" (JStr "2026-11-03T00:00:00")]
   ∧ Forall (λ e, ∃ s, ev_start e = JStr s ∧ fixed_iso s = Some (Naive clock_sample))
       [event_at "at now" (JStr "2026-11-03T00:00:00")])
  ∧ ((-1 ≤ 0)%Z
     ∧ ∃ out, filter_upcoming fixed_iso clock_sample window_sample (-1) = Ok out
              ∧ out = [])
  ∧ ((-739923 ≤ 0)%Z
     ∧ is_ok (add_days clock_sample (-739923)) = false
     ∧ filter_upcoming fixed_iso clock_sample window_sample (-739923)
       = Raise OverflowError).
Proof.
  assert (H1 : (0 ≤ 0)%Z) by lia.
  assert (H2 : filter_upcoming fixed_iso clock_sample window_sample 0
               = Ok [event_at "at now" (JStr "2026-11-03T00:00:00")])
    by (vm_compute; reflexivity).
  assert (H3 : (-1 ≤ 0)%Z) by lia.
  assert (H4 : (-739923 ≤ 0)%Z) by lia.
  assert (H5 : is_ok (add_days clock_sample (-739923)) = false)
    by (vm_compute; reflexivity).
  split_and!; [exact H1 | exact H2 | | exact H3 | | exact H4 | exact H5 |].
  - exact (proj1 (proj1 (filter_upcoming_no_lookahead fixed_iso _ _ window_sample H1)
                    _ H2)).
  - destruct (filter_upcoming fixed_iso clock_sample window_sample (-1)) as [out|exc]
      eqn:Hout; [| vm_compute in Hout; discriminate].
    exists out. split; [reflexivity |].
    apply (proj1 (filter_upcoming_no_lookahead fixed_iso _ _ window_sample H3) out Hout).
    lia.
  - exact (proj2 (filter_upcoming_no_lookahead fixed_iso _ _ window_sample H4) H5).
Defined.

Lemma filter_upcoming_idempotent_witness :
  filter_upcoming fixed_iso clock_sample window_sample 60
  = Ok [ event_at "at now" (JStr "2026-11-03T00:00:00");
         event_at "at cutoff" (JStr "2027-01-02T00:00:00");
         event_at "inside" (JStr "2026-11-10T09:00:00") ]
  ∧ filter_upcoming fixed_iso clock_sample
      [ event_at "at now" (JStr "2026-11-03T00:00:00");
        event_at "at cutoff" (JStr "2027-01-02T00:00:00");
        event_at "inside" (JStr "2026-11-10T09:00:00") ] 60
    = Ok [ event_at "at now" (JStr "2026-11-03T00:00:00");
           event_at "at cutoff" (JStr "2027-01-02T00:00:00");
           event_at "inside" (JStr "2026-11-10T09:00:00") ].
Proof.
  assert (H : filter_upcoming fixed_iso clock_sample window_sample 60
              = Ok [ event_at "at now" (JStr "2026-11-03T00:00:00");
                     event_at "at cutoff" (JStr "2027-01-02T00:00:00");
                     event_at "inside" (JStr "2026-11-10T09:00:00") ])
    by (vm_compute; reflexivity).
  split; [exact H |].
  exact (filter_upcoming_idempotent fixed_iso _ _ _ _ H).
Defined.

(** ** The deduplication loop again *)

Lemma first_occurrences_distinct (earlier l : list NormalizedEvent) :
  NoDup (composite_key <$> earlier ++ l) → first_occurrences earlier l = l.
Proof.
  revert earlier. induction l as [|e l IH]; intros earlier Hnd; [done |].
  cbn [first_occurrences].
  rewrite bool_decide_eq_false_2.
  - f_equal. apply IH. by rewrite <- app_assoc.
  - rewrite Exists_exists. intros (e' & Hin & Hkey).
    rewrite fmap_app, fmap_cons in Hnd.
    apply NoDup_app in Hnd as (_ & Hdisj & _).
    apply (Hdisj (composite_key e)).
    + rewrite <- Hkey. by apply list_elem_of_fmap_2.
    + by left.
Qed.

Lemma first_occurrences_covers (earlier l : list NormalizedEvent) (e : NormalizedEvent) :
  e ∈ l →
  composite_key e ∈ composite_key <$> earlier
  ∨ composite_key e ∈ composite_key <$> first_occurrences earlier l.
Proof.
  revert earlier. induction l as [|x l IH]; intros earlier; [by intros ?%elem_of_nil |].
  assert (Hstep : composite_key e ∈ composite_key <$> (earlier ++ [x]) →
                  composite_key e ∈ composite_key <$> earlier
                  ∨ composite_key e = composite_key x).
  { rewrite fmap_app, elem_of_app. intros [?|Hx]; [by left |].
    right. by apply list_elem_of_singleton in Hx. }
  intros [->|Hin]%elem_of_cons; cbn [first_occurrences]; case_bool_decide as Hx.
  - left. apply Exists_exists in Hx as (e' & He' & Hkey).
    rewrite <- Hkey. by apply list_elem_of_fmap_2.
  - right. rewrite fmap_cons. by left.
  - destruct (IH (earlier ++ [x]) Hin) as [Hearly|Hlater]; [| by right].
    destruct (Hstep Hearly) as [?|Hkey]; [by left |].
    left. apply Exists_exists in Hx as (e' & He' & Hkey').
    rewrite Hkey, <- Hkey'. by apply list_elem_of_fmap_2.
  - destruct (IH (earlier ++ [x]) Hin) as [Hearly|Hlater].
    + destruct (Hstep Hearly) as [?|Hkey]; [by left |].
      right. rewrite fmap_cons, Hkey. by left.
    + right. rewrite fmap_cons. by right.
Qed.

Lemma deduplicate_ok (events out : list NormalizedEvent) :
  deduplicate events = Ok out →
  Forall (λ e, hashable_event e = true) events ∧ out = first_occurrences [] events.
Proof.
  intros Hd.
  assert (Hall : Forall (λ e, hashable_event e = true) events).
  { apply deduplicate_ok_iff. by rewrite Hd. }
  split; [done |]. unfold deduplicate in Hd.
  rewrite (dedup_loop_first events [] ∅ []) in Hd; [by injection Hd | done |].
  intros k1 k2. rewrite Exists_nil. set_solver.
Qed.

(** X8.  The loop returns its input unchanged exactly when the keys
    (name, start) are hashable and pairwise different. *)
Theorem deduplicate_identity_iff (events : list NormalizedEvent) :
  deduplicate events = Ok events
  ↔ Forall (λ e, hashable_event e = true) events
    ∧ NoDup (composite_key <$> events).
Proof.
  split.
  - intros Hd. destruct (deduplicate_ok _ _ Hd) as [Hall Hout]. split; [done |].
    rewrite Hout at 1. apply first_occurrences_NoDup.
  - intros [Hall Hnd]. unfold deduplicate.
    rewrite (dedup_loop_first events [] ∅ []); [| done |].
    + by rewrite first_occurrences_distinct.
    + intros k1 k2. rewrite Exists_nil. set_solver.
Qed.

(** X9.  Deduplication is idempotent: the loop returns its own output
    unchanged. *)
Theorem deduplicate_idempotent (events out : list NormalizedEvent) :
  deduplicate events = Ok out → deduplicate out = Ok out.
Proof.
  intros Hd. destruct (deduplicate_ok _ _ Hd) as [Hall ->].
  unfold deduplicate.
  rewrite (dedup_loop_first _ [] ∅ []).
  - rewrite first_occurrences_distinct; [done |]. apply first_occurrences_NoDup.
  - apply Forall_forall. intros e He. rewrite Forall_forall in Hall. apply Hall.
    eapply elem_of_sublist; [exact He | apply first_occurrences_sublist].
  - intros k1 k2. rewrite Exists_nil. set_solver.
Qed.

(** X10.  The loop keeps one event for each key: the number of events
    it returns is the number of different keys (name, start) of its
    input, and the key of every event of the input is the key of an
    event that it returns. *)
Theorem deduplicate_counts_keys (events out : list NormalizedEvent) :
  deduplicate events = Ok out →
  length out
  = size (list_to_set (composite_key <$> events) : gset (option hkey * option hkey))
  ∧ ∀ e, e ∈ events → composite_key e ∈ composite_key <$> out.
Proof.
  intros Hd. destruct (deduplicate_ok _ _ Hd) as [_ ->].
  assert (Hcovers : ∀ e, e ∈ events →
                         composite_key e ∈ composite_key <$> first_occurrences [] events).
  { intros e He.
    by destruct (first_occurrences_covers [] events e He) as [Hnil%elem_of_nil|Hin]. }
  split; [| exact Hcovers].
  assert (Hset : (list_to_set (composite_key <$> events)
                  : gset (option hkey * option hkey))
                 = list_to_set (composite_key <$> first_occurrences [] events)).
  { apply set_eq. intros k. rewrite !elem_of_list_to_set, !list_elem_of_fmap. split.
    - intros (e & -> & He). apply list_elem_of_fmap. by apply Hcovers.
    - intros (e & -> & He). exists e. split; [done |].
      eapply elem_of_sublist; [exact He | apply first_occurrences_sublist]. }
  rewrite Hset, size_list_to_set by apply first_occurrences_NoDup.
  by rewrite length_fmap.
Qed.

Lemma deduplicate_idempotent_witness :
  deduplicate [nameless_walk; event_at "Muster" JNull; nameless_dinner]
  = Ok [nameless_walk; event_at "Muster" JNull]
  ∧ deduplicate [nameless_walk; event_at "Muster" JNull]
    = Ok [nameless_walk; event_at "Muster" JNull].
Proof.
  assert (H : deduplicate [nameless_walk; event_at "Muster" JNull; nameless_dinner]
              = Ok [nameless_walk; event_at "Muster" JNull])
    by (vm_compute; reflexivity).
  split; [exact H | exact (deduplicate_idempotent _ _ H)].
Defined.

Lemma deduplicate_counts_keys_witness :
  deduplicate [nameless_walk; event_at "Muster" JNull; nameless_dinner]
  = Ok [nameless_walk; event_at "Muster" JNull]
  ∧ length [nameless_walk; event_at "Muster" JNull]
    = size (list_to_set
              (composite_key <$> [nameless_walk; event_at "Muster" JNull; nameless_dinner])
            : gset (option hkey * option hkey))
  ∧ composite_key nameless_dinner
    ∈ composite_key <$> [nameless_walk; event_at "Muster" JNull].
Proof.
  assert (H : deduplicate [nameless_walk; event_at "Muster" JNull; nameless_dinner]
              = Ok [nameless_walk; event_at "Muster" JNull])
    by (vm_compute; reflexivity).
  split; [exact H |].
  destruct (deduplicate_counts_keys _ _ H) as [Hcount Hcovers].
  split; [exact Hcount |]. apply Hcovers. do 2 right. by left.
Defined.

(** ** save_markdown *)

Section Report.

Variable py_repr : json → string.

Lemma join_from_strings (i : nat) (sep : string) (ss : list string) :
  join_from i sep (JStr <$> ss) = Ok (String.concat sep ss).
Proof.
  revert i. induction ss as [|s ss IH]; intros i; [done |].
  destruct ss as [|s' ss]; [done |].
  change (join_from i sep (JStr <$> s :: s' :: ss))
    with (tail ← join_from (S i) sep (JStr <$> s' :: ss); Ok (s +:+ sep +:+ tail)).
  by rewrite IH.
Qed.

Lemma join_from_ok (i : nat) (sep : string) (parts : list json) :
  is_ok (join_from i sep parts) = forallb (λ v, match v with JStr _ => true | _ => false end) parts.
Proof.
  revert i. induction parts as [|v parts IH]; intros i; [done |].
  destruct v as [| | | s | |]; try done.
  destruct parts as [|v' parts]; [done |].
  change (join_from i sep (JStr s :: v' :: parts))
    with (tail ← join_from (S i) sep (v' :: parts); Ok (s +:+ sep +:+ tail)).
  set (is_str := λ v : json, match v with JStr _ => true | _ => false end) in *.
  change (forallb is_str (JStr s :: v' :: parts)) with (forallb is_str (v' :: parts)).
  rewrite <- (IH (S i)).
  by destruct (join_from (S i) sep (v' :: parts)).
Qed.

(** The truthy parts, when every part is a string or falsy. *)
Lemma truthy_parts_strings (parts : list json) :
  forallb str_or_falsy parts = true →
  filter (λ v, truthy v = true) parts
  = JStr <$> omap (λ v, match v with
                        | JStr s => if String.eqb s "" then None else Some s
                        | _ => None
                        end) parts.
Proof.
  induction parts as [|v parts IH]; [done |].
  cbn [forallb]. intros [Hv Hrest]%andb_true_iff. specialize (IH Hrest).
  rewrite filter_cons.
  destruct (truthy v) eqn:Ht.
  - rewrite decide_True by done. rewrite IH.
    destruct v as [| b | n | s | items | fields]; cbn in Hv, Ht;
      try discriminate; try (rewrite Ht in Hv; discriminate).
    apply negb_true_iff in Ht. simpl. by rewrite Ht.
  - rewrite decide_False by done. rewrite IH.
    destruct v as [| b | n | s | items | fields]; try done.
    cbn in Ht. apply negb_false_iff in Ht. simpl. by rewrite Ht.
Qed.

Lemma truthy_parts_ok (sep : string) (parts : list json) :
  is_ok (py_join sep (filter (λ v, truthy v = true) parts)) = forallb str_or_falsy parts.
Proof.
  unfold py_join. rewrite join_from_ok.
  induction parts as [|v parts IH]; [done |].
  rewrite filter_cons. cbn [forallb]. rewrite <- IH.
  destruct (truthy v) eqn:Hv.
  - rewrite decide_True by done. cbn [forallb]. f_equal.
    destruct v; try done; cbn in Hv |- *; by rewrite Hv.
  - rewrite decide_False by done.
    assert (str_or_falsy v = true) as ->; [| done].
    destruct v; try done; cbn in Hv |- *; by rewrite Hv.
Qed.

Lemma event_lines_ok (e : NormalizedEvent) :
  is_ok (event_lines py_repr e) = renderable e.
Proof.
  unfold event_lines, renderable.
  set (parts := [ev_venue_name e; ev_address e; ev_city e; ev_state e]).
  set (start_fmt := if truthy (py_or (ev_start e) (JStr "")) then _ else _).
  set (location := match filter (λ v, truthy v = true) parts with [] => _ | _ => _ end).
  assert (Hstart : is_ok start_fmt = str_or_falsy (ev_start e)).
  { unfold start_fmt, py_or.
    destruct (ev_start e) as [| b | n | s | items | fields]; cbn; try done.
    - by destruct b.
    - destruct (n =? 0)%Z eqn:Hn; cbn; [done |]. by rewrite Hn.
    - destruct (String.eqb s "") eqn:Hs; cbn; [done |]. by rewrite Hs.
    - by destruct items.
    - by destruct fields. }
  assert (Hloc : is_ok location = forallb str_or_falsy parts).
  { rewrite <- (truthy_parts_ok ", "). unfold location.
    destruct (filter (λ v, truthy v = true) parts) as [|v vs]; [done |].
    by destruct (py_join ", " (v :: vs)). }
  rewrite <- Hstart, <- Hloc.
  by destruct start_fmt, location.
Qed.

Lemma event_lines_block (e : NormalizedEvent) (block : list string) :
  event_lines py_repr e = Ok block →
  block = [title_of py_repr e] ++ date_lines e ++ location_lines e
          ++ signup_lines py_repr e ++ [""].
Proof.
  intros Hblock.
  assert (Hr : renderable e = true) by (by rewrite <- event_lines_ok, Hblock).
  apply andb_true_iff in Hr as [Hstart Hparts].
  unfold event_lines in Hblock.
  rewrite (truthy_parts_strings _ Hparts) in Hblock.
  fold (location_strings e) in Hblock.
  assert (Hdate : (if truthy (py_or (ev_start e) (JStr ""))
                   then match py_or (ev_start e) (JStr "") with
                        | JStr s => Ok (str_replace "Z" "" (str_replace "T" " " s))
                        | _ => Raise (AttributeError (py_or (ev_start e) (JStr "")) "replace")
                        end
                   else Ok "")
                  = Ok (match ev_start e with JStr s => date_text s | _ => "" end)).
  { unfold py_or, str_or_falsy in *.
    destruct (ev_start e) as [| b | n | s | items | fields]; cbn in Hstart |- *.
    - done.
    - apply negb_true_iff in Hstart. by subst b.
    - apply negb_true_iff in Hstart. by rewrite Hstart.
    - destruct (String.eqb_spec s "") as [->|Hne]; cbn; [done |].
      by rewrite (proj2 (String.eqb_neq s "") Hne).
    - by destruct items.
    - by destruct fields. }
  rewrite Hdate, bind_ok in Hblock. clear Hdate.
  assert (Hloc : match JStr <$> location_strings e with
                 | [] => Ok []
                 | _ :: _ => joined ← py_join ", " (JStr <$> location_strings e);
                             Ok ["- **Location:** " +:+ joined +:+ nl]
                 end = Ok (location_lines e)).
  { unfold location_lines, py_join.
    destruct (location_strings e) as [|s ss] eqn:Hss; [done |].
    rewrite <- Hss, join_from_strings, Hss. done. }
  rewrite Hloc, bind_ok in Hblock. injection Hblock as <-.
  unfold title_of, date_lines, signup_lines.
  by destruct (ev_start e).
Qed.

Lemma events_lines_ok (events : list NormalizedEvent) (lines : list string) :
  is_ok (events_lines py_repr events lines) = forallb renderable events.
Proof.
  revert lines. induction events as [|e events IH]; intros lines; [done |].
  cbn [events_lines forallb]. rewrite <- event_lines_ok.
  destruct (event_lines py_repr e) as [block|]; [| done].
  by rewrite bind_ok, IH.
Qed.

Lemma events_lines_blocks (events : list NormalizedEvent) (lines out : list string) :
  events_lines py_repr events lines = Ok out →
  out = lines ++ concat ((λ e, [title_of py_repr e] ++ date_lines e ++ location_lines e
                               ++ signup_lines py_repr e ++ [""]) <$> events).
Proof.
  revert lines. induction events as [|e events IH]; intros lines; cbn [events_lines].
  - intros [= <-]. by rewrite app_nil_r.
  - destruct (event_lines py_repr e) as [block|] eqn:Hblock; [| done].
    rewrite bind_ok. intros Hrest. rewrite (IH _ Hrest), <- app_assoc.
    by rewrite (event_lines_block e block Hblock).
Qed.

Lemma forallb_Forall {A} (f : A → bool) (l : list A) :
  forallb f l = true ↔ Forall (λ x, f x = true) l.
Proof.
  induction l as [|x l IH]; cbn [forallb]; [by split |].
  rewrite andb_true_iff, Forall_cons, IH. done.
Qed.

(** X11.  The lines of the report, which [save_markdown] builds
    before it opens the file, are built without an exception exactly
    when every event can be rendered: its start is a string or falsy,
    and each of its venue name, address, city and state is a string
    or falsy.  When building them raises, [save_markdown] raises that
    exception and has not opened the file. *)
Theorem save_markdown_renders_iff (cfg : Config) (events : list NormalizedEvent) :
  (is_ok (markdown_lines py_repr cfg events) = true
   ↔ Forall (λ e, renderable e = true) events)
  ∧ (∀ exc fs, markdown_lines py_repr cfg events = Raise exc →
               save_markdown py_repr cfg events fs = Raise exc).
Proof.
  split.
  - rewrite <- forallb_Forall. unfold markdown_lines.
    destruct events as [|e events]; [done |].
    by rewrite <- (events_lines_ok (e :: events) [heading]).
  - intros exc fs Hlines. unfold save_markdown. by rewrite Hlines.
Qed.

Lemma filter_lines_nil (P : string → bool) (l : list string) :
  Forall (λ x, P x = false) l → filter (λ x, P x = true) l = [].
Proof.
  induction 1 as [|x l Hx _ IH]; [done |].
  rewrite filter_cons, decide_False by (by rewrite Hx). done.
Qed.

Lemma prefix_append (p s : string) : String.prefix p (p +:+ s) = true.
Proof.
  induction p as [|c p IH]; simpl; [by destruct s |].
  by destruct (Ascii.ascii_dec c c).
Qed.

Lemma block_titles (e : NormalizedEvent) :
  filter (λ l, is_title l = true)
    ([title_of py_repr e] ++ date_lines e ++ location_lines e
     ++ signup_lines py_repr e ++ [""])
  = [title_of py_repr e].
Proof.
  assert (Ht : is_title (title_of py_repr e) = true) by apply prefix_append.
  cbn [app]. rewrite filter_cons, decide_True by exact Ht. f_equal.
  apply filter_lines_nil. rewrite !Forall_app. split_and!.
  - unfold date_lines. destruct (ev_start e); try by constructor.
    destruct (String.eqb _ ""); by repeat constructor.
  - unfold location_lines. destruct (location_strings e); by repeat constructor.
  - unfold signup_lines. destruct (truthy (ev_url e)); by repeat constructor.
  - by repeat constructor.
Qed.

Lemma block_notices (cfg : Config) (e : NormalizedEvent) :
  no_events_sentence cfg
  ∉ [title_of py_repr e] ++ date_lines e ++ location_lines e
    ++ signup_lines py_repr e ++ [""].
Proof.
  assert (Hn : String.prefix "N" (no_events_sentence cfg) = true) by done.
  intros Hin.
  assert (Hall : Forall (λ l, String.prefix "N" l = false)
                   ([title_of py_repr e] ++ date_lines e ++ location_lines e
                    ++ signup_lines py_repr e ++ [""])).
  { rewrite !Forall_app. split_and!.
    - by repeat constructor.
    - unfold date_lines. destruct (ev_start e); try by constructor.
      destruct (String.eqb _ ""); by repeat constructor.
    - unfold location_lines. destruct (location_strings e); by repeat constructor.
    - unfold signup_lines. destruct (truthy (ev_url e)); by repeat constructor.
    - by repeat constructor. }
  rewrite Forall_forall in Hall. specialize (Hall _ Hin). by rewrite Hn in Hall.
Qed.

(** X12.  In a report that [save_markdown] renders, the lines that
    begin with ["## "] are the titles of the events, one for each
    event and in their order, an event without a name, or with a
    falsy one, being titled "Unnamed Event"; the first line is the
    heading; and the "no events" sentence is there exactly when
    there is no event. *)
Theorem report_titles (cfg : Config) (events : list NormalizedEvent)
    (lines : list string) :
  markdown_lines py_repr cfg events = Ok lines →
  head lines = Some heading
  ∧ filter (λ l, is_title l = true) lines = title_of py_repr <$> events
  ∧ (no_events_sentence cfg ∈ lines ↔ events = [])
  ∧ (∀ e, e ∈ events → truthy (ev_name e) = false →
          title_of py_repr e = "## Unnamed Event" +:+ nl).
Proof.
  intros Hlines. unfold markdown_lines in Hlines.
  assert (Htitle : ∀ e, truthy (ev_name e) = false →
                        title_of py_repr e = "## Unnamed Event" +:+ nl).
  { intros e He. unfold title_of, py_or. by rewrite He. }
  destruct events as [|e events].
  - injection Hlines as <-. split_and!; [done | done | | by intros ? ?%elem_of_nil].
    split; [done |]. intros _. right. by left.
  - apply events_lines_blocks in Hlines. subst lines.
    split_and!; [done | | | by auto].
    + cbn [app]. rewrite filter_cons, decide_False by done.
      generalize (e :: events). intros l. induction l as [|x l IH]; [done |].
      rewrite !fmap_cons, concat_cons, filter_app. cbv beta.
      pose proof (block_titles x) as Hx. cbn [app] in Hx.
      rewrite Hx, IH. done.
    + split; [| done]. intros [Hhead|Hin]%elem_of_cons; [done |]. exfalso.
      apply list_elem_of_In, in_concat in Hin as (block & Hblock & Hin).
      apply list_elem_of_In, list_elem_of_fmap in Hblock as (x & -> & _).
      apply list_elem_of_In in Hin.
      by apply (block_notices cfg x).
Qed.

(** X13.  In a report of one event or more, every event has a block
    of its own, in the order of the events, after the heading: the
    title; a Date line when the start, with every ["T"] turned into
    a space and every ["Z"] dropped, is not empty; a Location line
    when one of the venue name, the address, the city and the state
    is a non-empty string, with those that are, in this order and
    separated by [", "]; a Sign up line when the url is truthy; and
    an empty line. *)
Theorem report_blocks (cfg : Config) (events : list NormalizedEvent)
    (lines : list string) :
  events ≠ [] →
  markdown_lines py_repr cfg events = Ok lines →
  lines = heading :: concat (event_block py_repr <$> events)
  ∧ Forall (λ e, (2 ≤ length (event_block py_repr e) ≤ 5)%nat
                 ∧ last (event_block py_repr e) = Some "") events.
Proof.
  intros Hne Hlines. unfold markdown_lines in Hlines.
  destruct events as [|e events]; [done |].
  apply events_lines_blocks in Hlines. split; [done |].
  apply Forall_forall. intros x _. unfold event_block.
  rewrite !length_app, !last_app. cbn [length last].
  assert (Hd : (length (date_lines x) ≤ 1)%nat).
  { unfold date_lines. destruct (ev_start x); simpl; try lia.
    destruct (String.eqb _ ""); simpl; lia. }
  assert (Hl : (length (location_lines x) ≤ 1)%nat).
  { unfold location_lines. destruct (location_strings x); simpl; lia. }
  assert (Hs : (length (signup_lines py_repr x) ≤ 1)%nat).
  { unfold signup_lines. destruct (truthy (ev_url x)); simpl; lia. }
  split; [lia | done].
Qed.

End Report.

(** A venue with a number for a name: the join refuses it, and the
    report of an earlier run stays as it was. *)
Lemma save_markdown_renders_iff_witness :
  renderable (flat_view numbered_venue) = false
  ∧ markdown_lines sample_repr default_config [flat_view numbered_venue]
    = Raise (TypeError (JoinItem 0 (JNum 1087)))
  ∧ save_markdown sample_repr default_config [flat_view numbered_venue] stale_files
    = Raise (TypeError (JoinItem 0 (JNum 1087))).
Proof.
  assert (H : markdown_lines sample_repr default_config [flat_view numbered_venue]
              = Raise (TypeError (JoinItem 0 (JNum 1087))))
    by (vm_compute; reflexivity).
  split_and!; [reflexivity | exact H |].
  exact (proj2 (save_markdown_renders_iff sample_repr default_config
                  [flat_view numbered_venue]) _ stale_files H).
Defined.

Lemma report_titles_witness :
  ∃ lines,
    markdown_lines sample_repr default_config [odd_event; list_name_event] = Ok lines
    ∧ filter (λ l, is_title l = true) lines
      = title_of sample_repr <$> [odd_event; list_name_event].
Proof.
  eexists. split; [vm_compute; reflexivity |].
  apply (report_titles sample_repr default_config [odd_event; list_name_event]).
  vm_compute. reflexivity.
Defined.

Lemma report_blocks_witness :
  ∃ lines,
    markdown_lines sample_repr default_config [odd_event] = Ok lines
    ∧ lines = heading :: concat (event_block sample_repr <$> [odd_event])
    ∧ event_block sample_repr odd_event
      = ["## [...]" +:+ nl; "- **Date:** 2026-11-11 11:00:00" +:+ nl;
         "- **Location:** Armory, WY" +:+ nl;
         "- **Sign up:** [404](404)" +:+ nl; ""].
Proof.
  eexists. split; [vm_compute; reflexivity |]. split; [| vm_compute; reflexivity].
  apply (report_blocks sample_repr default_config [odd_event]); [done |].
  vm_compute. reflexivity.
Defined.

(** ** The requests of a run *)

Lemma requests_from_search (cfg : Config) (headers : Headers)
    (query state within : string) (states : list string) (k : nat) :
  state ∈ states →
  ∀ p, (1 ≤ p)%Z →
    Forall (search_request cfg headers query within states)
      (requests_from (PAGE_DELAY_SEC cfg) headers query state within p k).
Proof.
  intros Hstate. induction k as [|k IH]; intros p Hp; [by constructor |].
  cbn [requests_from]. constructor; [done |].
  destruct k as [|k]; [by constructor |].
  constructor; [done |]. apply IH. lia.
Qed.

Lemma requests_from_gets (delay : Q) (headers : Headers) (query state within : string)
    (k : nat) :
  ∀ p, length (filter (λ ev, is_get ev = true)
                 (requests_from delay headers query state within p k)) = k.
Proof.
  induction k as [|k IH]; intros p; [done |].
  cbn [requests_from]. rewrite filter_cons_True by done. cbn [length]. f_equal.
  destruct k as [|k]; [done |].
  rewrite filter_cons_False by done. apply IH.
Qed.

Lemma search_request_mono (cfg : Config) (headers : Headers) (query within : string)
    (states states' : list string) (ev : io_event) :
  states ⊆ states' →
  search_request cfg headers query within states ev →
  search_request cfg headers query within states' ev.
Proof.
  intros Hsub. destruct ev as [url h [ps|] | d]; [| done | done].
  intros (? & ? & ? & ? & ? & ?). split_and!; by auto.
Qed.

(** What the loop over the states does on the network, and what it
    gathers. *)
Lemma search_states_io (cfg : Config) (headers : Headers) (query within : string)
    (states : list string) :
  ∀ (all_raw : list json) (all_warnings : list string) (n n' : net)
    (r : result (list json * list string)),
    search_states cfg headers query states within all_raw all_warnings n = Some (r, n') →
    ∃ consumed reqs,
      pending n = consumed ++ pending n'
      ∧ trace n' = trace n ++ reqs
      ∧ Forall (search_request cfg headers query within states) reqs
      ∧ length (filter (λ ev, is_get ev = true) reqs) = length consumed
      ∧ ∀ raw warns, r = Ok (raw, warns) →
          raw = all_raw ++ concat (appended <$> consumed)
          ∧ ∃ ws, warns = all_warnings ++ ws ∧ (length ws ≤ length states)%nat.
Proof.
  induction states as [|state states IH]; intros all_raw all_warnings n n' r;
    cbn [search_states].
  - intros [= <- <-]. exists [], []. rewrite !app_nil_r.
    split_and!; [done | done | by constructor | done |].
    intros raw warns [= <- <-]. split; [done |].
    exists []. by rewrite app_nil_r.
  - destruct (search_region cfg headers query state within n) as [[r1 n1]|] eqn:Hregion;
      [| done].
    unfold search_region in Hregion.
    apply search_loop_any in Hregion
      as (consumed & last & Hpending & _ & Htrace & _ & Hr1).
    assert (Hreqs : Forall (search_request cfg headers query within (state :: states))
                      (requests_from (PAGE_DELAY_SEC cfg) headers query state within 1
                         (S (length consumed)))).
    { apply requests_from_search; [by left | done]. }
    assert (Hgets : length (filter (λ ev, is_get ev = true)
                              (requests_from (PAGE_DELAY_SEC cfg) headers query state
                                 within 1 (S (length consumed))))
                    = length (consumed ++ [last])).
    { rewrite requests_from_gets, length_app. simpl. lia. }
    destruct r1 as [[events warns]|e].
    + destruct Hr1 as (_ & -> & ->). intros Hrest.
      destruct (IH _ _ _ _ _ Hrest)
        as (consumed' & reqs' & Hpending' & Htrace' & Hreqs' & Hgets' & Hr).
      exists ((consumed ++ [last]) ++ consumed'), (requests_from (PAGE_DELAY_SEC cfg) headers
                query state within 1 (S (length consumed)) ++ reqs').
      split_and!.
      * rewrite Hpending, Hpending', <- !app_assoc. done.
      * rewrite Htrace', Htrace, <- app_assoc. done.
      * apply Forall_app. split; [done |].
        eapply Forall_impl; [exact Hreqs' |].
        intros ev. apply search_request_mono. intros x Hx. by right.
      * rewrite filter_app, !length_app, Hgets, Hgets', length_app. done.
      * intros raw warns' ->. destruct (Hr _ _ eq_refl) as (-> & ws & -> & Hws).
        split.
        -- rewrite !fmap_app, !concat_app, !app_nil_l, <- !app_assoc. done.
        -- exists (page_warnings state last ++ ws).
           split; [by rewrite !app_nil_l, <- !app_assoc |].
           rewrite length_app. pose proof (page_warnings_length state last).
           simpl. lia.
    + intros [= <- <-].
      exists (consumed ++ [last]), (requests_from (PAGE_DELAY_SEC cfg) headers
                query state within 1 (S (length consumed))).
      split_and!; [by rewrite <- app_assoc | done | done | done | done].
Qed.

(** ** The exceptions of a run *)










Section WholeRun.

Variable fromisoformat : string → option datetime.
Variable py_repr : json → string.
Variable exc_text : exn → string.

(** X14.  What [fetch_events] sends, however it ends: first the
    request to the identity endpoint, with the bearer token, the
    [Accept] header and the user agent; then, when that response is
    a 200 and only then, requests to the search endpoint with the
    same headers, each for the query, the radius and one of the
    states, and pauses of the configured delay.  Every response it
    reads answers one request: nothing is asked twice. *)
Theorem fetch_events_requests (cfg : Config) (now : Z) (token query : string)
    (states : list string) (within : string) (n n' : net)
    (r : result SuccessPayload) :
  fetch_events fromisoformat cfg now token query states within n = Some (r, n') →
  ∃ identity consumed searches,
    pending n = identity :: consumed ++ pending n'
    ∧ trace n' = trace n
                 ++ Get (API_BASE +:+ "/users/me/") (request_headers cfg token) None
                    :: searches
    ∧ Authorization (request_headers cfg token) = "Bearer " +:+ token
    ∧ Forall (search_request cfg (request_headers cfg token) query within states) searches
    ∧ length (filter (λ ev, is_get ev = true) searches) = length consumed
    ∧ (∀ exc, validate_outcome identity = Raise exc →
              r = Raise exc ∧ consumed = [] ∧ searches = []).
Proof.
  unfold fetch_events, validate_token.
  destruct (pending n) as [|identity rest] eqn:Hpending; [done |].
  destruct (validate_outcome identity) as [[]|exc] eqn:Hvalid.
  - destruct (search_states _ _ _ _ _ _ _ _) as [[r1 n1]|] eqn:Hsearch; [| done].
    apply search_states_io in Hsearch
      as (consumed & reqs & Hrest & Htrace & Hreqs & Hgets & _).
    cbn [pending trace] in Hrest, Htrace.
    intros Hr.
    assert (Hn : n1 = n').
    { destruct r1 as [[raw warns]|e]; injection Hr as _ Hn; exact Hn. }
    subst n1. exists identity, consumed, reqs.
    split_and!; [by rewrite Hrest | by rewrite Htrace, <- app_assoc | done | done
                | done | intros exc Hexc; by rewrite Hvalid in Hexc].
  - intros [= <- <-]. exists identity, [], []. cbn [pending trace].
    split_and!; [done | done | done | by constructor | done |].
    intros exc' Hexc. rewrite Hvalid in Hexc. by injection Hexc as <-.
Qed.

Lemma filter_loop_sublist (now cutoff : Z) (events : list NormalizedEvent) :
  ∀ filtered out,
    filter_loop fromisoformat now cutoff events filtered = Ok out →
    ∃ kept, out = filtered ++ kept ∧ kept `sublist_of` events.
Proof.
  induction events as [|e events IH]; intros filtered out; simpl.
  - intros [= <-]. exists []. by rewrite app_nil_r.
  - destruct (in_window fromisoformat now cutoff e) as [keep|]; [| done].
    rewrite bind_ok. intros (kept & -> & Hsub)%IH.
    destruct keep.
    + exists (e :: kept). split; [by rewrite <- app_assoc | by constructor].
    + exists kept. split; [done | by constructor].
Qed.

Lemma normalize_events_ok (events : list json) (normalized : list NormalizedEvent) :
  normalize_events events = Ok normalized → normalized = flat_view <$> events.
Proof.
  intros Hn.
  assert (Hall : Forall (λ e, raw_shape e = true) events).
  { apply normalize_events_ok_iff. by rewrite Hn. }
  unfold normalize_events in Hn. rewrite (normalize_loop_flat _ _ Hall) in Hn.
  by injection Hn as <-.
Qed.

Lemma build_payload_provenance (cfg : Config) (now : Z) (query : string)
    (states : list string) (within : string)
    (all_raw : list json) (all_warnings : list string) (p : SuccessPayload) :
  build_payload fromisoformat cfg now query states within all_raw all_warnings = Ok p →
  p_events p `sublist_of` flat_view <$> all_raw
  ∧ p_warnings p = all_warnings
  ∧ p_source p = "eventbrite" ∧ p_query p = query
  ∧ p_regions p = states ∧ p_within p = within.
Proof.
  unfold build_payload.
  destruct (normalize_events all_raw) as [normalized|] eqn:Hnorm; [| done].
  apply normalize_events_ok in Hnorm as ->. rewrite bind_ok.
  unfold filter_upcoming.
  destruct (add_days now (LOOKAHEAD_DAYS cfg)) as [cutoff|]; [| done]. rewrite bind_ok.
  destruct (filter_loop _ _ _ _ []) as [upcoming|] eqn:Hfilter; [| done].
  apply filter_loop_sublist in Hfilter as (kept & -> & Hkept). rewrite bind_ok.
  destruct (deduplicate _) as [unique|] eqn:Hdedup; [| done].
  apply deduplicate_ok in Hdedup as [_ ->]. rewrite bind_ok.
  intros [= <-]. cbn [p_events p_warnings p_source p_query p_regions p_within].
  split_and!; try done.
  etrans; [apply first_occurrences_sublist | exact Hkept].
Qed.

(** X15.  Where the events of a payload come from.  When
    [fetch_events] returns, the events of the payload are flat views
    of records that the pages of the searches carried, in the order
    in which the pages carried them: none is made up, none is
    reordered, and the response of the identity endpoint gives none.
    The payload has at most one warning for each state, and it
    repeats the query, the states and the radius of the call. *)
Theorem fetch_events_provenance (cfg : Config) (now : Z) (token query : string)
    (states : list string) (within : string) (n n' : net) (p : SuccessPayload) :
  fetch_events fromisoformat cfg now token query states within n = Some (Ok p, n') →
  ∃ identity consumed,
    pending n = identity :: consumed ++ pending n'
    ∧ p_events p `sublist_of` flat_view <$> concat (appended <$> consumed)
    ∧ (length (p_warnings p) ≤ length states)%nat
    ∧ p_source p = "eventbrite" ∧ p_query p = query
    ∧ p_regions p = states ∧ p_within p = within.
Proof.
  unfold fetch_events, validate_token.
  destruct (pending n) as [|identity rest] eqn:Hpending; [done |].
  destruct (validate_outcome identity) as [[]|exc]; [| done].
  destruct (search_states _ _ _ _ _ _ _ _) as [[[[all_raw all_warnings]|e] n1]|]
    eqn:Hsearch; [| done | done].
  apply search_states_io in Hsearch as (consumed & reqs & Hrest & _ & _ & _ & Hr).
  destruct (Hr _ _ eq_refl) as (-> & ws & -> & Hws).
  cbn [pending] in Hrest. intros [= Hp <-].
  apply build_payload_provenance in Hp as (Hsub & Hwarn & Hrest').
  exists identity, consumed. split_and!; [by rewrite Hrest | done | | apply Hrest'..].
  by rewrite Hwarn.
Qed.

(** X16.  The status of a run and its files agree.  A run ends with
    status 0, 1 or 2; with 2 exactly when [get_token] finds no token,
    and then nothing is sent; with 0 exactly when the structured file
    holds a success payload; and whenever the status is not 0, the
    structured file holds a failure payload and the narrative file
    the empty report. *)
Theorem main_status_agrees (cfg : Config) (w : World) (fs : Files) (run : Run) :
  main fromisoformat py_repr exc_text cfg w fs = Some run →
  (exit_status run = 0 ∨ exit_status run = 1 ∨ exit_status run = 2)%Z
  ∧ (exit_status run = 2%Z ↔ get_token (EVENTBRITE_TOKEN w) = None)
  ∧ (exit_status run = 2%Z → trace (network run) = [])
  ∧ (exit_status run = 0%Z ↔ ∃ p, events_json (files run) = Some (Generated p))
  ∧ (exit_status run ≠ 0%Z →
       (∃ msg, events_json (files run) = Some (Failed msg))
       ∧ events_md (files run) = Some (empty_report cfg)).
Proof.
  destruct (get_token (EVENTBRITE_TOKEN w)) as [token|] eqn:Hgate.
  - rewrite (main_with_token fromisoformat py_repr exc_text cfg w fs token Hgate).
    destruct (fetch_events _ _ _ _ _ _ _ _) as [[fetched n]|]; [| done].
    destruct (pipeline py_repr cfg fetched) as [[payload text]|exc];
      cbn [expected_end]; intros [= <-]; cbn [exit_status files network events_json events_md].
    + split_and!; [by left | by split | done | split; by eauto | done].
    + split_and!; [right; by left | by split | done | | by eauto].
      split; [done | by intros [p Hp]].
  - rewrite (main_without_token fromisoformat py_repr exc_text cfg w fs Hgate).
    intros [= <-]. cbn [exit_status files network events_json events_md trace].
    split_and!; [right; by right | by split | done | | by eauto].
    split; [done | by intros [p Hp]].
Qed.

Lemma fetch_events_sends (cfg : Config) (now : Z) (token query : string)
    (states : list string) (within : string) (n n' : net)
    (r : result SuccessPayload) :
  fetch_events fromisoformat cfg now token query states within n = Some (r, n') →
  trace n' ≠ [].
Proof.
  unfold fetch_events, validate_token.
  destruct (pending n) as [|identity rest]; [done |].
  destruct (validate_outcome identity) as [[]|exc].
  - destruct (search_states _ _ _ _ _ _ _ _) as [[r1 n1]|] eqn:Hsearch; [| done].
    apply search_states_io in Hsearch as (_ & reqs & _ & Htrace & _).
    cbn [trace] in Htrace. intros Hr.
    assert (Hn : n1 = n').
    { destruct r1 as [[raw warns]|e]; injection Hr as _ Hn; exact Hn. }
    subst n1. rewrite Htrace. by destruct (trace n).
  - intros [= _ <-]. cbn [trace]. by destruct (trace n).
Qed.

(** X17.  A lookahead that the clock cannot take: when
    [now + timedelta(days=LOOKAHEAD_DAYS)] overflows, as it does for
    more than 999999999 days, no run with a token ends with status 0,
    whatever the API answers; the run ends with status 1 and a
    failure payload, after the requests have been made. *)
Theorem lookahead_out_of_range (cfg : Config) (w : World) (fs : Files)
    (token : string) (run : Run) :
  is_ok (add_days (utcnow w) (LOOKAHEAD_DAYS cfg)) = false →
  get_token (EVENTBRITE_TOKEN w) = Some token →
  main fromisoformat py_repr exc_text cfg w fs = Some run →
  exit_status run = 1%Z
  ∧ (∃ msg, events_json (files run) = Some (Failed msg))
  ∧ events_md (files run) = Some (empty_report cfg)
  ∧ trace (network run) ≠ [].
Proof.
  intros Hover Hgate.
  rewrite (main_with_token fromisoformat py_repr exc_text cfg w fs token Hgate).
  destruct (fetch_events _ _ _ _ _ _ _ _) as [[fetched n]|] eqn:Hfetch; [| done].
  assert (Htrace : trace n ≠ []).
  { by apply fetch_events_sends in Hfetch. }
  destruct fetched as [p|exc].
  - apply fetch_events_payload in Hfetch as (all_raw & all_warnings & Hp).
    unfold build_payload in Hp.
    destruct (normalize_events all_raw) as [normalized|]; [| done].
    rewrite bind_ok in Hp. unfold filter_upcoming in Hp.
    by destruct (add_days (utcnow w) (LOOKAHEAD_DAYS cfg)).
  - cbn [pipeline expected_end]. intros [= <-].
    cbn [exit_status files network events_json events_md]. by eauto.
Qed.




Lemma markdown_lines_ok (cfg : Config) (events : list NormalizedEvent) :
  is_ok (markdown_lines py_repr cfg events) = forallb renderable events.
Proof.
  unfold markdown_lines. destruct events as [|e events]; [done |].
  apply events_lines_ok.
Qed.

(** X19.  What a run with a token needs to end with status 0.  Let
    [fetch_events] have ended.  The run ends with status 0 only if
    [fetch_events] returned a payload and, in each of its events,
    the venue name, the address, the city and the state are strings
    or falsy.  For the events of a payload, this is exactly what
    building the lines of the report needs: their start never stands
    in the way, for they have passed the window and their start is a
    string.  And when a payload has an event with another venue
    name, address, city or state, the run ends with status 1, a
    failure payload and the empty report, although [fetch_events]
    returned. *)
Theorem main_succeeds_only_if (cfg : Config) (w : World) (fs : Files) (token : string)
    (fetched : result SuccessPayload) (n : net) (run : Run) :
  get_token (EVENTBRITE_TOKEN w) = Some token →
  fetch_events fromisoformat cfg (utcnow w) token (DEFAULT_QUERY cfg) DEFAULT_STATES
    (DEFAULT_WITHIN cfg) {| pending := responses w; trace := [] |} = Some (fetched, n) →
  main fromisoformat py_repr exc_text cfg w fs = Some run →
  (exit_status run = 0%Z →
   ∃ p, fetched = Ok p ∧ Forall (λ e, location_renderable e = true) (p_events p))
  ∧ (∀ p, fetched = Ok p →
       (is_ok (markdown_lines py_repr cfg (p_events p)) = true
        ↔ Forall (λ e, location_renderable e = true) (p_events p))
       ∧ (¬ Forall (λ e, location_renderable e = true) (p_events p) →
          exit_status run = 1%Z
          ∧ (∃ msg, events_json (files run) = Some (Failed msg))
          ∧ events_md (files run) = Some (empty_report cfg))).
Proof.
  intros Hgate Hfetch.
  rewrite (main_with_token fromisoformat py_repr exc_text cfg w fs token Hgate), Hfetch.
  destruct fetched as [p|exc].
  2:{ cbn [pipeline expected_end]. intros [= <-]. cbn [exit_status]. by split. }
  apply fetch_events_payload in Hfetch as (all_raw & all_warnings & Hp).
  apply build_payload_invariant in Hp as (_ & _ & Hstart).
  assert (Hrender : forallb renderable (p_events p)
                    = forallb location_renderable (p_events p)).
  { induction Hstart as [|e events (s & t & Hs & _) _ IH]; [done |].
    cbn [forallb]. rewrite IH. f_equal.
    unfold renderable, location_renderable. by rewrite Hs. }
  assert (Hbuilt : is_ok (markdown_lines py_repr cfg (p_events p)) = true
                   ↔ Forall (λ e, location_renderable e = true) (p_events p)).
  { by rewrite markdown_lines_ok, Hrender, forallb_Forall. }
  unfold pipeline. rewrite bind_ok.
  destruct (markdown_lines py_repr cfg (p_events p)) as [lines|exc] eqn:Hlines;
    rewrite ?bind_ok; cbn [expected_end]; intros [= <-];
    cbn [exit_status files events_json events_md].
  - split.
    + intros _. exists p. split; [done |]. by apply Hbuilt.
    + intros p' [= <-]. rewrite Hlines. split; [exact Hbuilt |].
      intros Hnot. destruct Hnot. by apply Hbuilt.
  - split; [done |]. intros p' [= <-]. rewrite Hlines. split; [exact Hbuilt |].
    intros _. split_and!; [done | by eauto | done].
Qed.

End WholeRun.

(** The run of the sample world: four responses, four requests. *)
Lemma fetch_events_requests_witness :
  ∃ r n',
    fetch_events fixed_iso default_config clock_sample "TOKEN"
      (DEFAULT_QUERY default_config) DEFAULT_STATES (DEFAULT_WITHIN default_config)
      {| pending := responses sample_world; trace := [] |} = Some (r, n')
    ∧ length (filter (λ ev, is_get ev = true) (trace n')) = 4%nat
    ∧ ∃ identity consumed searches,
        responses sample_world = identity :: consumed ++ pending n'
        ∧ trace n' = [] ++ Get (API_BASE +:+ "/users/me/")
                             (request_headers default_config "TOKEN") None :: searches
        ∧ Authorization (request_headers default_config "TOKEN") = "Bearer " +:+ "TOKEN"
        ∧ Forall (search_request default_config (request_headers default_config "TOKEN")
                    (DEFAULT_QUERY default_config) (DEFAULT_WITHIN default_config)
                    DEFAULT_STATES) searches
        ∧ length (filter (λ ev, is_get ev = true) searches) = length consumed
        ∧ (∀ exc, validate_outcome identity = Raise exc →
                  r = Raise exc ∧ consumed = [] ∧ searches = []).
Proof.
  eexists _, _. split; [vm_compute; reflexivity |]. split; [vm_compute; reflexivity |].
  apply (fetch_events_requests fixed_iso default_config clock_sample "TOKEN"
           (DEFAULT_QUERY default_config) DEFAULT_STATES (DEFAULT_WITHIN default_config)
           {| pending := responses sample_world; trace := [] |}).
  vm_compute. reflexivity.
Defined.

(** The payload of the sample world: two events of the four records
    of its pages, and the warning of Wyoming. *)
Lemma fetch_events_provenance_witness :
  ∃ p n',
    fetch_events fixed_iso default_config clock_sample "TOKEN"
      (DEFAULT_QUERY default_config) DEFAULT_STATES (DEFAULT_WITHIN default_config)
      {| pending := responses sample_world; trace := [] |} = Some (Ok p, n')
    ∧ p_events p = [flat_view stand_down; flat_view bare_record]
    ∧ length (p_warnings p) = 1%nat
    ∧ ∃ identity consumed,
        responses sample_world = identity :: consumed ++ pending n'
        ∧ p_events p `sublist_of` flat_view <$> concat (appended <$> consumed)
        ∧ (length (p_warnings p) ≤ length DEFAULT_STATES)%nat
        ∧ p_source p = "eventbrite" ∧ p_query p = DEFAULT_QUERY default_config
        ∧ p_regions p = DEFAULT_STATES ∧ p_within p = DEFAULT_WITHIN default_config.
Proof.
  eexists _, _. split; [vm_compute; reflexivity |]. split; [vm_compute; reflexivity |].
  split; [vm_compute; reflexivity |].
  apply (fetch_events_provenance fixed_iso default_config clock_sample "TOKEN"
           (DEFAULT_QUERY default_config) DEFAULT_STATES (DEFAULT_WITHIN default_config)
           {| pending := responses sample_world; trace := [] |}).
  vm_compute. reflexivity.
Defined.

(** The three ends: the sample world, a rejected token, no token. *)
Lemma main_status_agrees_witness :
  ∃ run,
    main fixed_iso sample_repr sample_exc_text default_config rejected_world stale_files
    = Some run
    ∧ exit_status run = 1%Z
    ∧ (exit_status run = 0%Z ↔ ∃ p, events_json (files run) = Some (Generated p))
    ∧ (exit_status run = 2%Z ↔ get_token (EVENTBRITE_TOKEN rejected_world) = None).
Proof.
  eexists. split; [vm_compute; reflexivity |]. split; [reflexivity |].
  pose proof (main_status_agrees fixed_iso sample_repr sample_exc_text default_config
                rejected_world stale_files _ eq_refl) as (_ & Hmissing & _ & Hok & _).
  split; [exact Hok | exact Hmissing].
Defined.

(** The sample world with a lookahead of a thousand million days. *)
Lemma lookahead_out_of_range_witness :
  is_ok (add_days (utcnow sample_world) (LOOKAHEAD_DAYS far_config)) = false
  ∧ get_token (EVENTBRITE_TOKEN sample_world) = Some "TOKEN"
  ∧ ∃ run,
      main fixed_iso sample_repr sample_exc_text far_config sample_world no_files = Some run
      ∧ exit_status run = 1%Z
      ∧ events_json (files run) = Some (Failed "date value out of range")
      ∧ length (trace (network run)) = 5%nat.
Proof.
  split; [reflexivity |]. split; [reflexivity |].
  eexists. split; [vm_compute; reflexivity |].
  split; [| split; vm_compute; reflexivity].
  apply (lookahead_out_of_range fixed_iso sample_repr sample_exc_text far_config
           sample_world no_files "TOKEN"); [reflexivity | reflexivity |].
  vm_compute. reflexivity.
Defined.


(** A venue with a number for a name: the payload is there, the
    report is not, and the run ends with status 1. *)
Lemma main_succeeds_only_if_witness :
  get_token (EVENTBRITE_TOKEN numbered_world) = Some "TOKEN"
  ∧ ∃ p n run,
      fetch_events fixed_iso default_config (utcnow numbered_world) "TOKEN"
        (DEFAULT_QUERY default_config) DEFAULT_STATES (DEFAULT_WITHIN default_config)
        {| pending := responses numbered_world; trace := [] |} = Some (Ok p, n)
      ∧ main fixed_iso sample_repr sample_exc_text default_config numbered_world no_files
        = Some run
      ∧ p_events p = [flat_view numbered_venue]
      ∧ ¬ Forall (λ e, location_renderable e = true) (p_events p)
      ∧ exit_status run = 1%Z
      ∧ events_md (files run) = Some (empty_report default_config).
Proof.
  split; [reflexivity |]. eexists _, _, _.
  split; [vm_compute; reflexivity |]. split; [vm_compute; reflexivity |].
  split; [vm_compute; reflexivity |].
  assert (Hnot : ¬ Forall (λ e, location_renderable e = true) [flat_view numbered_venue]).
  { intros Hall. apply Forall_cons in Hall as [He _]. vm_compute in He. discriminate. }
  split; [exact Hnot |].
  destruct (main_succeeds_only_if fixed_iso sample_repr sample_exc_text default_config
              numbered_world no_files "TOKEN" _ _ _ eq_refl eq_refl eq_refl)
    as [_ Hpayload].
  destruct (Hpayload _ eq_refl) as [_ Hfails].
  destruct (Hfails Hnot) as (Hstatus & _ & Hmd). by split.
Defined.
